(** * Debt payoff projection and reminder scheduling

    A shallow embedding of the two TypeScript components of the tracker that
    carry its logic:

    - [DebtManager] (the payoff summary: months to pay a debt off, and the
      ranking of the debts by that horizon), and
    - [App] (the reminder computation, the payment and debt handlers, and the
      system-notification dispatch).

    Conventions of the embedding.

    - The payoff summary tests and divides rounded products, and takes
      logarithms that can be [NaN]: its numbers are IEEE doubles, the
      primitive [float] of Rocq, with the operators of the source on them.
      [Math.log], which ECMAScript leaves to the implementation outside a
      few arguments, is a parameter of the summary.
    - In the handlers and in the rest of the view a JavaScript [number]
      holding an amount is a real number.  The values a computation can
      add to the finite reals ([Infinity], and the [NaN] of
      [Infinity - Infinity]) are constructors of [number].
    - Day numbers and timestamps are integers ([Z]).
    - Objects that the code only ever copies are values.  The history
      entries, the one kind of object the code assigns a property of, live
      in a store and are held by reference. *)

From stdpp Require Import gmap list.
From Stdlib Require Import Reals Lra ZArith Lia String Ascii Sorted Permutation DecimalString.
From Stdlib Require Import DecimalZ Floats.
Import ListNotations.

Local Open Scope string_scope.

(** ** JavaScript values used by the two components *)

Module JS.

(** The numbers a computation of the source can produce. *)
Inductive number : Type :=
| Num (x : R)
| Infinity
| NegInfinity
| NaN.

Local Open Scope R_scope.

(** [a - b] on numbers: the finite case is real subtraction, and
    [Infinity - Infinity] is [NaN]. *)
Definition sub (a b : number) : number :=
  match a, b with
  | NaN, _ | _, NaN => NaN
  | Num x, Num y => Num (x - y)
  | Num _, Infinity => NegInfinity
  | Num _, NegInfinity => Infinity
  | Infinity, Infinity => NaN
  | Infinity, _ => Infinity
  | NegInfinity, NegInfinity => NaN
  | NegInfinity, _ => NegInfinity
  end.

(** [v > 0]. *)
Definition positive (v : number) : bool :=
  match v with
  | Num x => if Rlt_dec 0 x then true else false
  | Infinity => true
  | NegInfinity | NaN => false
  end.

(** [a === b] on numbers ([NaN] equals nothing). *)
Definition strict_eq (a b : number) : bool :=
  match a, b with
  | Num x, Num y => if Req_dec_T x y then true else false
  | Infinity, Infinity => true
  | NegInfinity, NegInfinity => true
  | _, _ => false
  end.

(** The one-character string of a double quote. *)
Definition quote : string := String (ascii_of_nat 34) EmptyString.

(** [`${n}`] for an integer [n]: its decimal digits, with a leading minus
    sign when negative. *)
Definition toString (n : Z) : string :=
  NilZero.string_of_int (Z.to_int n).

(** *** [Array.prototype.sort]

    ECMAScript specifies the sort as stable, and reads the comparator
    through [SortCompare], which turns a [NaN] answer into [+0].  A stable
    insertion sort is used for it: [x] goes after [y] only when the
    comparator says [x > y]. *)
Section Sort.
Context {A : Type} (comparefn : A -> A -> number).

Definition SortCompare (x y : A) : number :=
  match comparefn x y with
  | NaN => Num 0
  | v => v
  end.

Fixpoint insert (x : A) (l : list A) : list A :=
  match l with
  | [] => [x]
  | y :: l' =>
      if positive (SortCompare x y) then y :: insert x l'
      else x :: y :: l'
  end.

Fixpoint sort (l : list A) : list A :=
  match l with
  | [] => []
  | x :: l' => insert x (sort l')
  end.
End Sort.

(** *** Doubles

    Truthiness of a double: [+0], [-0] and [NaN] are falsy. *)
Definition falsy (x : float) : bool := (x =? 0)%float || is_nan x.

(** The place of a double in the order of the doubles, used to reason
    about [<], [<=], [===] and the sign of a difference: a finite double
    [m * 2^e] is at the integer [m * 2^(e + 1074)] (no exponent is below
    -1074), the infinities are at [2^2098] and [-2^2098], the zeros at 0. *)
Definition key (x : spec_float) : Z :=
  match x with
  | S754_zero _ => 0
  | S754_infinity s => cond_Zopp s (2 ^ 2098)
  | S754_nan => 0
  | S754_finite s m e => cond_Zopp s (Zpos m * 2 ^ (e + 1074))
  end.

Definition rank (x : float) : Z := key (Prim2SF x).

(** [Array.prototype.sort] with a comparator whose answer is a double:
    [SortCompare] turns a [NaN] answer into [+0], and [x] goes after [y]
    only when the answer is greater than 0. *)
Section Sort64.
Context {A : Type} (comparefn : A -> A -> float).

Definition SortCompare64 (x y : A) : float :=
  let v := comparefn x y in
  if is_nan v then 0%float else v.

Fixpoint insert64 (x : A) (l : list A) : list A :=
  match l with
  | [] => [x]
  | y :: l' =>
      if (0 <? SortCompare64 x y)%float then y :: insert64 x l'
      else x :: y :: l'
  end.

Fixpoint sort64 (l : list A) : list A :=
  match l with
  | [] => []
  | x :: l' => insert64 x (sort64 l')
  end.
End Sort64.

(** *** [Math.floor], [Math.ceil] and [%] on finite numbers *)

Definition floor (x : R) : Z := Int_part x.

Definition ceil (x : R) : Z := (- Int_part (- x))%Z.

(** [x % y] for finite [x] and [y <> 0]: the remainder of the division
    truncated towards zero, with the sign of [x]. *)
Definition rem (x y : R) : R :=
  let q := x / y in
  x - y * IZR (if Rle_dec 0 q then floor q else ceil q).

End JS.

(** ** The data model

    The two components import their types from [types.ts], whose
    declarations are given here from the snapshot shape of the
    specification, with the types the source uses the fields at. *)

Module Debt.
(** Modelled from the spec: the interface [Debt] of [types.ts].  [dueDay]
    and [interestRate] are optional. *)
Record t : Type := mk {
  id : string;
  name : string;
  initialAmount : R;
  currentAmount : R;
  minPayment : R;
  color : string;
  dueDay : option Z;
  interestRate : option R
}.
End Debt.

Module Debt64.
(** Modelled from the spec: the interface [Debt] of [types.ts] as the
    payoff summary reads it, each [number] field an IEEE double. *)
Record t : Type := mk {
  id : string;
  name : string;
  initialAmount : float;
  currentAmount : float;
  minPayment : float;
  color : string;
  dueDay : option Z;
  interestRate : option float
}.
End Debt64.

(** Modelled from the spec: the frequencies ['Monthly'], ['Weekly'] and
    ['Bi-weekly'] of an expense. *)
Inductive Frequency : Type := Monthly | Weekly | BiWeekly.

Module Expense.
(** Modelled from the spec: the interface [Expense] of [types.ts].  The
    source tests [frequency] for absence and [dueDay] against
    [undefined]. *)
Record t : Type := mk {
  id : string;
  name : string;
  amount : R;
  category : string;
  frequency : option Frequency;
  dueDay : option Z
}.
End Expense.

Module Income.
(** Modelled from the spec: the interface [Income] of [types.ts]. *)
Record t : Type := mk { id : string; source : string; amount : R }.
End Income.

Module Payment.
(** Modelled from the spec: the interface [Payment] of [types.ts]. *)
Record t : Type := mk {
  id : string;
  debtId : string;
  amount : R;
  date : string;
  recordedBy : string
}.
End Payment.

Module HistoryEntry.
(** Modelled from the spec: an element of [FinancialState.history]. *)
Record t : Type := mk { date : string; totalDebt : R }.
End HistoryEntry.

(** A reference to a history entry object. *)
Abbreviation ref := nat.

Module FinancialState.
(** Modelled from the spec: the interface [FinancialState] of [types.ts].
    The history array holds its entries by reference. *)
Record t : Type := mk {
  debts : list Debt.t;
  expenses : list Expense.t;
  incomes : list Income.t;
  payments : list Payment.t;
  history : list ref
}.
End FinancialState.

(** Modelled from the spec: the kinds ['info'] and ['warning'] of a
    reminder. *)
Inductive NotificationType : Type := info | warning.

Module NotificationItem.
(** Modelled from the spec: the interface [NotificationItem] of
    [types.ts]. *)
Record t : Type := mk {
  id : string;
  type : NotificationType;
  title : string;
  message : string
}.
End NotificationItem.

(** ** DebtManager: the payoff summary *)

Module DebtManager.

Import JS.
Local Open Scope float_scope.

(** [debt.interestRate || 0]: an absent rate, a rate of zero and a [NaN]
    rate all give zero. *)
Definition interestRate_or_0 (debt : Debt64.t) : float :=
  match Debt64.interestRate debt with
  | Some x => if falsy x then 0 else x
  | None => 0
  end.

(** [{ ...debt, payoffMonths: months }]. *)
Record PayoffEntry : Type := mkEntry {
  debt : Debt64.t;
  months : float
}.

(** The comparator [(a, b) => a.payoffMonths - b.payoffMonths]. *)
Definition byPayoffMonths (a b : PayoffEntry) : float :=
  months a - months b.

(** *** The horizon of the specification *)
Inductive Horizon : Type :=
| Finite (months : float)
| Unpayable.

(** How the source stores a horizon in [payoffMonths]: a finite number of
    months as that number, [Unpayable] as the number [Infinity]. *)
Definition number_of_horizon (h : Horizon) : float :=
  match h with
  | Finite x => x
  | Unpayable => infinity
  end.

(** [months === Infinity], the test of the view for a debt that is never
    paid off. *)
Definition isUnpayable (e : PayoffEntry) : bool := months e =? infinity.

(** The order of the ranking: [x] has at most the horizon of [y]. *)
Definition entry_le (x y : PayoffEntry) : Prop := (months x <=? months y) = true.

(** The horizon of the entry is a number or an infinity, not [NaN]. *)
Definition ranked_domain (e : PayoffEntry) : Prop := is_nan (months e) = false.

Section PayoffSummary.
(** [Math.log]. *)
Variable Math_log : float -> float.

(** The body of the [map] callback of [payoffSummary]: the value of
    [months] for one debt. *)
Definition payoffMonths (debt : Debt64.t) : float :=
  if Debt64.currentAmount debt <=? 0 then 0
  else if Debt64.minPayment debt <=? 0 then infinity
  else
    let r := interestRate_or_0 debt / 100 / 12 in
    let p := Debt64.currentAmount debt in
    let a := Debt64.minPayment debt in
    if r =? 0 then p / a
    else if a <=? p * r then infinity
    else Math_log (a / (a - p * r)) / Math_log (1 + r).

Definition withPayoff (d : Debt64.t) : PayoffEntry :=
  {| debt := d; months := payoffMonths d |}.

Definition payoffSummary (debts : list Debt64.t) : list PayoffEntry :=
  sort64 byPayoffMonths (map withPayoff debts).

(** [PayoffCalculator] is written from the words of the specification, to
    be compared with [payoffMonths]. *)
Definition PayoffCalculator
    (currentAmount minPayment : float) (annualInterestRate : option float) : Horizon :=
  let r := match annualInterestRate with Some x => x | None => 0 end / 100 / 12 in
  if currentAmount <=? 0 then Finite 0
  else if minPayment <=? 0 then Unpayable
  else if r =? 0 then Finite (currentAmount / minPayment)
  else if minPayment <=? currentAmount * r then Unpayable
  else Finite (Math_log (minPayment / (minPayment - currentAmount * r)) / Math_log (1 + r)).
End PayoffSummary.

End DebtManager.

(** ** App: reminders, handlers and the notification dispatch *)

Module App.

(** What the reminder computation reads of [new Date()]. *)
Record Date : Type := mkDate {
  getDate : Z;  (* day of the month, 1-31 *)
  getDay : Z;   (* day of the week, 0-6, 0 = Sunday *)
  getTime : Z   (* milliseconds since the epoch *)
}.

(** Truthiness of an optional day: [undefined] and [0] are falsy. *)
Definition truthy (day : option Z) : bool :=
  match day with
  | Some k => negb (k =? 0)%Z
  | None => false
  end.

(** [array.forEach(x => { ... notes.push(...) ... })]: the callback [f]
    gives the items it pushes for [x], in order. *)
Definition forEach {A B : Type} (l : list A) (f : A -> list B) (notes : list B) : list B :=
  fold_left (fun acc x => (acc ++ f x)%list) l notes.

Section CalculateNotifications.
Variable today : Date.

Let currentDay : Z := getDate today.
Let currentDayOfWeek : Z := getDay today.

Local Open Scope Z_scope.

(** 1. Monthly check-in. *)
Definition monthlyCheckin : list NotificationItem.t :=
  if currentDay <=? 3 then
    [ {| NotificationItem.id := "monthly-checkin";
         NotificationItem.type := info;
         NotificationItem.title := "Inicio de Mes";
         NotificationItem.message :=
           "Es momento de registrar tus ingresos del mes para actualizar el presupuesto." |} ]
  else [].

Definition dueTodayItem (debt : Debt.t) : NotificationItem.t :=
  {| NotificationItem.id := "debt-due-" ++ Debt.id debt;
     NotificationItem.type := warning;
     NotificationItem.title := "¡Vencimiento Hoy!";
     NotificationItem.message :=
       "El pago mínimo de " ++ Debt.name debt ++ " vence hoy. Evita recargos." |}.

Definition upcomingItem (debt : Debt.t) (daysLeft : Z) : NotificationItem.t :=
  {| NotificationItem.id := "debt-upcoming-" ++ Debt.id debt;
     NotificationItem.type := info;
     NotificationItem.title := "Pago Próximo";
     NotificationItem.message :=
       "El pago de " ++ Debt.name debt ++ " es en " ++ JS.toString daysLeft ++ " días." |}.

(** 2. The callback of [data.debts.forEach]. *)
Definition debtReminder (debt : Debt.t) : list NotificationItem.t :=
  if (if Rlt_dec 0 (Debt.currentAmount debt) then true else false)
       && truthy (Debt.dueDay debt)
  then
    match Debt.dueDay debt with
    | Some dueDay =>
        if currentDay =? dueDay then [dueTodayItem debt]
        else if (dueDay >? currentDay) && (dueDay <=? currentDay + 3) then
          let daysLeft := dueDay - currentDay in
          [upcomingItem debt daysLeft]
        else []
    | None => []
    end
  else [].

Definition dayIs (day : option Z) (n : Z) : bool :=
  match day with
  | Some k => n =? k
  | None => false
  end.

(** The three frequency tests of the expense callback, run in sequence
    on [(shouldNotify, msg)]. *)
Definition expenseCheck (exp : Expense.t) : bool * string :=
  let s0 := (false, EmptyString) in
  let s1 :=
    match Expense.frequency exp with
    | None | Some Monthly =>
        if truthy (Expense.dueDay exp) && dayIs (Expense.dueDay exp) currentDay
        then (true, "Hoy corresponde pagar/apartar: " ++ Expense.name exp ++ ".")
        else s0
    | _ => s0
    end in
  let s2 :=
    match Expense.frequency exp with
    | Some Weekly =>
        if dayIs (Expense.dueDay exp) currentDayOfWeek
        then (true, "Semanal: Hoy toca el gasto de " ++ Expense.name exp ++ ".")
        else s1
    | _ => s1
    end in
  match Expense.frequency exp with
  | Some BiWeekly =>
      if truthy (Expense.dueDay exp)
         && (dayIs (Expense.dueDay exp) currentDay
             || dayIs (option_map (fun k => k + 15) (Expense.dueDay exp)) currentDay)
      then (true, "Quincenal: Hoy corresponde el gasto de " ++ Expense.name exp ++ ".")
      else s2
  | _ => s2
  end.

Definition expenseItem (exp : Expense.t) (msg : string) : NotificationItem.t :=
  {| NotificationItem.id :=
       "exp-" ++ Expense.id exp ++ "-" ++ JS.toString (getTime today);
     NotificationItem.type := info;
     NotificationItem.title := "Gasto Fijo";
     NotificationItem.message := msg |}.

(** 3. The callback of [data.expenses.forEach]. *)
Definition expenseReminder (exp : Expense.t) : list NotificationItem.t :=
  let '(shouldNotify, msg) := expenseCheck exp in
  if shouldNotify then [expenseItem exp msg] else [].

(** The value handed to [setNotifications]. *)
Definition calculateNotifications (data : FinancialState.t) : list NotificationItem.t :=
  let notes := [] in
  let notes := (notes ++ monthlyCheckin)%list in
  let notes := forEach (FinancialState.debts data) debtReminder notes in
  let notes := forEach (FinancialState.expenses data) expenseReminder notes in
  notes.
End CalculateNotifications.

(** *** The expense rules of the specification

    [fixedExpenseRule] is written from the words of the specification, for
    a day of the month [d] and a day of the week [w], to be compared with
    [expenseReminder]: undefined or Monthly with dueDay = d; Weekly with
    dueDay = w; Bi-weekly with dueDay = d or dueDay = d - 15 (that is,
    d = dueDay + 15). *)
Definition fixedExpenseRule (d w : Z) (exp : Expense.t) : Prop :=
  ((Expense.frequency exp = None \/ Expense.frequency exp = Some Monthly)
   /\ Expense.dueDay exp = Some d)
  \/ (Expense.frequency exp = Some Weekly /\ Expense.dueDay exp = Some w)
  \/ (Expense.frequency exp = Some BiWeekly
      /\ (Expense.dueDay exp = Some d \/ Expense.dueDay exp = Some (d - 15)%Z)).

(** The same rules with the guard of the source on the bi-weekly day: a day
    entered as 0 counts as not set. *)
Definition fixedExpenseRule_guarded (d w : Z) (exp : Expense.t) : Prop :=
  ((Expense.frequency exp = None \/ Expense.frequency exp = Some Monthly)
   /\ Expense.dueDay exp = Some d)
  \/ (Expense.frequency exp = Some Weekly /\ Expense.dueDay exp = Some w)
  \/ (Expense.frequency exp = Some BiWeekly
      /\ Expense.dueDay exp <> Some 0%Z
      /\ (Expense.dueDay exp = Some d \/ Expense.dueDay exp = Some (d - 15)%Z)).

(** The due day of an expense in the data model of the specification: for
    a Monthly or Bi-weekly expense (or one with no frequency) a day of the
    month, 1 to 31; for a Weekly one a day of the week, 0 to 6. *)
Definition dueDayInModel (exp : Expense.t) : Prop :=
  match Expense.dueDay exp with
  | None => True
  | Some k =>
      match Expense.frequency exp with
      | Some Weekly => (0 <= k <= 6)%Z
      | _ => (1 <= k <= 31)%Z
      end
  end.

(** The message of the reminder of an expense. *)
Definition fixedExpenseMessage (exp : Expense.t) : string :=
  match Expense.frequency exp with
  | None | Some Monthly => "Hoy corresponde pagar/apartar: " ++ Expense.name exp ++ "."
  | Some Weekly => "Semanal: Hoy toca el gasto de " ++ Expense.name exp ++ "."
  | Some BiWeekly => "Quincenal: Hoy corresponde el gasto de " ++ Expense.name exp ++ "."
  end.

(** *** The snapshot and the store of history entries *)

(** The history entry objects; a snapshot's [history] array holds
    references into it. *)
Abbreviation Store := (gmap ref HistoryEntry.t).

(** What a reader of snapshot [st] sees as its history when the store is
    [store]. *)
Definition readHistory (store : Store) (st : FinancialState.t) : list (option HistoryEntry.t) :=
  map (fun l => store !! l) (FinancialState.history st).

(** The function handed to [setData]: from the previous snapshot to the
    next one, with the store it leaves behind. *)
Definition Updater : Type := Store -> FinancialState.t -> Store * FinancialState.t.

(** An updater built from spreads, [map] and [filter] alone allocates no
    history entry and writes to none. *)
Definition copying (f : FinancialState.t -> FinancialState.t) : Updater :=
  fun store prev => (store, f prev).

(** [{ ...debt, id: newId }]. *)
Definition withId (debt : Debt.t) (newId : string) : Debt.t :=
  {| Debt.id := newId;
     Debt.name := Debt.name debt;
     Debt.initialAmount := Debt.initialAmount debt;
     Debt.currentAmount := Debt.currentAmount debt;
     Debt.minPayment := Debt.minPayment debt;
     Debt.color := Debt.color debt;
     Debt.dueDay := Debt.dueDay debt;
     Debt.interestRate := Debt.interestRate debt |}.

(** [{ ...d, currentAmount: amount }]. *)
Definition withCurrentAmount (d : Debt.t) (amount : R) : Debt.t :=
  {| Debt.id := Debt.id d;
     Debt.name := Debt.name d;
     Debt.initialAmount := Debt.initialAmount d;
     Debt.currentAmount := amount;
     Debt.minPayment := Debt.minPayment d;
     Debt.color := Debt.color d;
     Debt.dueDay := Debt.dueDay d;
     Debt.interestRate := Debt.interestRate d |}.

(** [{ ...prev, debts: debts }]. *)
Definition withDebts (prev : FinancialState.t) (debts : list Debt.t) : FinancialState.t :=
  {| FinancialState.debts := debts;
     FinancialState.expenses := FinancialState.expenses prev;
     FinancialState.incomes := FinancialState.incomes prev;
     FinancialState.payments := FinancialState.payments prev;
     FinancialState.history := FinancialState.history prev |}.

(** The updater of [handleAddDebt]; [newId] is the value of
    [generateId()].  The argument is an [Omit<Debt, 'id'>]: the [id] of
    [debt] is not read. *)
Definition addDebt (debt : Debt.t) (newId : string) : Updater :=
  copying (fun prev =>
    let newDebt := withId debt newId in
    withDebts prev (FinancialState.debts prev ++ [newDebt])%list).

(** The updater of [handleUpdateDebt]. *)
Definition updateDebt (updatedDebt : Debt.t) : Updater :=
  copying (fun prev =>
    withDebts prev
      (map (fun d => if String.eqb (Debt.id d) (Debt.id updatedDebt) then updatedDebt else d)
           (FinancialState.debts prev))).

(** The updater of [handleDeleteDebt]. *)
Definition deleteDebt (id : string) : Updater :=
  copying (fun prev =>
    withDebts prev
      (List.filter (fun d => negb (String.eqb (Debt.id d) id)) (FinancialState.debts prev))).

(** [prev.debts.map(d => d.id === debtId ? { ...d, currentAmount:
    Math.max(0, d.currentAmount - amount) } : d)]. *)
Definition payDebts (debtId : string) (amount : R) (debts : list Debt.t) : list Debt.t :=
  map (fun d =>
         if String.eqb (Debt.id d) debtId
         then withCurrentAmount d (Rmax 0 (Debt.currentAmount d - amount))
         else d)
      debts.

(** [updatedDebts.reduce((acc, d) => acc + d.currentAmount, 0)]. *)
Definition totalDebtOf (debts : list Debt.t) : R :=
  fold_left (fun acc d => (acc + Debt.currentAmount d)%R) debts 0%R.

(** The updater of [handleMakePayment].  [date] is the ISO day of the
    payment, [newId] the value of [generateId()].  [newHistory] is a new
    array of the same references as [prev.history], so the assignment to
    [lastHist.totalDebt] writes to the entry that [prev.history] holds as
    well; a pushed entry is a new object. *)
Definition makePayment
    (debtId : string) (amount : R) (date newId currentUser : string) : Updater :=
  fun store prev =>
    let updatedDebts := payDebts debtId amount (FinancialState.debts prev) in
    let newTotalDebt := totalDebtOf updatedDebts in
    let newHistory := FinancialState.history prev in
    let pushed :=
      let l := fresh (dom store) in
      (<[l := {| HistoryEntry.date := date; HistoryEntry.totalDebt := newTotalDebt |}]> store,
       (newHistory ++ [l])%list) in
    let '(store', newHistory') :=
      match last newHistory with
      | Some lastHist =>
          match store !! lastHist with
          | Some entry =>
              if String.eqb (HistoryEntry.date entry) (String.substring 0 7 date)
              then (<[lastHist := {| HistoryEntry.date := HistoryEntry.date entry;
                                    HistoryEntry.totalDebt := newTotalDebt |}]> store,
                    newHistory)
              else pushed
          | None => pushed
          end
      | None => pushed
      end in
    (store',
     {| FinancialState.debts := updatedDebts;
        FinancialState.expenses := FinancialState.expenses prev;
        FinancialState.incomes := FinancialState.incomes prev;
        FinancialState.payments :=
          (FinancialState.payments prev ++
           [ {| Payment.id := newId; Payment.debtId := debtId; Payment.amount := amount;
                Payment.date := date; Payment.recordedBy := currentUser |} ])%list;
        FinancialState.history := newHistory' |}).

(** *** The notification dispatch *)

Inductive VisibilityState : Type := visible | hidden.

Inductive NotificationPermission : Type := granted | denied | default.

(** The platform as the dispatch reads it: [Notification] is [None] when
    ['Notification' in window] is false, and its permission otherwise. *)
Record Window : Type := mkWindow {
  Notification : option NotificationPermission;
  visibilityState : VisibilityState
}.

(** A constructed [new Notification(title, { body, icon })]. *)
Record SystemNotification : Type := mkSystemNotification {
  title : string;
  body : string;
  icon : string
}.

(** The value of [pushEnabled] once the permission effect has run and the
    permission request, when one is made, has been answered with
    [answer]. *)
Definition permissionEffect (window : Window) (answer : NotificationPermission) : bool :=
  match Notification window with
  | Some granted => true
  | Some _ => match answer with granted => true | _ => false end
  | None => false
  end.

(** The component: its state, the store, and the system notifications it
    has constructed so far. *)
Record Component : Type := mkComponent {
  data : FinancialState.t;
  store : Store;
  currentUser : string;
  pushEnabled : bool;
  shown : list SystemNotification
}.

Definition setData (u : Updater) (c : Component) : Component :=
  let '(store', next) := u (store c) (data c) in
  {| data := next; store := store'; currentUser := currentUser c;
     pushEnabled := pushEnabled c; shown := shown c |}.

Definition sendSystemNotification
    (window : Window) (title body : string) (c : Component) : Component :=
  if pushEnabled c
     && (match Notification window with Some _ => true | None => false end)
     && (match visibilityState window with hidden => true | visible => false end)
  then
    {| data := data c; store := store c; currentUser := currentUser c;
       pushEnabled := pushEnabled c;
       shown := (shown c ++
                 [ {| title := title; body := body;
                      icon := "https://cdn-icons-png.flaticon.com/512/2933/2933116.png" |} ])%list |}
  else c.

(** Whether [sendSystemNotification] constructs a notification. *)
Definition dispatches (window : Window) (c : Component) : bool :=
  pushEnabled c
  && (match Notification window with Some _ => true | None => false end)
  && (match visibilityState window with hidden => true | visible => false end).

Section Handlers.
(** [`${amount}`] for an amount: the digits ECMAScript prints for a
    double, left open. *)
Variable amountToString : R -> string.
Variable window : Window.

Definition handleAddDebt (debt : Debt.t) (newId : string) (c : Component) : Component :=
  let c1 := setData (addDebt debt newId) c in
  sendSystemNotification window "Nueva Deuda"
    (currentUser c ++ " agregó la deuda " ++ JS.quote ++ Debt.name debt ++ JS.quote) c1.

Definition handleUpdateDebt (updatedDebt : Debt.t) (c : Component) : Component :=
  setData (updateDebt updatedDebt) c.

Definition handleDeleteDebt (id : string) (c : Component) : Component :=
  setData (deleteDebt id) c.

(** [data.debts.find(d => d.id === debtId)?.name || 'Deuda']. *)
Definition debtNameOf (debtId : string) (debts : list Debt.t) : string :=
  match List.find (fun d => String.eqb (Debt.id d) debtId) debts with
  | Some d => if String.eqb (Debt.name d) EmptyString then "Deuda" else Debt.name d
  | None => "Deuda"
  end.

Definition handleMakePayment
    (debtId : string) (amount : R) (date newId : string) (c : Component) : Component :=
  let debtName := debtNameOf debtId (FinancialState.debts (data c)) in
  let c1 := setData (makePayment debtId amount date newId (currentUser c)) c in
  sendSystemNotification window "Pago Registrado"
    (currentUser c ++ " pagó $" ++ amountToString amount ++ " a " ++ debtName) c1.
End Handlers.

End App.

(** ** DebtManager: the form handlers and the rest of the view *)

Module DebtManagerView.

Import JS.

(** The form state [newDebt], a [Partial<Debt> & { color: string }] that
    the form always holds with a [name]. *)
Record NewDebt : Type := mkNewDebt {
  name : string;
  initialAmount : option R;
  currentAmount : option R;
  minPayment : option R;
  color : string;
  dueDay : option Z;
  interestRate : option R
}.

(** The blank form that [useState] starts with and a submission resets
    to. *)
Definition blankNewDebt : NewDebt :=
  {| name := EmptyString; initialAmount := Some 0%R; currentAmount := Some 0%R;
     minPayment := Some 0%R; color := "#64748b"; dueDay := None; interestRate := None |}.

(** [x || 0] on an optional amount. *)
Definition or_0 (x : option R) : R :=
  match x with
  | Some v => if Req_dec_T v 0 then 0%R else v
  | None => 0%R
  end.

(** The part of the component state that [handleAddSubmit] writes. *)
Record AddForm : Type := mkAddForm {
  isAdding : bool;
  newDebt : NewDebt
}.

(** [handleAddSubmit]: the argument it calls [onAddDebt] with, if it calls
    it, and the form state it leaves.  The debt passed has no [id] yet; its
    [id] field here is the empty string, which [handleAddDebt] does not
    read. *)
Definition handleAddSubmit (form : AddForm) : option Debt.t * AddForm :=
  match negb (String.eqb (name (newDebt form)) EmptyString), currentAmount (newDebt form) with
  | true, Some current =>
      (Some {| Debt.id := EmptyString;
               Debt.name := name (newDebt form);
               Debt.initialAmount := or_0 (initialAmount (newDebt form));
               Debt.currentAmount := current;
               Debt.minPayment := or_0 (minPayment (newDebt form));
               Debt.color := color (newDebt form);
               Debt.dueDay := dueDay (newDebt form);
               Debt.interestRate := interestRate (newDebt form) |},
       {| isAdding := false; newDebt := blankNewDebt |})
  | _, _ => (None, form)
  end.

(** [progress] of a debt in the list, in percent. *)
Definition progress (debt : Debt.t) : R :=
  if Rlt_dec 0 (Debt.initialAmount debt)
  then ((Debt.initialAmount debt - Debt.currentAmount debt) / Debt.initialAmount debt * 100)%R
  else 0%R.

(** The width of the progress bar:
    [mounted ? Math.min(100, Math.max(0, progress)) : 0]. *)
Definition barWidth (mounted : bool) (debt : Debt.t) : R :=
  if mounted then Rmin 100 (Rmax 0 (progress debt)) else 0%R.

(** The two numbers [formatTime] prints for a finite [months]. *)
Definition years (months : R) : Z := floor (months / 12).

Definition monthsLeft (months : R) : Z := ceil (rem months 12).

(** [`${m} mes${m !== 1 ? 'es' : ''}`]. *)
Definition mesText (m : Z) : string :=
  toString m ++ " mes" ++ (if (m =? 1)%Z then EmptyString else "es").

(** [formatTime].  The integers are printed in decimal, as ECMAScript does
    below 10^21.  [-Infinity] and [NaN] leave [m] as [NaN]. *)
Definition formatTime (months : number) : string :=
  match months with
  | Num x =>
      if Req_dec_T x 0 then "Pagado"
      else
        let y := years x in
        let m := monthsLeft x in
        if (y >? 0)%Z
        then toString y ++ " año" ++ (if (y >? 1)%Z then "s" else EmptyString)
             ++ " " ++ mesText m
        else mesText m
  | Infinity => "Nunca (Interés > Pago)"
  | NegInfinity | NaN => "NaN meses"
  end.

(** What the payment dialog is open for. *)
Record PaymentModal : Type := mkPaymentModal {
  debtId : string;
  debtName : string
}.

Section PaymentHistory.
(** [new Date(s).getTime()] for a date string [s], left open: a finite
    number of milliseconds, or [NaN] for a string that is no date. *)
Variable Date_getTime : string -> number.

(** The comparator [(a, b) => new Date(b.date).getTime() - new
    Date(a.date).getTime()]. *)
Definition newestFirst (a b : Payment.t) : number :=
  sub (Date_getTime (Payment.date b)) (Date_getTime (Payment.date a)).

Definition paymentHistory
    (paymentModal : option PaymentModal) (payments : list Payment.t) : list Payment.t :=
  match paymentModal with
  | Some modal =>
      sort newestFirst
        (List.filter (fun p => String.eqb (Payment.debtId p) (debtId modal)) payments)
  | None => []
  end.

(** [a] is dated no earlier than [b], for two payments whose dates are
    dates. *)
Definition noOlder (a b : Payment.t) : Prop :=
  match Date_getTime (Payment.date a), Date_getTime (Payment.date b) with
  | Num ta, Num tb => (tb <= ta)%R
  | _, _ => False
  end.

Definition validDate (p : Payment.t) : Prop :=
  exists t, Date_getTime (Payment.date p) = Num t.
End PaymentHistory.

End DebtManagerView.

(** ** App: sequences of actions *)

Module Session.

Import App.

(** The four debt actions of the component, with the values that
    [generateId()] and the clock give when the action runs. *)
Inductive Action : Type :=
| AddDebt (debt : Debt.t) (newId : string)
| UpdateDebt (updatedDebt : Debt.t)
| DeleteDebt (id : string)
| MakePayment (debtId : string) (amount : R) (date newId : string).

Section Run.
Variable amountToString : R -> string.

(** One action, run while the platform is [window]. *)
Definition perform (window : Window) (a : Action) (c : Component) : Component :=
  match a with
  | AddDebt debt newId => handleAddDebt window debt newId c
  | UpdateDebt updatedDebt => handleUpdateDebt updatedDebt c
  | DeleteDebt id => handleDeleteDebt id c
  | MakePayment debtId amount date newId =>
      handleMakePayment amountToString window debtId amount date newId c
  end.

(** The actions of a session, in order, each with the platform state at
    its time. *)
Definition run (steps : list (Window * Action)) (c : Component) : Component :=
  fold_left (fun c step => perform (fst step) (snd step) c) steps c.
End Run.

(** The actions that call [sendSystemNotification]. *)
Definition notifies (a : Action) : bool :=
  match a with
  | AddDebt _ _ | MakePayment _ _ _ _ => true
  | UpdateDebt _ | DeleteDebt _ => false
  end.

(** Every reference of the history of [st] is to an entry of [store]. *)
Definition historyInStore (store : gmap ref HistoryEntry.t) (st : FinancialState.t) : Prop :=
  List.Forall (fun l => is_Some (store !! l)) (FinancialState.history st).

(** The last history entry of [st] is dated with more than the seven
    characters of a month, as the entries that a payment pushes are. *)
Definition lastEntryOfDay (store : gmap ref HistoryEntry.t) (st : FinancialState.t) : Prop :=
  exists l entry,
    last (FinancialState.history st) = Some l /\ store !! l = Some entry /\
    (7 < String.length (HistoryEntry.date entry))%nat.

End Session.

(** ** The initial state of the application, and sample inputs *)

Module Initial.
Local Open Scope R_scope.

Definition bbva : Debt.t :=
  {| Debt.id := "1"; Debt.name := "BBVA"; Debt.initialAmount := 50000;
     Debt.currentAmount := 45000; Debt.minPayment := 2500; Debt.color := "#1e40af";
     Debt.dueDay := Some 15%Z; Debt.interestRate := Some 45 |}.

Definition plataCard : Debt.t :=
  {| Debt.id := "2"; Debt.name := "Plata Card"; Debt.initialAmount := 15000;
     Debt.currentAmount := 12000; Debt.minPayment := 1000; Debt.color := "#ec4899";
     Debt.dueDay := Some 5%Z; Debt.interestRate := Some 65 |}.

Definition fovissste : Debt.t :=
  {| Debt.id := "3"; Debt.name := "Fovissste"; Debt.initialAmount := 800000;
     Debt.currentAmount := 750000; Debt.minPayment := 5000; Debt.color := "#f59e0b";
     Debt.dueDay := Some 28%Z; Debt.interestRate := Some 11 |}.

Definition luz : Expense.t :=
  {| Expense.id := "1"; Expense.name := "Luz"; Expense.amount := 500;
     Expense.category := "Services"; Expense.frequency := Some Monthly;
     Expense.dueDay := Some 10%Z |}.

Definition internet : Expense.t :=
  {| Expense.id := "2"; Expense.name := "Internet"; Expense.amount := 600;
     Expense.category := "Services"; Expense.frequency := Some Monthly;
     Expense.dueDay := Some 5%Z |}.

Definition comidaSemanal : Expense.t :=
  {| Expense.id := "3"; Expense.name := "Comida Semanal"; Expense.amount := 1000;
     Expense.category := "Food"; Expense.frequency := Some Weekly;
     Expense.dueDay := Some 1%Z |}.

Definition ninera : Expense.t :=
  {| Expense.id := "4"; Expense.name := "Niñera"; Expense.amount := 1500;
     Expense.category := "Nanny"; Expense.frequency := Some BiWeekly;
     Expense.dueDay := Some 15%Z |}.

(** The five history entries of [INITIAL_STATE], at references 0 to 4. *)
Definition INITIAL_STORE : gmap ref HistoryEntry.t :=
  <[4%nat := {| HistoryEntry.date := "2024-02"; HistoryEntry.totalDebt := 807000 |}]>
  (<[3%nat := {| HistoryEntry.date := "2024-01"; HistoryEntry.totalDebt := 825000 |}]>
  (<[2%nat := {| HistoryEntry.date := "2023-12"; HistoryEntry.totalDebt := 840000 |}]>
  (<[1%nat := {| HistoryEntry.date := "2023-11"; HistoryEntry.totalDebt := 855000 |}]>
  (<[0%nat := {| HistoryEntry.date := "2023-10"; HistoryEntry.totalDebt := 865000 |}]> ∅)))).

Definition INITIAL_STATE : FinancialState.t :=
  {| FinancialState.debts := [bbva; plataCard; fovissste];
     FinancialState.expenses := [luz; internet; comidaSemanal; ninera];
     FinancialState.incomes :=
       [ {| Income.id := "1"; Income.source := "Edna"; Income.amount := 18000 |};
         {| Income.id := "2"; Income.source := "Ronaldo"; Income.amount := 20000 |} ];
     FinancialState.payments := [];
     FinancialState.history := [0; 1; 2; 3; 4]%nat |}.

(** A debt whose payment does not cover the interest of a month
    (10000 at 60% a year, paying 50). *)
Definition interestOnly : Debt.t :=
  {| Debt.id := "9"; Debt.name := "Tarjeta"; Debt.initialAmount := 10000;
     Debt.currentAmount := 10000; Debt.minPayment := 50; Debt.color := "#64748b";
     Debt.dueDay := None; Debt.interestRate := Some 60 |}.

(** A debt due on the 2nd of the month. *)
Definition dueOnSecond : Debt.t :=
  {| Debt.id := "7"; Debt.name := "Auto"; Debt.initialAmount := 90000;
     Debt.currentAmount := 60000; Debt.minPayment := 3000; Debt.color := "#64748b";
     Debt.dueDay := Some 2%Z; Debt.interestRate := Some 12 |}.

(** A bi-weekly expense whose day was entered as 0. *)
Definition quincenaCero : Expense.t :=
  {| Expense.id := "5"; Expense.name := "Limpieza"; Expense.amount := 400;
     Expense.category := "Services"; Expense.frequency := Some BiWeekly;
     Expense.dueDay := Some 0%Z |}.

(** Saturday 10 February 2024, 00:00:00 and 00:01:00 UTC. *)
Definition feb10 : App.Date :=
  {| App.getDate := 10; App.getDay := 6; App.getTime := 1707523200000 |}.

Definition feb10_a_minute_later : App.Date :=
  {| App.getDate := 10; App.getDay := 6; App.getTime := 1707523260000 |}.

(** Thursday 15 February 2024, 12:00:00 UTC. *)
Definition feb15 : App.Date :=
  {| App.getDate := 15; App.getDay := 4; App.getTime := 1707998400000 |}.

(** Friday 12, Saturday 20 and Tuesday 30 January 2024, 12:00:00 UTC. *)
Definition jan12 : App.Date :=
  {| App.getDate := 12; App.getDay := 5; App.getTime := 1705060800000 |}.

Definition jan20 : App.Date :=
  {| App.getDate := 20; App.getDay := 6; App.getTime := 1705752000000 |}.

Definition jan30 : App.Date :=
  {| App.getDate := 30; App.getDay := 2; App.getTime := 1706616000000 |}.

(** The component on the initial state, with and without the permission
    recorded, and a page in the background and in the foreground. *)
Definition component0 : App.Component :=
  {| App.data := INITIAL_STATE; App.store := INITIAL_STORE; App.currentUser := "Edna";
     App.pushEnabled := true; App.shown := [] |}.

Definition component0_denied : App.Component :=
  {| App.data := INITIAL_STATE; App.store := INITIAL_STORE; App.currentUser := "Edna";
     App.pushEnabled := false; App.shown := [] |}.

Definition background : App.Window :=
  {| App.Notification := Some App.granted; App.visibilityState := App.hidden |}.

Definition foreground : App.Window :=
  {| App.Notification := Some App.granted; App.visibilityState := App.visible |}.

(** The digits of the amounts of the sample payments. *)
Definition sampleAmountToString (amount : R) : string := "1000".

End Initial.

(** ** Sample debts of the payoff summary *)

Module Initial64.
Local Open Scope float_scope.

(** The first debt of [INITIAL_STATE]. *)
Definition bbva : Debt64.t :=
  {| Debt64.id := "1"; Debt64.name := "BBVA"; Debt64.initialAmount := 50000;
     Debt64.currentAmount := 45000; Debt64.minPayment := 2500; Debt64.color := "#1e40af";
     Debt64.dueDay := Some 15%Z; Debt64.interestRate := Some 45 |}.

(** A debt whose payment does not cover the interest of a month
    (10000 at 60% a year, paying 50). *)
Definition interestOnly : Debt64.t :=
  {| Debt64.id := "9"; Debt64.name := "Tarjeta"; Debt64.initialAmount := 10000;
     Debt64.currentAmount := 10000; Debt64.minPayment := 50; Debt64.color := "#64748b";
     Debt64.dueDay := None; Debt64.interestRate := Some 60 |}.

(** A debt with no minimum payment entered. *)
Definition noPayment : Debt64.t :=
  {| Debt64.id := "8"; Debt64.name := "Familia"; Debt64.initialAmount := 3000;
     Debt64.currentAmount := 3000; Debt64.minPayment := 0; Debt64.color := "#64748b";
     Debt64.dueDay := None; Debt64.interestRate := None |}.

(** 10000 at 15% a year, paying 125: the payment is the interest of a
    month, 10000 * 0.0125, in exact arithmetic. *)
Definition roundedInterest : Debt64.t :=
  {| Debt64.id := "6"; Debt64.name := "Coche"; Debt64.initialAmount := 10000;
     Debt64.currentAmount := 10000; Debt64.minPayment := 125; Debt64.color := "#64748b";
     Debt64.dueDay := None; Debt64.interestRate := Some 15 |}.

(** Two debts without interest, of 30 and of 10 payments. *)
Definition thirtyMonths : Debt64.t :=
  {| Debt64.id := "5"; Debt64.name := "Muebles"; Debt64.initialAmount := 3000;
     Debt64.currentAmount := 3000; Debt64.minPayment := 100; Debt64.color := "#64748b";
     Debt64.dueDay := None; Debt64.interestRate := None |}.

Definition tenMonths : Debt64.t :=
  {| Debt64.id := "3"; Debt64.name := "Celular"; Debt64.initialAmount := 1000;
     Debt64.currentAmount := 1000; Debt64.minPayment := 100; Debt64.color := "#64748b";
     Debt64.dueDay := None; Debt64.interestRate := None |}.

(** 1000 at a rate of 1e-15 percent a year (the double nearest to it),
    paying 100. *)
Definition tinyRate : Debt64.t :=
  {| Debt64.id := "4"; Debt64.name := "Nomina"; Debt64.initialAmount := 1000;
     Debt64.currentAmount := 1000; Debt64.minPayment := 100; Debt64.color := "#64748b";
     Debt64.dueDay := None; Debt64.interestRate := Some 0x1.203af9ee75616p-50 |}.

(** 1000 at a rate entered as -1300 percent a year, paying 100. *)
Definition negativeRate : Debt64.t :=
  {| Debt64.id := "2"; Debt64.name := "Prestamo"; Debt64.initialAmount := 1000;
     Debt64.currentAmount := 1000; Debt64.minPayment := 100; Debt64.color := "#64748b";
     Debt64.dueDay := None; Debt64.interestRate := Some (-1300) |}.

(** A [Math.log] for the examples.  It has the values that ECMAScript
    fixes: [NaN] for [NaN] and for a negative argument, [-Infinity] at
    [+0] and [-0], [+0] at 1, [Infinity] at [Infinity].  Elsewhere, where
    an implementation approximates the logarithm, it is the estimate
    2(x - 1)/(x + 1). *)
Definition Math_log_sample (x : float) : float :=
  if is_nan x || (x <? 0) then nan
  else if x =? 0 then neg_infinity
  else if x =? 1 then 0
  else if x =? infinity then infinity
  else 2 * ((x - 1) / (x + 1)).

End Initial64.

(** ** Sample inputs of the forms and of the payment dialog *)

Module Samples.
Local Open Scope R_scope.

(** A filled form. *)
Definition filledForm : DebtManagerView.AddForm :=
  {| DebtManagerView.isAdding := true;
     DebtManagerView.newDebt :=
       {| DebtManagerView.name := "Nu"; DebtManagerView.initialAmount := Some 8000;
          DebtManagerView.currentAmount := Some 8000; DebtManagerView.minPayment := Some 400;
          DebtManagerView.color := "#820ad1"; DebtManagerView.dueDay := Some 20%Z;
          DebtManagerView.interestRate := Some 80 |} |}.

(** Three payments, two of them to the first debt. *)
Definition pagoEnero : Payment.t :=
  {| Payment.id := "a"; Payment.debtId := "1"; Payment.amount := 2500;
     Payment.date := "2024-01-15"; Payment.recordedBy := "Edna" |}.

Definition pagoFebrero : Payment.t :=
  {| Payment.id := "b"; Payment.debtId := "1"; Payment.amount := 2500;
     Payment.date := "2024-02-15"; Payment.recordedBy := "Ronaldo" |}.

Definition pagoPlata : Payment.t :=
  {| Payment.id := "c"; Payment.debtId := "2"; Payment.amount := 1000;
     Payment.date := "2024-02-05"; Payment.recordedBy := "Edna" |}.

(** The timestamps of the three dates, at 00:00:00 UTC. *)
Definition sampleGetTime (s : string) : JS.number :=
  if String.eqb s "2024-01-15" then JS.Num 1705276800000
  else if String.eqb s "2024-02-15" then JS.Num 1707955200000
  else if String.eqb s "2024-02-05" then JS.Num 1707091200000
  else JS.NaN.

Definition bbvaModal : DebtManagerView.PaymentModal :=
  {| DebtManagerView.debtId := "1"; DebtManagerView.debtName := "BBVA" |}.

(** A snapshot whose only history entry was pushed by a payment on
    1 March 2024. *)
Definition marchStore : gmap ref HistoryEntry.t :=
  <[0%nat := {| HistoryEntry.date := "2024-03-01"; HistoryEntry.totalDebt := 806000 |}]> ∅.

Definition marchState : FinancialState.t :=
  {| FinancialState.debts := [Initial.bbva; Initial.plataCard; Initial.fovissste];
     FinancialState.expenses := [];
     FinancialState.incomes := [];
     FinancialState.payments := [];
     FinancialState.history := [0%nat] |}.

End Samples.

(** * The order of the doubles

    The comparisons of doubles, and the sign of a difference, through
    [rank]. *)

Section DoubleOrder.
Local Open Scope Z_scope.

(** A mantissa of [d] binary digits lies between [2^(d-1)] and [2^d]. *)
Lemma digits2_pos_bounds (m : positive) :
  2 ^ (Zpos (digits2_pos m) - 1) <= Zpos m < 2 ^ Zpos (digits2_pos m).
Proof.
  induction m as [m IH|m IH|]; cbn [digits2_pos];
    [rewrite Pos2Z.inj_succ | rewrite Pos2Z.inj_succ | simpl; lia];
    replace (Z.succ (Z.pos (digits2_pos m)) - 1)
      with (Z.succ (Z.pos (digits2_pos m) - 1)) by lia;
    rewrite !Z.pow_succ_r by lia; lia.
Qed.

(** A finite double has an exponent from -1074 to 971 and a mantissa of at
    most 53 digits, of exactly 53 above the least exponent. *)
Lemma valid_finite (s : bool) (m : positive) (e : Z) :
  valid_binary (S754_finite s m e) = true ->
  -1074 <= e <= 971 /\ Zpos (digits2_pos m) <= 53 /\
  (-1074 < e -> Zpos (digits2_pos m) = 53).
Proof.
  unfold valid_binary, bounded, canonical_mantissa, fexp, SpecFloat.emin, prec, emax.
  intros H. apply andb_true_iff in H as [H1 H2].
  apply Z.eqb_eq in H1. apply Z.leb_le in H2. lia.
Qed.

(** The finite doubles lie strictly between the zeros and the
    infinities. *)
Lemma finite_key_bounds (s : bool) (m : positive) (e : Z) :
  valid_binary (S754_finite s m e) = true ->
  0 < Zpos m * 2 ^ (e + 1074) < 2 ^ 2098.
Proof.
  intros H. apply valid_finite in H as (He & Hd & _).
  pose proof (digits2_pos_bounds m) as [_ Hm].
  assert (H53 : 2 ^ Zpos (digits2_pos m) <= 2 ^ 53) by (apply Z.pow_le_mono_r; lia).
  assert (Hp : 0 < 2 ^ (e + 1074)) by (apply Z.pow_pos_nonneg; lia).
  assert (Hq : 2 ^ (e + 1074) <= 2 ^ 2045) by (apply Z.pow_le_mono_r; lia).
  split; [lia|].
  replace (2 ^ 2098) with (2 ^ 53 * 2 ^ 2045) by (rewrite <- Z.pow_add_r by lia; reflexivity).
  apply Z.lt_le_trans with (2 ^ 53 * 2 ^ (e + 1074)).
  - apply Z.mul_lt_mono_pos_r; lia.
  - apply Z.mul_le_mono_nonneg_l; [|lia]. apply Z.pow_nonneg. lia.
Qed.

(** Of two finite doubles, the one of the smaller exponent is the smaller
    in magnitude. *)
Lemma finite_key_lt (s1 s2 : bool) (m1 m2 : positive) (e1 e2 : Z) :
  valid_binary (S754_finite s1 m1 e1) = true ->
  valid_binary (S754_finite s2 m2 e2) = true ->
  e1 < e2 ->
  Zpos m1 * 2 ^ (e1 + 1074) < Zpos m2 * 2 ^ (e2 + 1074).
Proof.
  intros H1 H2 He.
  apply valid_finite in H1 as (He1 & Hd1 & _).
  apply valid_finite in H2 as (He2 & _ & Hd2).
  specialize (Hd2 ltac:(lia)).
  pose proof (digits2_pos_bounds m1) as [_ Hm1].
  pose proof (digits2_pos_bounds m2) as [Hm2 _]. rewrite Hd2 in Hm2.
  assert (H53 : 2 ^ Zpos (digits2_pos m1) <= 2 ^ 53) by (apply Z.pow_le_mono_r; lia).
  assert (Hp : 0 < 2 ^ (e1 + 1074)) by (apply Z.pow_pos_nonneg; lia).
  replace (e2 + 1074) with ((e1 + 1074) + (e2 - e1)) by lia.
  rewrite (Z.pow_add_r 2 (e1 + 1074) (e2 - e1)) by lia.
  assert (Hq : 2 ^ 1 <= 2 ^ (e2 - e1)) by (apply Z.pow_le_mono_r; lia).
  change (2 ^ 1) with 2 in Hq.
  change (2 ^ (53 - 1)) with 4503599627370496 in Hm2.
  change (2 ^ 53) with 9007199254740992 in H53.
  set (A := 2 ^ (e1 + 1074)) in *. set (B := 2 ^ (e2 - e1)) in *.
  assert (S1 : Zpos m1 * A < 9007199254740992 * A)
    by (apply Z.mul_lt_mono_pos_r; lia).
  assert (S2 : 9007199254740992 * A <= Zpos m2 * (A * 2)).
  { replace (9007199254740992 * A) with (4503599627370496 * (A * 2)) by lia.
    apply Z.mul_le_mono_nonneg_r; lia. }
  assert (S3 : Zpos m2 * (A * 2) <= Zpos m2 * (A * B)).
  { apply Z.mul_le_mono_nonneg_l; [lia|]. apply Z.mul_le_mono_nonneg_l; lia. }
  lia.
Qed.

Lemma compare_cont_Eq (m1 m2 : positive) :
  Pos.compare_cont Eq m1 m2 = (Zpos m1 ?= Zpos m2).
Proof. reflexivity. Qed.

(** The comparison of two doubles is the comparison of their keys. *)
Lemma key_compare (x y : spec_float) :
  valid_binary x = true -> valid_binary y = true ->
  x <> S754_nan -> y <> S754_nan ->
  SFcompare x y = Some (JS.key x ?= JS.key y).
Proof.
  intros Vx Vy Nx Ny.
  destruct x as [sx|sx| |sx mx ex], y as [sy|sy| |sy my ey]; try contradiction;
    try pose proof (finite_key_bounds _ _ _ Vx) as Bx;
    try pose proof (finite_key_bounds _ _ _ Vy) as By;
    assert (Hbig : 0 < 2 ^ 2098) by (apply Z.pow_pos_nonneg; lia);
    cbn [SFcompare JS.key]; f_equal.
  all: try (destruct sx; cbn [cond_Zopp]; symmetry;
            first [apply Z.compare_eq_iff | apply Z.compare_lt_iff | apply Z.compare_gt_iff]; lia).
  all: try (destruct sy; cbn [cond_Zopp]; symmetry;
            first [apply Z.compare_eq_iff | apply Z.compare_lt_iff | apply Z.compare_gt_iff]; lia).
  all: try (destruct sx, sy; cbn [cond_Zopp]; symmetry;
            first [apply Z.compare_eq_iff | apply Z.compare_lt_iff | apply Z.compare_gt_iff]; lia).
  (* finite, finite *)
  assert (Hp : forall e, 2 ^ (e + 1074) > 0 \/ e + 1074 < 0).
  { intros e. destruct (Z.le_gt_cases 0 (e + 1074)); [left | right; lia].
    apply Z.lt_gt, Z.pow_pos_nonneg; lia. }
  destruct sx, sy; cbn [cond_Zopp]; symmetry.
  - destruct (Z.compare_spec ex ey) as [E|E|E].
    + subst ey. rewrite Z.compare_opp, compare_cont_Eq.
      destruct (Hp ex) as [Hpos|Hneg]; [|apply valid_finite in Vx; lia].
      rewrite <- Zmult_compare_compat_r by exact Hpos. apply Z.compare_antisym.
    + pose proof (finite_key_lt _ _ _ _ _ _ Vx Vy E). apply Z.compare_gt_iff. lia.
    + pose proof (finite_key_lt _ _ _ _ _ _ Vy Vx E). apply Z.compare_lt_iff. lia.
  - apply Z.compare_lt_iff. lia.
  - apply Z.compare_gt_iff. lia.
  - destruct (Z.compare_spec ex ey) as [E|E|E].
    + subst ey. rewrite compare_cont_Eq.
      destruct (Hp ex) as [Hpos|Hneg]; [|apply valid_finite in Vx; lia].
      rewrite <- Zmult_compare_compat_r by exact Hpos. reflexivity.
    + pose proof (finite_key_lt _ _ _ _ _ _ Vx Vy E). apply Z.compare_lt_iff. lia.
    + pose proof (finite_key_lt _ _ _ _ _ _ Vy Vx E). apply Z.compare_gt_iff. lia.
Qed.

(** Shifting right. *)
Lemma shr_1_m (mrs : shr_record) :
  0 <= shr_m mrs -> shr_m (shr_1 mrs) = Z.shiftr (shr_m mrs) 1.
Proof.
  destruct mrs as [m r s]. cbn [shr_m]. intros Hm.
  destruct m as [|p|p]; [reflexivity| |lia].
  destruct p; reflexivity.
Qed.

Lemma shr_iter_m (p : positive) (mrs : shr_record) :
  0 <= shr_m mrs -> shr_m (iter_pos shr_1 p mrs) = Z.shiftr (shr_m mrs) (Zpos p).
Proof.
  revert mrs. induction p as [p IH|p IH|]; intros mrs Hm; cbn [iter_pos].
  - assert (H1 : 0 <= shr_m (shr_1 mrs)) by (rewrite shr_1_m by lia; apply Z.shiftr_nonneg; lia).
    assert (H2 : 0 <= shr_m (iter_pos shr_1 p (shr_1 mrs)))
      by (rewrite IH by lia; apply Z.shiftr_nonneg; lia).
    rewrite IH by lia. rewrite IH by lia. rewrite shr_1_m by lia.
    rewrite !Z.shiftr_shiftr by lia. f_equal. lia.
  - assert (H2 : 0 <= shr_m (iter_pos shr_1 p mrs))
      by (rewrite IH by lia; apply Z.shiftr_nonneg; lia).
    rewrite IH by lia. rewrite IH by lia.
    rewrite !Z.shiftr_shiftr by lia. f_equal. lia.
  - apply shr_1_m, Hm.
Qed.

Lemma shr_fexp_pos (m : positive) (e : Z) (l : location) :
  -1074 <= e ->
  exists m' r s e',
    shr_fexp prec emax (Zpos m) e l = (Build_shr_record (Zpos m') r s, e') /\ -1074 <= e'.
Proof.
  intros He. unfold shr_fexp, fexp, SpecFloat.emin, prec, emax. cbn [Zdigits2].
  pose proof (digits2_pos_bounds m) as [Hlo _].
  set (d := Zpos (digits2_pos m)) in *.
  assert (Hd : 0 < d) by (unfold d; lia).
  destruct (Z.max (d + e - 53) (3 - 1024 - 53) - e) as [|n|n] eqn:En; cbn [shr].
  - destruct l as [|[| |]]; cbn [shr_record_of_loc]; do 4 eexists; split; try reflexivity; lia.
  - assert (Hn : Zpos n = d - 53) by lia.
    pose proof (shr_iter_m n (shr_record_of_loc (Zpos m) l)) as Hs.
    assert (Hm0 : shr_m (shr_record_of_loc (Zpos m) l) = Zpos m)
      by (destruct l as [|[| |]]; reflexivity).
    rewrite Hm0 in Hs. specialize (Hs ltac:(lia)).
    assert (Hpos : 0 < Z.shiftr (Zpos m) (Zpos n)).
    { rewrite Z.shiftr_div_pow2 by lia. apply Z.div_str_pos. split.
      - apply Z.pow_pos_nonneg; lia.
      - apply Z.le_trans with (2 ^ (d - 1)); [apply Z.pow_le_mono_r; lia | exact Hlo]. }
    destruct (iter_pos shr_1 n (shr_record_of_loc (Zpos m) l)) as [m' r s].
    cbn [shr_m] in Hs. destruct m' as [|m'|m']; try lia.
    do 4 eexists. split; [reflexivity | lia].
  - destruct l as [|[| |]]; cbn [shr_record_of_loc]; do 4 eexists; split; try reflexivity; lia.
Qed.

Lemma round_nearest_even_pos (m : positive) (l : location) :
  exists m', round_nearest_even (Zpos m) l = Zpos m'.
Proof.
  destruct l as [|[| |]]; cbn [round_nearest_even];
    try destruct (Z.even (Zpos m)); eexists; reflexivity.
Qed.

(** Rounding a positive integer mantissa at an exponent that is not below
    the least exponent gives a finite number or an infinity, of the same
    sign. *)
Lemma binary_round_aux_sign (s : bool) (m : positive) (e : Z) (l : location) :
  -1074 <= e ->
  (exists m' e', binary_round_aux prec emax s (Zpos m) e l = S754_finite s m' e')
  \/ binary_round_aux prec emax s (Zpos m) e l = S754_infinity s.
Proof.
  intros He. unfold binary_round_aux.
  destruct (shr_fexp_pos m e l He) as (m1 & r1 & s1 & e1 & -> & He1).
  cbn [shr_m].
  destruct (round_nearest_even_pos m1 (loc_of_shr_record (Build_shr_record (Zpos m1) r1 s1)))
    as [m2 ->].
  destruct (shr_fexp_pos m2 e1 loc_Exact He1) as (m3 & r3 & s3 & e3 & -> & He3).
  cbn [shr_m]. destruct (e3 <=? emax - prec); eauto.
Qed.

Lemma binary_round_sign (s : bool) (m : positive) (e : Z) :
  -1074 <= e ->
  (exists m' e', binary_round prec emax s m e = S754_finite s m' e')
  \/ binary_round prec emax s m e = S754_infinity s.
Proof.
  intros He. unfold binary_round, shl_align.
  assert (Hf : -1074 <= fexp prec emax (Zpos (digits2_pos m) + e))
    by (unfold fexp, SpecFloat.emin, prec, emax; lia).
  destruct (fexp prec emax (Z.pos (digits2_pos m) + e) - e) eqn:E;
    apply binary_round_aux_sign; lia.
Qed.

Lemma shl_align_fst (m : positive) (e e' : Z) :
  e' <= e -> Zpos (fst (shl_align m e e')) = Zpos m * 2 ^ (e - e').
Proof.
  intros He. unfold shl_align.
  destruct (e' - e) as [|d|d] eqn:E; cbn [fst].
  - replace (e - e') with 0 by lia. lia.
  - lia.
  - replace (e - e') with (Zpos d) by lia.
    change (Pos.iter xO m d) with (shift_pos d m).
    rewrite shift_pos_correct. rewrite Zpower_pos_nat, Zpower_nat_Z, positive_nat_Z. lia.
Qed.

(** The sign of a difference of doubles is the sign of the difference of
    their keys; the difference is [NaN] only for two infinities of the same
    sign. *)
Lemma key_sub (x y : spec_float) :
  valid_binary x = true -> valid_binary y = true ->
  x <> S754_nan -> y <> S754_nan ->
  (SF64sub x y = S754_nan /\ JS.key x = JS.key y)
  \/ (SF64sub x y <> S754_nan /\
      SFcompare (S754_zero false) (SF64sub x y) = Some (0 ?= JS.key x - JS.key y)).
Proof.
  intros Vx Vy Nx Ny.
  assert (Hbig : 0 < 2 ^ 2098) by (apply Z.pow_pos_nonneg; lia).
  destruct x as [sx|sx| |sx mx ex], y as [sy|sy| |sy my ey]; try contradiction;
    try pose proof (finite_key_bounds _ _ _ Vx) as Bx;
    try pose proof (finite_key_bounds _ _ _ Vy) as By;
    unfold SF64sub; cbn [SFsub JS.key].
  9: {
    (* finite, finite *)
    right.
    pose proof (valid_finite _ _ _ Vx) as (Hex & _).
    pose proof (valid_finite _ _ _ Vy) as (Hey & _).
    set (ez := Z.min ex ey).
    rewrite !shl_align_fst by (unfold ez; lia).
    set (X := cond_Zopp sx (Zpos mx * 2 ^ (ex - ez))).
    set (Y := cond_Zopp sy (Zpos my * 2 ^ (ey - ez))).
    assert (Hp : 0 < 2 ^ (ez + 1074)) by (apply Z.pow_pos_nonneg; unfold ez; lia).
    assert (Hkx : cond_Zopp sx (Zpos mx * 2 ^ (ex + 1074)) = X * 2 ^ (ez + 1074)).
    { unfold X. replace (ex + 1074) with ((ex - ez) + (ez + 1074)) by lia.
      rewrite Z.pow_add_r by (unfold ez; lia). destruct sx; cbn [cond_Zopp]; lia. }
    assert (Hky : cond_Zopp sy (Zpos my * 2 ^ (ey + 1074)) = Y * 2 ^ (ez + 1074)).
    { unfold Y. replace (ey + 1074) with ((ey - ez) + (ez + 1074)) by lia.
      rewrite Z.pow_add_r by (unfold ez; lia). destruct sy; cbn [cond_Zopp]; lia. }
    rewrite Hkx, Hky. clearbody X Y.
    unfold binary_normalize.
    destruct (X - Y) as [|d|d] eqn:ED.
    - split; [discriminate|]. cbn [SFcompare]. f_equal. symmetry. apply Z.compare_eq_iff. nia.
    - destruct (binary_round_sign false d ez) as [(m' & e' & ->) | ->];
        try (unfold ez; lia); (split; [discriminate|]); cbn [SFcompare]; f_equal;
        symmetry; apply Z.compare_lt_iff; nia.
    - destruct (binary_round_sign true d ez) as [(m' & e' & ->) | ->];
        try (unfold ez; lia); (split; [discriminate|]); cbn [SFcompare]; f_equal;
        symmetry; apply Z.compare_gt_iff; nia. }
  all: try destruct sx; try destruct sy; cbn [cond_Zopp negb];
    first [ left; split; [reflexivity | lia]
          | right; split; [discriminate|]; cbn [SFcompare]; f_equal; symmetry;
            first [apply Z.compare_eq_iff | apply Z.compare_lt_iff | apply Z.compare_gt_iff];
            lia ].
Qed.

Lemma SFcompare_refl (s : spec_float) :
  valid_binary s = true -> s <> S754_nan -> SFcompare s s = Some Eq.
Proof.
  intros V N. rewrite (key_compare s s V V N N), Z.compare_refl. reflexivity.
Qed.

Lemma is_nan_spec (x : float) : is_nan x = false <-> Prim2SF x <> S754_nan.
Proof.
  unfold is_nan. rewrite FloatAxioms.eqb_spec. unfold SFeqb. split.
  - intros H E. rewrite E in H. discriminate H.
  - intros N. rewrite (SFcompare_refl _ (Prim2SF_valid x) N). reflexivity.
Qed.

Lemma is_nan_true (x : float) : is_nan x = true <-> Prim2SF x = S754_nan.
Proof.
  split.
  - intros H. destruct (Prim2SF x) eqn:E; try reflexivity;
      assert (N : Prim2SF x <> S754_nan) by (rewrite E; discriminate);
      apply is_nan_spec in N; congruence.
  - intros E. destruct (is_nan x) eqn:H; [reflexivity|].
    apply is_nan_spec in H. contradiction.
Qed.

Lemma compare_rank (x y : float) :
  is_nan x = false -> is_nan y = false ->
  SFcompare (Prim2SF x) (Prim2SF y) = Some (JS.rank x ?= JS.rank y).
Proof.
  intros Hx Hy. apply is_nan_spec in Hx, Hy.
  apply key_compare; auto using Prim2SF_valid.
Qed.

Lemma ltb_rank (x y : float) :
  is_nan x = false -> is_nan y = false -> (x <? y)%float = (JS.rank x <? JS.rank y).
Proof.
  intros Hx Hy. rewrite FloatAxioms.ltb_spec. unfold SFltb. rewrite (compare_rank x y Hx Hy).
  unfold Z.ltb. destruct (JS.rank x ?= JS.rank y); reflexivity.
Qed.

Lemma leb_rank (x y : float) :
  is_nan x = false -> is_nan y = false -> (x <=? y)%float = (JS.rank x <=? JS.rank y).
Proof.
  intros Hx Hy. rewrite FloatAxioms.leb_spec. unfold SFleb. rewrite (compare_rank x y Hx Hy).
  unfold Z.leb. destruct (JS.rank x ?= JS.rank y); reflexivity.
Qed.

Lemma eqb_rank (x y : float) :
  is_nan x = false -> is_nan y = false -> (x =? y)%float = (JS.rank x =? JS.rank y).
Proof.
  intros Hx Hy. rewrite FloatAxioms.eqb_spec. unfold SFeqb. rewrite (compare_rank x y Hx Hy).
  rewrite Z.eqb_compare. destruct (JS.rank x ?= JS.rank y); reflexivity.
Qed.

Lemma eqb_not_nan (x y : float) : (x =? y)%float = true -> is_nan x = false /\ is_nan y = false.
Proof.
  rewrite FloatAxioms.eqb_spec. unfold SFeqb. intros H.
  split; apply is_nan_spec; intros E; rewrite E in H;
    [|destruct (Prim2SF x)]; discriminate H.
Qed.

(** The sort's reading of [x - y] is greater than 0 exactly when [y < x]. *)
Lemma sub_rank (x y : float) :
  is_nan x = false -> is_nan y = false ->
  (0 <? (if is_nan (x - y) then 0 else x - y))%float = (JS.rank y <? JS.rank x).
Proof.
  intros Hx Hy.
  pose proof Hx as Nx. pose proof Hy as Ny. apply is_nan_spec in Nx, Ny.
  destruct (key_sub (Prim2SF x) (Prim2SF y) (Prim2SF_valid x) (Prim2SF_valid y) Nx Ny)
    as [[E Ek] | [N E]]; rewrite <- FloatAxioms.sub_spec in *.
  - apply is_nan_true in E. rewrite E. fold (JS.rank x) in Ek. fold (JS.rank y) in Ek. rewrite Ek.
    rewrite Z.ltb_irrefl. reflexivity.
  - apply is_nan_spec in N. rewrite N. rewrite FloatAxioms.ltb_spec. unfold SFltb.
    change (Prim2SF 0) with (S754_zero false). rewrite E.
    fold (JS.rank x). fold (JS.rank y). unfold Z.ltb.
    destruct (Z.compare_spec 0 (JS.rank x - JS.rank y)),
             (Z.compare_spec (JS.rank y) (JS.rank x)); try reflexivity; lia.
Qed.

(** No double is beyond [Infinity]. *)
Lemma rank_le_infinity (x : float) : JS.rank x <= JS.rank infinity.
Proof.
  unfold JS.rank. change (Prim2SF infinity) with (S754_infinity false). cbn [JS.key cond_Zopp].
  pose proof (Prim2SF_valid x) as V.
  assert (Hbig : 0 < 2 ^ 2098) by (apply Z.pow_pos_nonneg; lia).
  destruct (Prim2SF x) as [s|s| |s m e]; cbn [JS.key]; try lia.
  - destruct s; cbn [cond_Zopp]; lia.
  - pose proof (finite_key_bounds _ _ _ V). destruct s; cbn [cond_Zopp]; lia.
Qed.

End DoubleOrder.

(** * Properties of the payoff summary *)

(** Decide the comparisons of reals in the goal, keeping the cases that the
    context allows. *)
Ltac decide_reals :=
  repeat match goal with
         | |- context [Rle_dec ?x ?y] => destruct (Rle_dec x y); try lra
         | |- context [Rlt_dec ?x ?y] => destruct (Rlt_dec x y); try lra
         | |- context [Req_dec_T ?x ?y] => destruct (Req_dec_T x y); try lra
         end.

Section PayoffCalculator.
Import JS DebtManager Initial64.
Local Open Scope float_scope.
Variable Math_log : float -> float.

Lemma Prim2SF_0 : Prim2SF 0 = S754_zero false.
Proof. reflexivity. Qed.

(** A double that [=== 0] is [+0] or [-0]. *)
Lemma eqb_0_inv (x : float) : (x =? 0) = true -> x = 0 \/ x = -0.
Proof.
  rewrite eqb_spec, Prim2SF_0. intros H.
  destruct (Prim2SF x) as [s| s| |s m e] eqn:E; cbv in H; try discriminate.
  - destruct s; [right | left]; apply Prim2SF_inj; rewrite E; reflexivity.
  - destruct s; discriminate.
  - destruct s; discriminate.
Qed.

(** [x || 0] and [x ?? 0] give monthly rates that pass or fail [=== 0]
    together and, when they fail it, are the same double, for every rate
    [x] that is a number.  (They differ by the sign of the zero at
    [x = -0].) *)
Lemma rate_or_0 (x : float) :
  is_nan x = false ->
  let rc := (if falsy x then 0 else x) / 100 / 12 in
  let rs := x / 100 / 12 in
  (rc =? 0) = (rs =? 0) /\ ((rs =? 0) = false -> rc = rs).
Proof.
  intros Hnan. unfold falsy. rewrite Hnan, orb_false_r.
  destruct (x =? 0) eqn:E; [|split; reflexivity].
  destruct (eqb_0_inv x E) as [-> | ->]; vm_compute; split; try reflexivity; discriminate.
Qed.

(** The source computes the horizon of the specification, stored as a
    number. *)
Lemma payoffMonths_refines (debt : Debt64.t) :
  (forall x, Debt64.interestRate debt = Some x -> is_nan x = false) ->
  payoffMonths Math_log debt =
  number_of_horizon
    (PayoffCalculator Math_log (Debt64.currentAmount debt) (Debt64.minPayment debt)
       (Debt64.interestRate debt)).
Proof.
  intros Hrate. unfold payoffMonths, PayoffCalculator, interestRate_or_0.
  destruct (Debt64.currentAmount debt <=? 0); [reflexivity|].
  destruct (Debt64.minPayment debt <=? 0); [reflexivity|].
  destruct (Debt64.interestRate debt) as [x|].
  - destruct (rate_or_0 x (Hrate x eq_refl)) as [E1 E2]. cbv zeta in E1, E2.
    rewrite E1. destruct (x / 100 / 12 =? 0) eqn:E; [reflexivity|].
    rewrite (E2 eq_refl).
    destruct (_ <=? _); reflexivity.
  - destruct (0 / 100 / 12 =? 0); [reflexivity|].
    destruct (_ <=? _); reflexivity.
Qed.

Lemma ltb_0_not_leb (p : float) : (0 <? p) = true -> (p <=? 0) = false.
Proof.
  rewrite ltb_spec, leb_spec, Prim2SF_0.
  destruct (Prim2SF p) as [s| s| |s m e]; try destruct s; cbv; congruence.
Qed.

(** At a monthly rate of zero the interest of a month on a positive
    balance is a zero (or, on an infinite balance, [NaN]): a payment that
    is not [<= 0] is not [<=] it. *)
Lemma no_interest_at_rate_0 (p a r : float) :
  (0 <? p) = true -> (a <=? 0) = false -> (r =? 0) = true -> (a <=? p * r) = false.
Proof.
  rewrite ltb_spec, !leb_spec, eqb_spec, mul_spec, Prim2SF_0.
  destruct (Prim2SF r) as [sr| sr| |sr mr er];
    try (intros _ _ H; cbv in H; try destruct sr; discriminate).
  destruct (Prim2SF p) as [sp| sp| |sp mp ep];
    try (intros H; cbv in H; try destruct sp; discriminate);
    intros _; destruct (Prim2SF a) as [sa| sa| |sa ma ea];
    try destruct sa; try destruct sp; try destruct sr; cbv; congruence.
Qed.

(** A [NaN] rate gives a [NaN] monthly rate, which is not [=== 0] and
    whose interest no payment is [<=]. *)
Lemma nan_monthly_rate (x : float) :
  is_nan x = true ->
  (x / 100 / 12 =? 0) = false /\ forall a p : float, (a <=? p * (x / 100 / 12)) = false.
Proof.
  intros Hn. apply is_nan_true in Hn.
  assert (E : x = nan) by (apply Prim2SF_inj; rewrite Hn; reflexivity).
  subst x. change (nan / 100 / 12) with nan. split; [reflexivity|].
  intros a p. rewrite leb_spec, mul_spec. change (Prim2SF nan) with S754_nan.
  destruct (Prim2SF p), (Prim2SF a); reflexivity.
Qed.

(** C1. The payoff horizon of a debt follows the case analysis on
    [currentAmount] (p), [minPayment] (a) and the monthly rate
    r = (interestRate ?? 0)/100/12, with the tests and the operations of
    the source on doubles: Finite(0) when p <= 0; otherwise Unpayable when
    a <= 0; otherwise Finite(p/a) when r == 0; otherwise Unpayable when
    a <= p*r; otherwise Finite(log(a/(a - p*r))/log(1+r)).  For a positive
    p with a <= p*r it is always Unpayable.  It is a function of the three
    inputs alone.  In the last case the rate, when one is set, is a
    number. *)
Theorem payoffMonths_case_analysis (debt : Debt64.t) :
  let p := Debt64.currentAmount debt in
  let a := Debt64.minPayment debt in
  let r := match Debt64.interestRate debt with Some x => x | None => 0 end / 100 / 12 in
  let rateIsNumber := forall x, Debt64.interestRate debt = Some x -> is_nan x = false in
  ((p <=? 0) = true -> payoffMonths Math_log debt = number_of_horizon (Finite 0)) /\
  ((p <=? 0) = false -> (a <=? 0) = true ->
   payoffMonths Math_log debt = number_of_horizon Unpayable) /\
  ((p <=? 0) = false -> (a <=? 0) = false -> (r =? 0) = true ->
   payoffMonths Math_log debt = number_of_horizon (Finite (p / a))) /\
  ((p <=? 0) = false -> (a <=? 0) = false -> (r =? 0) = false -> (a <=? p * r) = true ->
   payoffMonths Math_log debt = number_of_horizon Unpayable) /\
  (rateIsNumber ->
   (p <=? 0) = false -> (a <=? 0) = false -> (r =? 0) = false -> (a <=? p * r) = false ->
   payoffMonths Math_log debt =
   number_of_horizon (Finite (Math_log (a / (a - p * r)) / Math_log (1 + r)))) /\
  ((0 <? p) = true -> (a <=? p * r) = true ->
   payoffMonths Math_log debt = number_of_horizon Unpayable) /\
  (forall debt' : Debt64.t,
      Debt64.currentAmount debt' = p -> Debt64.minPayment debt' = a ->
      Debt64.interestRate debt' = Debt64.interestRate debt ->
      payoffMonths Math_log debt' = payoffMonths Math_log debt) /\
  (rateIsNumber ->
   payoffMonths Math_log debt =
   number_of_horizon (PayoffCalculator Math_log p a (Debt64.interestRate debt))).
Proof.
  intros p a r rateIsNumber.
  assert (Href : rateIsNumber ->
                 payoffMonths Math_log debt
                 = number_of_horizon (PayoffCalculator Math_log p a (Debt64.interestRate debt)))
    by (intros Hrate; apply payoffMonths_refines, Hrate).
  assert (Hpure : forall debt' : Debt64.t,
             Debt64.currentAmount debt' = p -> Debt64.minPayment debt' = a ->
             Debt64.interestRate debt' = Debt64.interestRate debt ->
             payoffMonths Math_log debt' = payoffMonths Math_log debt).
  { intros debt' Hp Ha Hi. unfold payoffMonths, interestRate_or_0.
    rewrite Hp, Ha, Hi. reflexivity. }
  assert (Hnan : rateIsNumber
                 \/ ((r =? 0) = false /\ forall a' p' : float, (a' <=? p' * r) = false)).
  { subst r rateIsNumber. destruct (Debt64.interestRate debt) as [x|]; [|left; discriminate].
    destruct (is_nan x) eqn:En.
    - right. apply nan_monthly_rate, En.
    - left. intros y E. injection E as <-. exact En. }
  split; [unfold payoffMonths; fold p; intros ->; reflexivity|].
  split; [unfold payoffMonths; fold p a; intros -> ->; reflexivity|].
  repeat match goal with |- _ /\ _ => split end;
    try exact Hpure; try exact Href; clear Hpure.
  - intros Hp Ha Hr. destruct Hnan as [Hrate | [Hr0 _]]; [|congruence].
    rewrite (Href Hrate). unfold PayoffCalculator. fold r. rewrite Hp, Ha, Hr. reflexivity.
  - intros Hp Ha Hr Hi. destruct Hnan as [Hrate | [_ Hn]]; [|rewrite Hn in Hi; discriminate].
    rewrite (Href Hrate). unfold PayoffCalculator. fold r. rewrite Hp, Ha, Hr, Hi. reflexivity.
  - intros Hrate Hp Ha Hr Hi.
    rewrite (Href Hrate). unfold PayoffCalculator. fold r. rewrite Hp, Ha, Hr, Hi. reflexivity.
  - intros Hp Hi. destruct Hnan as [Hrate | [_ Hn]]; [|rewrite Hn in Hi; discriminate].
    rewrite (Href Hrate). unfold PayoffCalculator. fold r.
    rewrite (ltb_0_not_leb p Hp).
    destruct (a <=? 0) eqn:Ea; [reflexivity|].
    destruct (r =? 0) eqn:Er.
    + rewrite (no_interest_at_rate_0 p a r Hp Ea Er) in Hi. discriminate.
    + rewrite Hi. reflexivity.
Qed.

(** The first debt of the initial state is in the last case: its horizon
    is the quotient of the two logarithms. *)
Example payoffMonths_bbva :
  payoffMonths Math_log bbva =
  Math_log (2500 / (2500 - 45000 * (45 / 100 / 12))) / Math_log (1 + 45 / 100 / 12).
Proof. vm_compute. reflexivity. Qed.

(** 10000 at 15% a year, paying 125: the product of the balance and the
    rounded monthly rate is below 125, the test [a <= p * r] fails, and the
    horizon is the quotient of the two logarithms. *)
Example payoffMonths_rounded_interest :
  (10000 * (15 / 100 / 12) <? 125) = true /\
  (125 <=? 10000 * (15 / 100 / 12)) = false /\
  payoffMonths Math_log roundedInterest =
  Math_log (125 / (125 - 10000 * (15 / 100 / 12))) / Math_log (1 + 15 / 100 / 12).
Proof. repeat split. Qed.

End PayoffCalculator.

Lemma payoffMonths_case_analysis_witness :
  DebtManager.payoffMonths Initial64.Math_log_sample Initial64.interestOnly = infinity.
Proof.
  destruct (payoffMonths_case_analysis Initial64.Math_log_sample Initial64.interestOnly)
    as (_ & _ & _ & _ & _ & H & _).
  apply H; reflexivity.
Defined.

Section PayoffRepresentation.
Import JS DebtManager Initial64.
Local Open Scope float_scope.

(** A double that [=== Infinity] is [Infinity]. *)
Lemma eqb_infinity_inv (x : float) : (x =? infinity) = true -> x = infinity.
Proof.
  rewrite eqb_spec. change (Prim2SF infinity) with (S754_infinity false). intros H.
  apply Prim2SF_inj. change (Prim2SF infinity) with (S754_infinity false).
  destruct (Prim2SF x) as [s| s| |s m e]; try destruct s; cbv in H; try discriminate.
  reflexivity.
Qed.

Lemma isUnpayable_iff (e : PayoffEntry) : isUnpayable e = true <-> months e = infinity.
Proof.
  unfold isUnpayable. split; [apply eqb_infinity_inv | intros ->; reflexivity].
Qed.

(** With a rate so small that [1 + r] rounds to 1 and [a - p * r] to [a],
    the quotient of the logarithms is 0/0: the horizon is [NaN]. *)
Lemma payoffMonths_tinyRate (Math_log : float -> float) :
  Math_log 1 = 0 -> payoffMonths Math_log tinyRate = nan.
Proof.
  intros Hlog.
  assert (E : payoffMonths Math_log tinyRate = Math_log 1 / Math_log 1)
    by (vm_compute; reflexivity).
  rewrite E, Hlog. reflexivity.
Qed.

Lemma div_nan (x : float) : x / nan = nan.
Proof.
  apply Prim2SF_inj. rewrite div_spec. change (Prim2SF nan) with S754_nan.
  destruct (Prim2SF x); reflexivity.
Qed.

(** With a rate of -1300 percent, which the form accepts, [1 + r] is
    negative and its logarithm is [NaN]: the horizon is [NaN]. *)
Lemma payoffMonths_negativeRate (Math_log : float -> float) :
  (forall x, (x <? 0) = true -> Math_log x = nan) ->
  payoffMonths Math_log negativeRate = nan.
Proof.
  intros Hlog.
  assert (E : payoffMonths Math_log negativeRate
              = Math_log (100 / (100 - 1000 * (-1300 / 100 / 12)))
                / Math_log (1 + -1300 / 100 / 12))
    by (vm_compute; reflexivity).
  rewrite E, (Hlog (1 + -1300 / 100 / 12)) by reflexivity.
  apply div_nan.
Qed.

(** C6, as the source has it.  The payoff horizon of a debt is one double,
    with no tag: the horizon of the specification with its tag dropped,
    Finite(x) as the number x and Unpayable as [Infinity].  It is 0 when
    the balance is [<= 0].  When the debt is Unpayable, by a minimum
    payment [<= 0] or by a payment [<=] the interest of a month at a
    monthly rate other than 0, it is the double [Infinity] itself, which is
    what the view tests with [=== Infinity]; a Finite horizon of [Infinity]
    months is the same value. *)
Theorem payoffMonths_bare_number (Math_log : float -> float) (debt : Debt64.t) :
  let p := Debt64.currentAmount debt in
  let a := Debt64.minPayment debt in
  let r := interestRate_or_0 debt / 100 / 12 in
  let months := payoffMonths Math_log debt in
  ((p <=? 0) = true -> months = 0) /\
  ((p <=? 0) = false -> (a <=? 0) = true -> months = infinity) /\
  ((p <=? 0) = false -> (a <=? 0) = false -> (r =? 0) = false -> (a <=? p * r) = true ->
   months = infinity) /\
  (isUnpayable (withPayoff Math_log debt) = true <-> months = infinity) /\
  number_of_horizon Unpayable = number_of_horizon (Finite infinity) /\
  ((forall x, Debt64.interestRate debt = Some x -> is_nan x = false) ->
   months = number_of_horizon (PayoffCalculator Math_log p a (Debt64.interestRate debt)) /\
   (PayoffCalculator Math_log p a (Debt64.interestRate debt) = Unpayable ->
    months = infinity /\ isUnpayable (withPayoff Math_log debt) = true) /\
   (forall x, PayoffCalculator Math_log p a (Debt64.interestRate debt) = Finite x ->
              months = x)).
Proof.
  intros p a r months.
  assert (Href : (forall x, Debt64.interestRate debt = Some x -> is_nan x = false) ->
                 months = number_of_horizon
                            (PayoffCalculator Math_log p a (Debt64.interestRate debt)))
    by (intros Hrate; apply payoffMonths_refines, Hrate).
  subst months. unfold payoffMonths in *. fold p a r in Href |- *.
  split; [intros ->; reflexivity|].
  split; [intros -> ->; reflexivity|].
  split; [intros -> -> -> ->; reflexivity|].
  split; [apply (isUnpayable_iff (withPayoff Math_log debt))|].
  split; [reflexivity|].
  intros Hrate. specialize (Href Hrate).
  split; [exact Href|]. split.
  - intros E. rewrite E in Href. split; [exact Href|].
    apply (isUnpayable_iff (withPayoff Math_log debt)). exact Href.
  - intros x E. rewrite E in Href. exact Href.
Qed.

Lemma payoffMonths_bare_number_witness :
  payoffMonths Math_log_sample interestOnly = infinity.
Proof.
  destruct (payoffMonths_bare_number Math_log_sample interestOnly) as (_ & _ & H & _).
  apply H; reflexivity.
Defined.

(** C6, as stated, fails: the horizon of an unpayable debt is the bare
    double [Infinity], the value that [formatTime] and the table test with
    [=== Infinity].  Nor is the horizon always a non-negative number or
    [Infinity]: at a rate of 1e-15 percent it is [NaN], whatever the
    implementation of [Math.log]. *)
Lemma payoffMonths_is_bare_Infinity :
  payoffMonths Math_log_sample noPayment = infinity /\
  isUnpayable (withPayoff Math_log_sample noPayment) = true /\
  ~ (forall (Math_log : float -> float) (debt : Debt64.t),
        payoffMonths Math_log debt <> infinity) /\
  (forall Math_log : float -> float,
      Math_log 1 = 0 ->
      payoffMonths Math_log tinyRate = nan /\
      (0 <=? payoffMonths Math_log tinyRate) = false /\
      (payoffMonths Math_log tinyRate =? infinity) = false).
Proof.
  split; [reflexivity|]. split; [reflexivity|]. split.
  - intros Hall. apply (Hall Math_log_sample noPayment). reflexivity.
  - intros Math_log Hlog. rewrite (payoffMonths_tinyRate Math_log Hlog).
    repeat split.
Qed.

End PayoffRepresentation.

(** * Properties of the sort *)

Section SortFacts.
Import JS.
Context {A : Type} (comparefn : A -> A -> number).

Lemma insert_Permutation (x : A) (l : list A) :
  Permutation (x :: l) (insert comparefn x l).
Proof.
  induction l as [|y l IH]; simpl; [reflexivity|].
  destruct (positive (SortCompare comparefn x y)); [|reflexivity].
  rewrite perm_swap. apply perm_skip, IH.
Qed.

Lemma sort_Permutation (l : list A) : Permutation l (sort comparefn l).
Proof.
  induction l as [|x l IH]; simpl; [reflexivity|].
  rewrite <- insert_Permutation. apply perm_skip, IH.
Qed.

(** Sortedness, for a comparator that is consistent with an order [le] on
    the elements of a domain [D]. *)
Section Sorted.
Variables (D : A -> Prop) (le : A -> A -> Prop).
Hypothesis le_trans : forall x y z, D x -> D y -> D z -> le x y -> le y z -> le x z.
Hypothesis not_greater_le :
  forall x y, D x -> D y -> positive (SortCompare comparefn x y) = false -> le x y.
Hypothesis greater_le :
  forall x y, D x -> D y -> positive (SortCompare comparefn x y) = true -> le y x.

Lemma insert_Forall (P : A -> Prop) (x : A) (l : list A) :
  P x -> List.Forall P l -> List.Forall P (insert comparefn x l).
Proof.
  intros Hx Hl. eapply Permutation_Forall; [apply insert_Permutation|].
  constructor; assumption.
Qed.

Lemma insert_StronglySorted (x : A) (l : list A) :
  D x -> List.Forall D l ->
  StronglySorted le l -> StronglySorted le (insert comparefn x l).
Proof.
  intros Dx. induction l as [|y l IH]; intros Dl Hs; simpl.
  - constructor; constructor.
  - inversion Dl as [|? ? Dy Dl']; subst.
    inversion Hs as [|? ? Hs' Hy]; subst.
    destruct (positive (SortCompare comparefn x y)) eqn:E.
    + constructor; [apply IH; assumption|].
      apply insert_Forall; [apply greater_le; assumption | assumption].
    + assert (Hxy : le x y) by (apply not_greater_le; assumption).
      constructor; [assumption|].
      constructor; [assumption|].
      rewrite List.Forall_forall in *. intros z Hz.
      apply (le_trans x y z); auto.
Qed.

Lemma sort_Forall (P : A -> Prop) (l : list A) :
  List.Forall P l -> List.Forall P (sort comparefn l).
Proof.
  intros Hl. eapply Permutation_Forall; [apply sort_Permutation | assumption].
Qed.

Lemma sort_StronglySorted (l : list A) :
  List.Forall D l -> StronglySorted le (sort comparefn l).
Proof.
  induction l as [|x l IH]; intros Dl; simpl; [constructor|].
  inversion Dl; subst.
  apply insert_StronglySorted; auto using sort_Forall.
Qed.
End Sorted.

(** Stability: elements that the comparator never puts after one another
    keep their order. *)
Section Stable.
Variable P : A -> bool.
Hypothesis ties :
  forall x y, P x = true -> P y = true -> positive (SortCompare comparefn x y) = false.

Lemma filter_insert (x : A) (l : list A) :
  List.filter P (insert comparefn x l) = List.filter P (x :: l).
Proof.
  induction l as [|y l IH]; [reflexivity|].
  simpl insert.
  destruct (positive (SortCompare comparefn x y)) eqn:E; [|reflexivity].
  change (List.filter P (y :: insert comparefn x l))
    with (if P y then y :: List.filter P (insert comparefn x l)
          else List.filter P (insert comparefn x l)).
  rewrite IH. simpl.
  destruct (P x) eqn:Px, (P y) eqn:Py; try reflexivity.
  rewrite (ties x y Px Py) in E. discriminate.
Qed.

Lemma filter_sort (l : list A) :
  List.filter P (sort comparefn l) = List.filter P l.
Proof.
  induction l as [|x l IH]; [reflexivity|].
  simpl sort. rewrite filter_insert. simpl. rewrite IH. reflexivity.
Qed.
End Stable.

End SortFacts.

(** The same facts for the sort whose comparator answers with a double:
    the output is a permutation of the input, it is sorted when the
    comparator is consistent with an order, and elements that the
    comparator never puts after one another keep their order. *)
Section Sort64Facts.
Import JS.
Local Open Scope float_scope.
Context {A : Type} (comparefn : A -> A -> float).

Lemma insert64_Permutation (x : A) (l : list A) :
  Permutation (x :: l) (insert64 comparefn x l).
Proof.
  induction l as [|y l IH]; simpl; [reflexivity|].
  destruct (0 <? SortCompare64 comparefn x y); [|reflexivity].
  rewrite perm_swap. apply perm_skip, IH.
Qed.

Lemma sort64_Permutation (l : list A) : Permutation l (sort64 comparefn l).
Proof.
  induction l as [|x l IH]; simpl; [reflexivity|].
  rewrite <- insert64_Permutation. apply perm_skip, IH.
Qed.

(** Sortedness, for a comparator that is consistent with an order [le] on
    the elements of a domain [D]. *)
Section Sorted64.
Variables (D : A -> Prop) (le : A -> A -> Prop).
Hypothesis le_trans : forall x y z, D x -> D y -> D z -> le x y -> le y z -> le x z.
Hypothesis not_greater_le :
  forall x y, D x -> D y -> (0 <? SortCompare64 comparefn x y) = false -> le x y.
Hypothesis greater_le :
  forall x y, D x -> D y -> (0 <? SortCompare64 comparefn x y) = true -> le y x.

Lemma insert64_Forall (P : A -> Prop) (x : A) (l : list A) :
  P x -> List.Forall P l -> List.Forall P (insert64 comparefn x l).
Proof.
  intros Hx Hl. eapply Permutation_Forall; [apply insert64_Permutation|].
  constructor; assumption.
Qed.

Lemma insert64_StronglySorted (x : A) (l : list A) :
  D x -> List.Forall D l ->
  StronglySorted le l -> StronglySorted le (insert64 comparefn x l).
Proof.
  intros Dx. induction l as [|y l IH]; intros Dl Hs; simpl.
  - constructor; constructor.
  - inversion Dl as [|? ? Dy Dl']; subst.
    inversion Hs as [|? ? Hs' Hy]; subst.
    destruct (0 <? SortCompare64 comparefn x y) eqn:E.
    + constructor; [apply IH; assumption|].
      apply insert64_Forall; [apply greater_le; assumption | assumption].
    + assert (Hxy : le x y) by (apply not_greater_le; assumption).
      constructor; [assumption|].
      constructor; [assumption|].
      rewrite List.Forall_forall in *. intros z Hz.
      apply (le_trans x y z); auto.
Qed.

Lemma sort64_Forall (P : A -> Prop) (l : list A) :
  List.Forall P l -> List.Forall P (sort64 comparefn l).
Proof.
  intros Hl. eapply Permutation_Forall; [apply sort64_Permutation | assumption].
Qed.

Lemma sort64_StronglySorted (l : list A) :
  List.Forall D l -> StronglySorted le (sort64 comparefn l).
Proof.
  induction l as [|x l IH]; intros Dl; simpl; [constructor|].
  inversion Dl; subst.
  apply insert64_StronglySorted; auto using sort64_Forall.
Qed.
End Sorted64.

Section Stable64.
Variable P : A -> bool.
Hypothesis ties :
  forall x y, P x = true -> P y = true -> (0 <? SortCompare64 comparefn x y) = false.

Lemma filter_insert64 (x : A) (l : list A) :
  List.filter P (insert64 comparefn x l) = List.filter P (x :: l).
Proof.
  induction l as [|y l IH]; [reflexivity|].
  simpl insert64.
  destruct (0 <? SortCompare64 comparefn x y) eqn:E; [|reflexivity].
  change (List.filter P (y :: insert64 comparefn x l))
    with (if P y then y :: List.filter P (insert64 comparefn x l)
          else List.filter P (insert64 comparefn x l)).
  rewrite IH. simpl.
  destruct (P x) eqn:Px, (P y) eqn:Py; try reflexivity.
  rewrite (ties x y Px Py) in E. discriminate.
Qed.

Lemma filter_sort64 (l : list A) :
  List.filter P (sort64 comparefn l) = List.filter P l.
Proof.
  induction l as [|x l IH]; [reflexivity|].
  simpl sort64. rewrite filter_insert64. simpl. rewrite IH. reflexivity.
Qed.
End Stable64.

End Sort64Facts.

(** * Properties of the ranking *)

Section ProjectionRanker.
Import JS DebtManager Initial64.
Local Open Scope float_scope.

(** The ranked output holds the entries of the input, each once. *)
Lemma payoffSummary_Permutation (Math_log : float -> float) (debts : list Debt64.t) :
  Permutation (map (withPayoff Math_log) debts) (payoffSummary Math_log debts).
Proof. apply sort64_Permutation. Qed.

(** Two Unpayable entries are a tie of the comparator: their difference is
    [Infinity - Infinity], [NaN], which the sort reads as 0. *)
Lemma byPayoffMonths_unpayable_ties (x y : PayoffEntry) :
  isUnpayable x = true -> isUnpayable y = true ->
  (0 <? SortCompare64 byPayoffMonths x y) = false.
Proof.
  intros Hx Hy. apply isUnpayable_iff in Hx, Hy.
  unfold SortCompare64, byPayoffMonths. rewrite Hx, Hy. reflexivity.
Qed.

(** The Unpayable entries keep the order they had in the input. *)
Lemma payoffSummary_unpayable_stable (Math_log : float -> float) (debts : list Debt64.t) :
  List.filter isUnpayable (payoffSummary Math_log debts) =
  List.filter isUnpayable (map (withPayoff Math_log) debts).
Proof. apply filter_sort64, byPayoffMonths_unpayable_ties. Qed.

Lemma entry_le_trans (x y z : PayoffEntry) :
  ranked_domain x -> ranked_domain y -> ranked_domain z ->
  entry_le x y -> entry_le y z -> entry_le x z.
Proof.
  unfold ranked_domain, entry_le. intros Dx Dy Dz.
  rewrite !leb_rank by assumption. rewrite !Z.leb_le. lia.
Qed.

Lemma byPayoffMonths_not_greater (x y : PayoffEntry) :
  ranked_domain x -> ranked_domain y ->
  (0 <? SortCompare64 byPayoffMonths x y) = false -> entry_le x y.
Proof.
  unfold ranked_domain, entry_le, SortCompare64, byPayoffMonths. intros Dx Dy.
  rewrite sub_rank, leb_rank by assumption. rewrite Z.ltb_ge, Z.leb_le. auto.
Qed.

Lemma byPayoffMonths_greater (x y : PayoffEntry) :
  ranked_domain x -> ranked_domain y ->
  (0 <? SortCompare64 byPayoffMonths x y) = true -> entry_le y x.
Proof.
  unfold ranked_domain, entry_le, SortCompare64, byPayoffMonths. intros Dx Dy.
  rewrite sub_rank, leb_rank by assumption. rewrite Z.ltb_lt, Z.leb_le. lia.
Qed.

(** Entries with the same horizon are ties of the comparator. *)
Lemma byPayoffMonths_ties (v : float) (x y : PayoffEntry) :
  (months x =? v) = true -> (months y =? v) = true ->
  (0 <? SortCompare64 byPayoffMonths x y) = false.
Proof.
  intros Hx Hy.
  destruct (eqb_not_nan _ _ Hx) as [Dx Dv]. destruct (eqb_not_nan _ _ Hy) as [Dy _].
  rewrite eqb_rank in Hx, Hy by assumption. apply Z.eqb_eq in Hx, Hy.
  unfold SortCompare64, byPayoffMonths. rewrite sub_rank by assumption.
  apply Z.ltb_ge. lia.
Qed.

Lemma StronglySorted_before {B : Type} (le : B -> B -> Prop)
    (l1 : list B) (x : B) (l2 : list B) (y : B) (l3 : list B) :
  StronglySorted le (l1 ++ x :: l2 ++ y :: l3)%list -> le x y.
Proof.
  induction l1 as [|z l1 IH]; simpl; intros Hs.
  - apply StronglySorted_inv in Hs as [_ Hx].
    rewrite List.Forall_forall in Hx. apply Hx.
    apply List.in_or_app. right. left. reflexivity.
  - apply StronglySorted_inv in Hs as [Hs _]. auto.
Qed.

(** X23.  When no horizon is [NaN], the ranked output is the input entries
    sorted ascending by horizon: an entry standing before another has at
    most its horizon, no other entry stands after an Unpayable one, and
    entries of equal horizon, the Unpayable ones in particular, keep the
    order they had in the input. *)
Theorem payoffSummary_sorted (Math_log : float -> float) (debts : list Debt64.t) :
  List.Forall (fun d => is_nan (payoffMonths Math_log d) = false) debts ->
  let entries := map (withPayoff Math_log) debts in
  let out := payoffSummary Math_log debts in
  Permutation entries out /\
  StronglySorted entry_le out /\
  (forall l1 x l2 y l3, out = (l1 ++ x :: l2 ++ y :: l3)%list ->
     (months x <=? months y) = true /\
     ((months y <? months x) = false) /\
     (isUnpayable x = true -> isUnpayable y = true)) /\
  (forall v,
     List.filter (fun e => months e =? v) out =
     List.filter (fun e => months e =? v) entries) /\
  List.filter isUnpayable out = List.filter isUnpayable entries.
Proof.
  intros Hnum entries out.
  assert (Hdom0 : List.Forall ranked_domain entries).
  { apply List.Forall_forall. intros e He.
    apply List.in_map_iff in He as (d & <- & Hd).
    rewrite List.Forall_forall in Hnum. apply Hnum, Hd. }
  assert (Hsorted : StronglySorted entry_le out).
  { apply (sort64_StronglySorted byPayoffMonths ranked_domain entry_le).
    - exact entry_le_trans.
    - exact byPayoffMonths_not_greater.
    - exact byPayoffMonths_greater.
    - exact Hdom0. }
  assert (Hdom : List.Forall ranked_domain out) by (apply sort64_Forall, Hdom0).
  split; [apply sort64_Permutation|].
  split; [exact Hsorted|].
  split; [|split].
  - intros l1 x l2 y l3 E.
    assert (Hle : entry_le x y).
    { apply (StronglySorted_before entry_le l1 x l2 y l3). rewrite <- E. exact Hsorted. }
    rewrite List.Forall_forall in Hdom.
    assert (Dx : ranked_domain x).
    { apply Hdom. rewrite E. apply List.in_or_app. right. left. reflexivity. }
    assert (Dy : ranked_domain y).
    { apply Hdom. rewrite E.
      apply List.in_or_app. right. right. apply List.in_or_app. right. left. reflexivity. }
    unfold entry_le, ranked_domain in *.
    split; [exact Hle|]. split.
    + rewrite leb_rank in Hle by assumption. rewrite ltb_rank by assumption.
      apply Z.leb_le in Hle. apply Z.ltb_ge. exact Hle.
    + unfold isUnpayable. intros Hx.
      assert (Di : is_nan infinity = false) by reflexivity.
      rewrite leb_rank in Hle by assumption.
      rewrite eqb_rank in Hx |- * by assumption.
      apply Z.leb_le in Hle. apply Z.eqb_eq in Hx. apply Z.eqb_eq.
      pose proof (rank_le_infinity (months y)). lia.
  - intros v. apply filter_sort64, byPayoffMonths_ties.
  - apply filter_sort64, byPayoffMonths_unpayable_ties.
Qed.

Lemma payoffSummary_sorted_witness :
  let out := payoffSummary Math_log_sample [interestOnly; noPayment; tenMonths] in
  out = ([withPayoff Math_log_sample tenMonths]
         ++ withPayoff Math_log_sample interestOnly
            :: [] ++ withPayoff Math_log_sample noPayment :: [])%list /\
  (months (withPayoff Math_log_sample interestOnly)
   <=? months (withPayoff Math_log_sample noPayment)) = true.
Proof.
  intros out. split; [reflexivity|].
  destruct (payoffSummary_sorted Math_log_sample [interestOnly; noPayment; tenMonths])
    as (_ & _ & H & _).
  - repeat constructor.
  - destruct (H [withPayoff Math_log_sample tenMonths]
                (withPayoff Math_log_sample interestOnly)
                [] (withPayoff Math_log_sample noPayment) [] eq_refl) as (Hle & _).
    exact Hle.
Defined.

(** C2 fails on the source.  Of three debts listed with horizons of 30
    months, [NaN] (a rate of 1e-15 percent) and 10 months, the comparator
    answers [NaN], read as 0, for the first two and for the last two, and
    20 for the first and the last: it is not a consistent comparator, and
    the ranked output has the debt of 30 months before the debt of 10
    months.  This holds for every [Math.log] with [Math.log(1) = +0], the
    value ECMAScript fixes. *)
Theorem payoffSummary_NaN_out_of_order (Math_log : float -> float) :
  Math_log 1 = 0 ->
  let e30 := withPayoff Math_log thirtyMonths in
  let eNaN := withPayoff Math_log tinyRate in
  let e10 := withPayoff Math_log tenMonths in
  months e30 = 30 /\ months eNaN = nan /\ months e10 = 10 /\
  byPayoffMonths e30 eNaN = nan /\ byPayoffMonths eNaN e10 = nan /\
  SortCompare64 byPayoffMonths e30 eNaN = 0 /\
  SortCompare64 byPayoffMonths eNaN e10 = 0 /\
  SortCompare64 byPayoffMonths e30 e10 = 20 /\
  payoffSummary Math_log [thirtyMonths; tinyRate; tenMonths] = [e30; eNaN; e10] /\
  map months (payoffSummary Math_log [thirtyMonths; tinyRate; tenMonths]) = [30; nan; 10] /\
  (10 <? 30) = true.
Proof.
  intros Hlog e30 eNaN e10.
  assert (H30 : months e30 = 30) by reflexivity.
  assert (HNaN : months eNaN = nan) by (apply payoffMonths_tinyRate, Hlog).
  assert (H10 : months e10 = 10) by reflexivity.
  assert (Hout : payoffSummary Math_log [thirtyMonths; tinyRate; tenMonths] = [e30; eNaN; e10]).
  { unfold payoffSummary.
    change (map (withPayoff Math_log) [thirtyMonths; tinyRate; tenMonths])
      with [e30; eNaN; e10].
    cbn [sort64 insert64]. unfold SortCompare64, byPayoffMonths.
    rewrite HNaN, H10. change (0 <? (if is_nan (nan - 10) then 0 else nan - 10)) with false.
    cbn [insert64]. unfold SortCompare64, byPayoffMonths.
    rewrite H30, HNaN. change (0 <? (if is_nan (30 - nan) then 0 else 30 - nan)) with false.
    reflexivity. }
  rewrite Hout. cbn [map]. unfold SortCompare64, byPayoffMonths.
  rewrite H30, HNaN, H10. repeat split.
Qed.

(** Two debts that can never be paid, listed first, are ranked last and in
    the order they were listed. *)
Example payoffSummary_unpayable_last (Math_log : float -> float) :
  map (fun e => Debt64.name (debt e)) (payoffSummary Math_log [interestOnly; noPayment; tenMonths])
  = ["Celular"; "Tarjeta"; "Familia"].
Proof. reflexivity. Qed.

End ProjectionRanker.

Lemma payoffSummary_NaN_out_of_order_witness :
  map DebtManager.months
    (DebtManager.payoffSummary Initial64.Math_log_sample
       [Initial64.thirtyMonths; Initial64.tinyRate; Initial64.tenMonths])
  = [30; nan; 10]%float.
Proof.
  destruct (payoffSummary_NaN_out_of_order Initial64.Math_log_sample)
    as (_ & _ & _ & _ & _ & _ & _ & _ & _ & H & _).
  - reflexivity.
  - exact H.
Defined.

(** * Properties of printed integers and of concatenation *)

Section Strings.
Local Open Scope Z_scope.

Lemma int_of_string_of_int (d : Decimal.signed_int) :
  option_map Z.of_int (NilZero.int_of_string (NilZero.string_of_int d)) = Some (Z.of_int d).
Proof.
  destruct d as [u|u]; destruct u;
    first [ rewrite NilZero.isi_posnil; reflexivity
          | rewrite NilZero.isi_negnil; reflexivity
          | rewrite NilZero.isi by discriminate; reflexivity ].
Qed.

(** Different integers print differently. *)
Lemma toString_inj (z1 z2 : Z) : JS.toString z1 = JS.toString z2 -> z1 = z2.
Proof.
  unfold JS.toString. intros E.
  pose proof (int_of_string_of_int (Z.to_int z1)) as H1.
  pose proof (int_of_string_of_int (Z.to_int z2)) as H2.
  rewrite E, H2, !DecimalZ.of_to in H1. congruence.
Qed.

Lemma append_inj_l (p s1 s2 : string) : p ++ s1 = p ++ s2 -> s1 = s2.
Proof.
  induction p as [|c p IH]; simpl; [auto|]. intros E. inversion E. auto.
Qed.

Lemma length_append (a s : string) :
  String.length (a ++ s) = (String.length a + String.length s)%nat.
Proof. induction a as [|c a IH]; simpl; [reflexivity | rewrite IH; reflexivity]. Qed.

Lemma append_inj_r (a b s : string) : a ++ s = b ++ s -> a = b.
Proof.
  revert b. induction a as [|c a IH]; intros [|c' b] E; simpl in E.
  - reflexivity.
  - apply (f_equal String.length) in E. simpl in E. rewrite !length_append in E.
    simpl in E. lia.
  - apply (f_equal String.length) in E. simpl in E. rewrite !length_append in E.
    simpl in E. lia.
  - inversion E. f_equal. auto.
Qed.

End Strings.

(** * Properties of the reminder computation *)

Section ReminderScheduler.
Import App Initial.
Local Open Scope Z_scope.

Lemma forEach_flat_map {A B : Type} (l : list A) (f : A -> list B) (notes : list B) :
  forEach l f notes = (notes ++ flat_map f l)%list.
Proof.
  unfold forEach. revert notes.
  induction l as [|x l IH]; intros notes; simpl.
  - rewrite List.app_nil_r. reflexivity.
  - rewrite IH, <- List.app_assoc. reflexivity.
Qed.

(** The reminders are the check-in, then the items of the debts in order,
    then the items of the expenses in order. *)
Lemma calculateNotifications_parts (today : Date) (data : FinancialState.t) :
  calculateNotifications today data =
  (monthlyCheckin today
   ++ flat_map (debtReminder today) (FinancialState.debts data)
   ++ flat_map (expenseReminder today) (FinancialState.expenses data))%list.
Proof.
  unfold calculateNotifications. rewrite !forEach_flat_map.
  rewrite <- List.app_assoc. reflexivity.
Qed.

(** What the debt callback pushes, for a debt with a balance and a due
    day. *)
Lemma debtReminder_cases (today : Date) (debt : Debt.t) (dueDay : Z) :
  (0 < Debt.currentAmount debt)%R -> Debt.dueDay debt = Some dueDay ->
  1 <= getDate today <= 31 ->
  debtReminder today debt =
  if getDate today =? dueDay then [dueTodayItem debt]
  else if (dueDay >? getDate today) && (dueDay <=? getDate today + 3)
       then [upcomingItem debt (dueDay - getDate today)]
       else [].
Proof.
  intros Hp Hd Hrange. unfold debtReminder. rewrite Hd.
  destruct (Rlt_dec 0 (Debt.currentAmount debt)); [|contradiction].
  simpl. destruct (dueDay =? 0) eqn:E0; simpl; [|reflexivity].
  apply Z.eqb_eq in E0. subst dueDay.
  destruct (getDate today =? 0) eqn:E1; [lia|].
  destruct (0 >? getDate today) eqn:E2; [lia | reflexivity].
Qed.

(** C4. For a debt with a positive balance and a due day, on day [d] of the
    month: the warning "due today" item keyed to the debt's id is emitted
    iff d = dueDay; the info "due in N days" item, whose message prints
    N = dueDay - d, is emitted iff d < dueDay <= d + 3; nothing is emitted
    for the debt otherwise.  The window does not wrap into the next
    month. *)
Theorem debtReminder_rule (today : Date) (debt : Debt.t) (dueDay : Z) :
  (0 < Debt.currentAmount debt)%R -> Debt.dueDay debt = Some dueDay ->
  1 <= getDate today <= 31 ->
  let d := getDate today in
  let notes := debtReminder today debt in
  let dueToday :=
    {| NotificationItem.id := "debt-due-" ++ Debt.id debt;
       NotificationItem.type := warning;
       NotificationItem.title := "¡Vencimiento Hoy!";
       NotificationItem.message :=
         "El pago mínimo de " ++ Debt.name debt ++ " vence hoy. Evita recargos." |} in
  let dueIn (N : Z) :=
    {| NotificationItem.id := "debt-upcoming-" ++ Debt.id debt;
       NotificationItem.type := info;
       NotificationItem.title := "Pago Próximo";
       NotificationItem.message :=
         "El pago de " ++ Debt.name debt ++ " es en " ++ JS.toString N ++ " días." |} in
  (In (dueTodayItem debt) notes <-> d = dueDay) /\
  (d = dueDay -> notes = [dueTodayItem debt]) /\
  (In (upcomingItem debt (dueDay - d)) notes <-> dueDay > d /\ dueDay <= d + 3) /\
  (dueDay > d /\ dueDay <= d + 3 -> notes = [upcomingItem debt (dueDay - d)]) /\
  (d <> dueDay -> ~ (dueDay > d /\ dueDay <= d + 3) -> notes = []) /\
  NotificationItem.type (dueTodayItem debt) = warning /\
  NotificationItem.id (dueTodayItem debt) = "debt-due-" ++ Debt.id debt /\
  NotificationItem.type (upcomingItem debt (dueDay - d)) = info /\
  NotificationItem.id (upcomingItem debt (dueDay - d)) = "debt-upcoming-" ++ Debt.id debt /\
  (forall data, In debt (FinancialState.debts data) ->
                forall n, In n notes -> In n (calculateNotifications today data)) /\
  dueTodayItem debt = dueToday /\
  upcomingItem debt (dueDay - d) = dueIn (dueDay - d) /\
  (d = dueDay -> notes = [dueToday]) /\
  (dueDay > d /\ dueDay <= d + 3 -> notes = [dueIn (dueDay - d)]) /\
  (forall N, In (dueIn N) notes <-> N = dueDay - d /\ dueDay > d /\ dueDay <= d + 3).
Proof.
  intros Hp Hd Hrange d notes dueToday dueIn.
  change dueToday with (dueTodayItem debt).
  change dueIn with (upcomingItem debt).
  clear dueToday dueIn.
  assert (Hinj : forall N M, upcomingItem debt N = upcomingItem debt M -> N = M).
  { intros N M E. apply (f_equal NotificationItem.message) in E.
    cbn [NotificationItem.message upcomingItem] in E.
    do 3 apply append_inj_l in E. apply append_inj_r in E.
    apply toString_inj, E. }
  assert (Hall : forall data, In debt (FinancialState.debts data) ->
                 forall n, In n notes -> In n (calculateNotifications today data)).
  { intros data Hin n Hn. rewrite calculateNotifications_parts.
    apply List.in_or_app. right. apply List.in_or_app. left.
    apply List.in_flat_map. exists debt. split; [exact Hin | exact Hn]. }
  assert (E : notes = if d =? dueDay then [dueTodayItem debt]
                      else if (dueDay >? d) && (dueDay <=? d + 3)
                           then [upcomingItem debt (dueDay - d)] else [])
    by (apply debtReminder_cases; assumption).
  assert (Hne : forall N, dueTodayItem debt <> upcomingItem debt N)
    by (intros N H; apply (f_equal NotificationItem.type) in H; discriminate).
  clearbody notes.
  assert (Hlast : forall N, In (upcomingItem debt N) notes
                            <-> N = dueDay - d /\ dueDay > d /\ dueDay <= d + 3).
  { intros N. rewrite E.
    destruct (Z.eqb_spec d dueDay) as [E1|E1];
      [| destruct (Z.gtb_spec dueDay d) as [E2|E2];
         [destruct (Z.leb_spec dueDay (d + 3)) as [E3|E3]|]];
      simpl; split; try (intros [H|[]]); try (intros []); try lia.
    - exfalso. exact (Hne N H).
    - apply Hinj in H. lia.
    - subst N. left. reflexivity. }
  repeat match goal with |- _ /\ _ => split end;
    try exact Hall; try exact Hlast; try reflexivity;
    rewrite E;
    (destruct (Z.eqb_spec d dueDay) as [E1|E1];
     [| destruct (Z.gtb_spec dueDay d) as [E2|E2];
        [destruct (Z.leb_spec dueDay (d + 3)) as [E3|E3]|]]);
    simpl; pose proof (Hne (dueDay - d)); intuition (try congruence; try lia).
Qed.

Lemma debtReminder_rule_witness :
  debtReminder jan12 bbva =
  [ {| NotificationItem.id := "debt-upcoming-1";
       NotificationItem.type := info;
       NotificationItem.title := "Pago Próximo";
       NotificationItem.message := "El pago de BBVA es en 3 días." |} ].
Proof.
  destruct (debtReminder_rule jan12 bbva 15)
    as (_ & _ & _ & _ & _ & _ & _ & _ & _ & _ & _ & _ & _ & H & _).
  - simpl. lra.
  - reflexivity.
  - simpl. lia.
  - apply H. simpl. lia.
Defined.

(** The scenario of the specification, on the debt due on the 15th: the
    warning on the 15th, "due in 3 days" on the 12th, nothing on the
    20th. *)
Example debtReminder_bbva_day15 :
  debtReminder feb15 bbva =
  [ {| NotificationItem.id := "debt-due-1";
       NotificationItem.type := warning;
       NotificationItem.title := "¡Vencimiento Hoy!";
       NotificationItem.message := "El pago mínimo de BBVA vence hoy. Evita recargos." |} ].
Proof.
  rewrite (debtReminder_cases feb15 bbva 15); [reflexivity | simpl; lra | reflexivity | simpl; lia].
Qed.

Example debtReminder_bbva_day12 :
  debtReminder jan12 bbva =
  [ {| NotificationItem.id := "debt-upcoming-1";
       NotificationItem.type := info;
       NotificationItem.title := "Pago Próximo";
       NotificationItem.message := "El pago de BBVA es en 3 días." |} ].
Proof.
  rewrite (debtReminder_cases jan12 bbva 15); [reflexivity | simpl; lra | reflexivity | simpl; lia].
Qed.

Example debtReminder_bbva_day20 : debtReminder jan20 bbva = [].
Proof.
  rewrite (debtReminder_cases jan20 bbva 15); [reflexivity | simpl; lra | reflexivity | simpl; lia].
Qed.

(** On the 30th, a debt due on the 2nd is not announced. *)
Example debtReminder_no_wrap : debtReminder jan30 dueOnSecond = [].
Proof.
  rewrite (debtReminder_cases jan30 dueOnSecond 2);
    [reflexivity | simpl; lra | reflexivity | simpl; lia].
Qed.

(** C10. One run of the reminder computation emits at most one item for a
    debt: the due-today warning and the due-soon info exclude one
    another. *)
Theorem debtReminder_at_most_one (today : Date) (debt : Debt.t) :
  let notes := debtReminder today debt in
  (notes = [] \/ notes = [dueTodayItem debt]
   \/ exists daysLeft, notes = [upcomingItem debt daysLeft]) /\
  (List.length notes <= 1)%nat /\
  ~ (exists daysLeft, In (dueTodayItem debt) notes /\ In (upcomingItem debt daysLeft) notes).
Proof.
  intros notes.
  assert (H : notes = [] \/ notes = [dueTodayItem debt]
              \/ exists daysLeft, notes = [upcomingItem debt daysLeft]).
  { subst notes. unfold debtReminder.
    destruct ((if Rlt_dec 0 (Debt.currentAmount debt) then true else false)
              && truthy (Debt.dueDay debt)); [|auto].
    destruct (Debt.dueDay debt) as [dueDay|]; [|auto].
    destruct (getDate today =? dueDay); [auto|].
    destruct ((dueDay >? getDate today) && (dueDay <=? getDate today + 3)); eauto. }
  clearbody notes. split; [exact H|].
  destruct H as [-> | [-> | [n ->]]]; simpl.
  - split; [lia|]. intros (n & [] & _).
  - split; [lia|]. intros (n & _ & [H|[]]).
    apply (f_equal NotificationItem.type) in H. discriminate.
  - split; [lia|]. intros (m & [H|[]] & _).
    apply (f_equal NotificationItem.type) in H. discriminate.
Qed.

(** The decision of the expense callback. *)
Lemma expenseCheck_guarded (today : Date) (exp : Expense.t) :
  1 <= getDate today <= 31 ->
  fst (expenseCheck today exp) = true <->
  fixedExpenseRule_guarded (getDate today) (getDay today) exp.
Proof.
  intros Hrange. unfold expenseCheck, fixedExpenseRule_guarded, truthy, dayIs.
  destruct (Expense.frequency exp) as [[ | | ]|];
    destruct (Expense.dueDay exp) as [k|]; simpl;
    repeat match goal with
           | |- context [Z.eqb ?x ?y] => destruct (Z.eqb_spec x y); simpl
           end;
    split; intros H; try discriminate; try reflexivity;
    try (exfalso; lia);
    repeat match goal with
           | H : _ \/ _ |- _ => destruct H
           | H : _ /\ _ |- _ => destruct H
           | H : Some _ = Some _ |- _ => inversion H; clear H
           end;
    try discriminate; try congruence; try lia;
    try solve [left; split; [auto | f_equal; lia]];
    try solve [right; left; split; [auto | f_equal; lia]];
    try solve [right; right; split; [reflexivity | split; [congruence |]];
               first [left; f_equal; lia | right; f_equal; lia]].
Qed.

(** The rule of the source, for every expense: an info fixed-expense
    reminder is emitted on day [d] of the month and day [w] of the week iff
    the frequency is undefined or Monthly and dueDay = d; or Weekly and
    dueDay = w; or Bi-weekly with a dueDay other than 0 and dueDay = d or
    dueDay = d - 15. *)
Lemma expenseReminder_guarded (today : Date) (exp : Expense.t) :
  1 <= getDate today <= 31 ->
  let d := getDate today in
  let w := getDay today in
  ((exists msg, expenseReminder today exp = [expenseItem today exp msg])
   <-> fixedExpenseRule_guarded d w exp) /\
  (~ fixedExpenseRule_guarded d w exp -> expenseReminder today exp = []).
Proof.
  intros Hrange d w.
  pose proof (expenseCheck_guarded today exp Hrange) as Hc.
  fold d in Hc; fold w in Hc.
  split.
  - unfold expenseReminder.
    destruct (expenseCheck today exp) as [[|] msg]; simpl in Hc.
    + split; [intros _; apply Hc; reflexivity | intros _; eauto].
    + split; [intros [m Hm]; discriminate | intros H; apply Hc in H; discriminate].
  - intros Hn. unfold expenseReminder.
    destruct (expenseCheck today exp) as [[|] msg]; simpl in Hc; [|reflexivity].
    exfalso. apply Hn, Hc. reflexivity.
Qed.

(** On the due days of the data model the guard on the bi-weekly day
    changes nothing. *)
Lemma fixedExpenseRule_in_model (d w : Z) (exp : Expense.t) :
  dueDayInModel exp -> fixedExpenseRule_guarded d w exp <-> fixedExpenseRule d w exp.
Proof.
  unfold dueDayInModel, fixedExpenseRule_guarded, fixedExpenseRule.
  intros Hm. split.
  - intros [H | [H | (Hf & _ & H)]]; auto.
  - intros [H | [H | (Hf & H)]]; auto.
    right. right. split; [exact Hf|]. split; [|exact H].
    intros E. rewrite E, Hf in Hm. lia.
Qed.

(** The decision of the expense callback on an expense of the data model,
    on any day. *)
Lemma expenseCheck_in_model (today : Date) (exp : Expense.t) :
  dueDayInModel exp ->
  fst (expenseCheck today exp) = true <->
  fixedExpenseRule (getDate today) (getDay today) exp.
Proof.
  unfold dueDayInModel, expenseCheck, fixedExpenseRule, truthy, dayIs.
  destruct (Expense.frequency exp) as [[ | | ]|];
    destruct (Expense.dueDay exp) as [k|]; simpl; intros Hm;
    repeat match goal with
           | |- context [Z.eqb ?x ?y] => destruct (Z.eqb_spec x y); simpl
           end;
    split; intros H; try discriminate; try reflexivity;
    try (exfalso; lia);
    repeat match goal with
           | H : _ \/ _ |- _ => destruct H
           | H : _ /\ _ |- _ => destruct H
           | H : Some _ = Some _ |- _ => inversion H; clear H
           end;
    try discriminate; try congruence; try lia;
    try solve [left; split; [auto | f_equal; lia]];
    try solve [right; left; split; [auto | f_equal; lia]];
    try solve [right; right; split; [reflexivity|];
               first [left; f_equal; lia | right; f_equal; lia]].
Qed.

(** The message that the expense callback ends with, when it notifies. *)
Lemma expenseCheck_message (today : Date) (exp : Expense.t) :
  fst (expenseCheck today exp) = true ->
  snd (expenseCheck today exp) = fixedExpenseMessage exp.
Proof.
  unfold expenseCheck, fixedExpenseMessage.
  destruct (Expense.frequency exp) as [[ | | ]|]; simpl;
    repeat match goal with
           | |- context [if ?b then _ else _] => destruct b; simpl
           end;
    intros H; try discriminate; reflexivity.
Qed.

(** C5. For an expense whose due day is one of the data model, on day [d]
    of the month and day [w] of the week: an info fixed-expense reminder
    for the expense is emitted iff its frequency is undefined or Monthly
    and dueDay = d; or Weekly and dueDay = w, whatever the day of the
    month; or Bi-weekly and dueDay = d or dueDay = d - 15 (that is,
    d = dueDay + 15). *)
Theorem expenseReminder_rule (today : Date) (exp : Expense.t) :
  dueDayInModel exp ->
  let d := getDate today in
  let w := getDay today in
  let reminder :=
    {| NotificationItem.id :=
         "exp-" ++ Expense.id exp ++ "-" ++ JS.toString (getTime today);
       NotificationItem.type := info;
       NotificationItem.title := "Gasto Fijo";
       NotificationItem.message := fixedExpenseMessage exp |} in
  (expenseReminder today exp = [reminder] <-> fixedExpenseRule d w exp) /\
  (~ fixedExpenseRule d w exp -> expenseReminder today exp = []) /\
  (Expense.frequency exp = Some Weekly ->
   (expenseReminder today exp = [reminder] <-> Expense.dueDay exp = Some w)) /\
  (Expense.frequency exp = Some BiWeekly ->
   (expenseReminder today exp = [reminder]
    <-> Expense.dueDay exp = Some d \/ Expense.dueDay exp = Some (d - 15))) /\
  (forall data, In exp (FinancialState.expenses data) ->
                forall n, In n (expenseReminder today exp) ->
                In n (calculateNotifications today data)).
Proof.
  intros Hmodel d w reminder.
  pose proof (expenseCheck_in_model today exp Hmodel) as Hc.
  fold d in Hc; fold w in Hc.
  pose proof (expenseCheck_message today exp) as Hm.
  assert (Hrule : expenseReminder today exp = [reminder] <-> fixedExpenseRule d w exp).
  { rewrite <- Hc. unfold expenseReminder.
    destruct (expenseCheck today exp) as [[|] msg]; simpl in *.
    - split; [reflexivity|]. intros _.
      subst reminder. unfold expenseItem. rewrite (Hm eq_refl). reflexivity.
    - split; discriminate. }
  assert (Hnone : ~ fixedExpenseRule d w exp -> expenseReminder today exp = []).
  { rewrite <- Hc. unfold expenseReminder.
    destruct (expenseCheck today exp) as [[|] msg]; simpl; [|reflexivity].
    intros H. exfalso. apply H. reflexivity. }
  split; [exact Hrule|]. split; [exact Hnone|].
  split; [|split].
  - intros Hf. rewrite Hrule. unfold fixedExpenseRule. rewrite Hf.
    split; [|auto].
    intros [[[H|H] _] | [[_ H] | [H _]]]; try discriminate; exact H.
  - intros Hf. rewrite Hrule. unfold fixedExpenseRule. rewrite Hf.
    split; [|auto].
    intros [[[H|H] _] | [[H _] | [_ H]]]; try discriminate; exact H.
  - intros data Hin n Hn. rewrite calculateNotifications_parts.
    apply List.in_or_app. right. apply List.in_or_app. right.
    apply List.in_flat_map. exists exp. split; [exact Hin | exact Hn].
Qed.

Lemma expenseReminder_rule_witness :
  expenseReminder jan30 ninera =
  [ {| NotificationItem.id := "exp-4-1706616000000";
       NotificationItem.type := info;
       NotificationItem.title := "Gasto Fijo";
       NotificationItem.message := "Quincenal: Hoy corresponde el gasto de Niñera." |} ].
Proof.
  destruct (expenseReminder_rule jan30 ninera) as (H & _).
  - unfold dueDayInModel. simpl. lia.
  - apply H. right. right. simpl. split; [reflexivity | right; reflexivity].
Defined.

(** Outside the data model: a bi-weekly expense whose day was entered as 0
    is taken as having no day, and gets no reminder on the 15th although
    0 = 15 - 15. *)
Example expenseReminder_biweekly_day_zero :
  fixedExpenseRule (getDate feb15) (getDay feb15) quincenaCero /\
  expenseReminder feb15 quincenaCero = [] /\
  ~ dueDayInModel quincenaCero.
Proof.
  split; [right; right; split; [reflexivity | right; reflexivity]|].
  split; [reflexivity|].
  unfold dueDayInModel. simpl. lia.
Qed.

(** A weekly expense due on Monday fires on a Monday, whatever the day of
    the month, and on no other day of the week. *)
Lemma expenseReminder_weekly (today : Date) :
  (exists msg, expenseReminder today comidaSemanal = [expenseItem today comidaSemanal msg])
  <-> getDay today = 1.
Proof.
  unfold expenseReminder, expenseCheck. simpl.
  destruct (Z.eqb_spec (getDay today) 1) as [E|E]; simpl.
  - split; [intros _; exact E | intros _; eauto].
  - split; [intros [m Hm]; discriminate | intros H; contradiction].
Qed.

(** The check-in and the debt items do not read the timestamp: they are the
    same at two instants of the same day. *)
Lemma debt_items_timestamp_free (t1 t2 : Date) (debts : list Debt.t) :
  getDate t1 = getDate t2 ->
  monthlyCheckin t1 = monthlyCheckin t2 /\
  flat_map (debtReminder t1) debts = flat_map (debtReminder t2) debts.
Proof.
  intros Ed. split.
  - unfold monthlyCheckin. rewrite Ed. reflexivity.
  - induction debts as [|debt debts IH]; [reflexivity|].
    simpl. rewrite IH. f_equal.
    unfold debtReminder. rewrite Ed. reflexivity.
Qed.

(** The id of an expense item is made of the expense id and of the
    timestamp of the evaluation. *)
Lemma expenseItem_id (today : Date) (exp : Expense.t) (msg : string) :
  NotificationItem.id (expenseItem today exp msg) =
  "exp-" ++ Expense.id exp ++ "-" ++ JS.toString (getTime today).
Proof. reflexivity. Qed.

(** C3 fails on the source.  On the initial state, two evaluations one
    minute apart on the same day, 10 February 2024, give reminder sets with
    different ids: the id of the expense reminder embeds the timestamp. *)
Theorem calculateNotifications_ids_embed_timestamp :
  getDate feb10 = getDate feb10_a_minute_later /\
  getDay feb10 = getDay feb10_a_minute_later /\
  map NotificationItem.id (calculateNotifications feb10 INITIAL_STATE)
  = ["exp-1-1707523200000"] /\
  map NotificationItem.id (calculateNotifications feb10_a_minute_later INITIAL_STATE)
  = ["exp-1-1707523260000"] /\
  calculateNotifications feb10 INITIAL_STATE
  <> calculateNotifications feb10_a_minute_later INITIAL_STATE.
Proof.
  assert (H1 : map NotificationItem.id (calculateNotifications feb10 INITIAL_STATE)
               = ["exp-1-1707523200000"]).
  { rewrite calculateNotifications_parts. unfold debtReminder. simpl.
    decide_reals; reflexivity. }
  assert (H2 : map NotificationItem.id
                 (calculateNotifications feb10_a_minute_later INITIAL_STATE)
               = ["exp-1-1707523260000"]).
  { rewrite calculateNotifications_parts. unfold debtReminder. simpl.
    decide_reals; reflexivity. }
  repeat split; try assumption.
  intros E. rewrite E, H2 in H1. discriminate.
Qed.

End ReminderScheduler.

(** * Properties of the payment *)

Section Payment.
Import App Initial.
Local Open Scope R_scope.

Lemma makePayment_debts (debtId : string) (amount : R) (date newId user : string)
    (store : gmap ref HistoryEntry.t) (prev : FinancialState.t) :
  FinancialState.debts (makePayment debtId amount date newId user store prev).2
  = payDebts debtId amount (FinancialState.debts prev).
Proof.
  unfold makePayment.
  destruct (last (FinancialState.history prev)) as [l|]; [|reflexivity].
  destruct (store !! l) as [entry|]; [|reflexivity].
  destruct (String.eqb _ _); reflexivity.
Qed.

Lemma Rmax_0_nonneg (x : R) : 0 <= Rmax 0 x.
Proof. apply Rmax_l. Qed.

(** C9. Recording a payment of [amount] to a debt leaves, at the place of
    every debt with the target id, that debt with the balance
    max(0, currentAmount - amount), which is 0 when the payment is at least
    the balance and is never negative; every other debt is unchanged; so
    balances that were all non-negative stay so. *)
Theorem makePayment_clamps (debtId : string) (amount : R) (date newId user : string)
    (store : gmap ref HistoryEntry.t) (prev : FinancialState.t) :
  let next := (makePayment debtId amount date newId user store prev).2 in
  (forall (i : nat) (d : Debt.t),
      FinancialState.debts prev !! i = Some d ->
      exists d',
        FinancialState.debts next !! i = Some d' /\
        (Debt.id d = debtId ->
         d' = withCurrentAmount d (Rmax 0 (Debt.currentAmount d - amount)) /\
         Debt.currentAmount d' = Rmax 0 (Debt.currentAmount d - amount) /\
         0 <= Debt.currentAmount d' /\
         (Debt.currentAmount d <= amount -> Debt.currentAmount d' = 0)) /\
        (Debt.id d <> debtId -> d' = d)) /\
  List.length (FinancialState.debts next) = List.length (FinancialState.debts prev) /\
  (List.Forall (fun d => 0 <= Debt.currentAmount d) (FinancialState.debts prev) ->
   List.Forall (fun d => 0 <= Debt.currentAmount d) (FinancialState.debts next)).
Proof.
  intros next. subst next. rewrite makePayment_debts. unfold payDebts.
  split; [|split].
  - intros i d Hi. rewrite list_lookup_fmap, Hi. simpl.
    destruct (String.eqb_spec (Debt.id d) debtId) as [E|E].
    + eexists. split; [reflexivity|]. split; [|contradiction].
      intros _. simpl. repeat split.
      * apply Rmax_0_nonneg.
      * intros Hle. unfold Rmax. destruct (Rle_dec 0 (Debt.currentAmount d - amount)); lra.
    + exists d. split; [reflexivity|]. split; [contradiction | reflexivity].
  - apply List.length_map.
  - intros Hnonneg. apply List.Forall_forall. intros d' Hd'.
    apply List.in_map_iff in Hd' as (d & <- & Hd).
    rewrite List.Forall_forall in Hnonneg.
    destruct (String.eqb (Debt.id d) debtId); simpl.
    + apply Rmax_0_nonneg.
    + apply Hnonneg, Hd.
Qed.

Lemma makePayment_clamps_witness :
  List.Forall (fun d => 0 <= Debt.currentAmount d)
    (FinancialState.debts
       (makePayment "1" 50000 "2024-03-01" "p1" "Edna" INITIAL_STORE INITIAL_STATE).2).
Proof.
  destruct (makePayment_clamps "1" 50000 "2024-03-01" "p1" "Edna" INITIAL_STORE INITIAL_STATE)
    as (_ & _ & H).
  apply H. simpl. repeat constructor; simpl; lra.
Defined.

(** Paying 50000 to the debt of 45000 leaves a balance of exactly 0. *)
Example makePayment_overpay :
  map Debt.currentAmount
    (FinancialState.debts
       (makePayment "1" 50000 "2024-03-01" "p1" "Edna" INITIAL_STORE INITIAL_STATE).2)
  = [0; 12000; 750000].
Proof.
  rewrite makePayment_debts. simpl. unfold Rmax.
  destruct (Rle_dec 0 (45000 - 50000)); [lra | reflexivity].
Qed.

End Payment.

(** * Properties of the notification dispatch *)

Section NotificationDispatcher.
Import App Initial.
Variable amountToString : R -> string.

Lemma setData_shown (u : Updater) (c : Component) : shown (setData u c) = shown c.
Proof. unfold setData. destruct (u (store c) (data c)). reflexivity. Qed.

Lemma setData_pushEnabled (u : Updater) (c : Component) :
  pushEnabled (setData u c) = pushEnabled c.
Proof. unfold setData. destruct (u (store c) (data c)). reflexivity. Qed.

Lemma setData_data (u : Updater) (c : Component) :
  data (setData u c) = (u (store c) (data c)).2 /\
  store (setData u c) = (u (store c) (data c)).1.
Proof. unfold setData. destruct (u (store c) (data c)). split; reflexivity. Qed.

(** One call of [sendSystemNotification]: one notification, with the
    title and body of the call, when it dispatches; none otherwise; the
    snapshot is not touched. *)
Lemma sendSystemNotification_effect (window : Window) (t b : string) (c : Component) :
  shown (sendSystemNotification window t b c) =
  (shown c ++
   if dispatches window c
   then [ {| title := t; body := b;
             icon := "https://cdn-icons-png.flaticon.com/512/2933/2933116.png" |} ]
   else [])%list /\
  data (sendSystemNotification window t b c) = data c /\
  store (sendSystemNotification window t b c) = store c.
Proof.
  unfold sendSystemNotification, dispatches.
  destruct (pushEnabled c && _ && _); simpl.
  - repeat split.
  - rewrite List.app_nil_r. repeat split.
Qed.

(** The permission effect records a permission only on a platform that has
    notifications. *)
Lemma permissionEffect_granted (window : Window) (answer : NotificationPermission) :
  permissionEffect window answer = true -> Notification window <> None.
Proof.
  unfold permissionEffect. destruct (Notification window); [discriminate 2 | discriminate 1].
Qed.

(** An action that sets the data with [u] and then sends one notification
    with title [t] and body [b]. *)
Lemma action_effect (window : Window) (c : Component) (u : Updater) (t b : string) :
  let c' := sendSystemNotification window t b (setData u c) in
  let alert := {| title := t; body := b;
                  icon := "https://cdn-icons-png.flaticon.com/512/2933/2933116.png" |} in
  (pushEnabled c = true /\ Notification window <> None /\ visibilityState window = hidden ->
   shown c' = (shown c ++ [alert])%list) /\
  (pushEnabled c = false \/ Notification window = None \/ visibilityState window = visible ->
   shown c' = shown c) /\
  data c' = (u (store c) (data c)).2 /\
  store c' = (u (store c) (data c)).1.
Proof.
  intros c' alert. subst c'.
  destruct (sendSystemNotification_effect window t b (setData u c)) as (Hs & Hd & Hst).
  rewrite Hs, Hd, Hst, setData_shown. unfold dispatches. rewrite setData_pushEnabled.
  destruct (setData_data u c) as [-> ->].
  split; [|split; [|split]]; try reflexivity.
  - intros (Hp & Hn & Hv). rewrite Hp, Hv.
    destruct (Notification window); [reflexivity | contradiction].
  - intros [Hp | [Hn | Hv]].
    + rewrite Hp. simpl. apply List.app_nil_r.
    + rewrite Hn. rewrite andb_false_r. apply List.app_nil_r.
    + rewrite Hv. rewrite !andb_false_r. apply List.app_nil_r.
Qed.

(** The snapshot that [handleAddDebt] leaves: the debt, with its new id,
    after the debts there were, and nothing else changed. *)
Lemma addDebt_snapshot (debt : Debt.t) (newId : string)
    (store : gmap ref HistoryEntry.t) (prev : FinancialState.t) :
  addDebt debt newId store prev =
  (store,
   {| FinancialState.debts :=
        (FinancialState.debts prev ++
         [ {| Debt.id := newId;
              Debt.name := Debt.name debt;
              Debt.initialAmount := Debt.initialAmount debt;
              Debt.currentAmount := Debt.currentAmount debt;
              Debt.minPayment := Debt.minPayment debt;
              Debt.color := Debt.color debt;
              Debt.dueDay := Debt.dueDay debt;
              Debt.interestRate := Debt.interestRate debt |} ])%list;
      FinancialState.expenses := FinancialState.expenses prev;
      FinancialState.incomes := FinancialState.incomes prev;
      FinancialState.payments := FinancialState.payments prev;
      FinancialState.history := FinancialState.history prev |}).
Proof. reflexivity. Qed.

(** The snapshot that [handleMakePayment] leaves, its history apart: the
    balances of the payment, the payment after the payments there were. *)
Lemma makePayment_snapshot (debtId : string) (amount : R) (date newId user : string)
    (store : gmap ref HistoryEntry.t) (prev : FinancialState.t) :
  let next := (makePayment debtId amount date newId user store prev).2 in
  FinancialState.debts next = payDebts debtId amount (FinancialState.debts prev) /\
  FinancialState.payments next =
  (FinancialState.payments prev ++
   [ {| Payment.id := newId; Payment.debtId := debtId; Payment.amount := amount;
        Payment.date := date; Payment.recordedBy := user |} ])%list /\
  FinancialState.expenses next = FinancialState.expenses prev /\
  FinancialState.incomes next = FinancialState.incomes prev.
Proof.
  unfold makePayment.
  destruct (last (FinancialState.history prev)) as [l|]; [|repeat split].
  destruct (store !! l) as [entry|]; [|repeat split].
  destruct (String.eqb _ _); repeat split.
Qed.

(** C7, as the source has it.  For a debt created and for a payment
    recorded: when the permission flag that the component keeps
    ([pushEnabled]) is set, the platform has notifications and the page is
    hidden, exactly one system notification, with the title and the body of
    the action, is constructed; when the flag is not set, the platform has
    no notifications or the page is visible, none is; and in every case the
    snapshot after the action has the debt added, with its new id, or the
    payment recorded and the balances paid, the same whatever the flag, the
    platform and the visibility. *)
Theorem dispatch_contract (window : Window) (c : Component) :
  (forall (debt : Debt.t) (newId : string),
      let c' := handleAddDebt window debt newId c in
      let alert :=
        {| title := "Nueva Deuda";
           body := currentUser c ++ " agregó la deuda " ++ JS.quote ++ Debt.name debt ++ JS.quote;
           icon := "https://cdn-icons-png.flaticon.com/512/2933/2933116.png" |} in
      (pushEnabled c = true /\ Notification window <> None /\ visibilityState window = hidden ->
       shown c' = (shown c ++ [alert])%list) /\
      (pushEnabled c = false \/ Notification window = None \/ visibilityState window = visible ->
       shown c' = shown c) /\
      data c' =
      {| FinancialState.debts :=
           (FinancialState.debts (data c) ++
            [ {| Debt.id := newId;
                 Debt.name := Debt.name debt;
                 Debt.initialAmount := Debt.initialAmount debt;
                 Debt.currentAmount := Debt.currentAmount debt;
                 Debt.minPayment := Debt.minPayment debt;
                 Debt.color := Debt.color debt;
                 Debt.dueDay := Debt.dueDay debt;
                 Debt.interestRate := Debt.interestRate debt |} ])%list;
         FinancialState.expenses := FinancialState.expenses (data c);
         FinancialState.incomes := FinancialState.incomes (data c);
         FinancialState.payments := FinancialState.payments (data c);
         FinancialState.history := FinancialState.history (data c) |} /\
      store c' = store c) /\
  (forall (debtId : string) (amount : R) (date newId : string),
      let c' := handleMakePayment amountToString window debtId amount date newId c in
      let alert :=
        {| title := "Pago Registrado";
           body := currentUser c ++ " pagó $" ++ amountToString amount ++ " a "
                   ++ debtNameOf debtId (FinancialState.debts (data c));
           icon := "https://cdn-icons-png.flaticon.com/512/2933/2933116.png" |} in
      (pushEnabled c = true /\ Notification window <> None /\ visibilityState window = hidden ->
       shown c' = (shown c ++ [alert])%list) /\
      (pushEnabled c = false \/ Notification window = None \/ visibilityState window = visible ->
       shown c' = shown c) /\
      FinancialState.debts (data c') = payDebts debtId amount (FinancialState.debts (data c)) /\
      FinancialState.payments (data c') =
      (FinancialState.payments (data c) ++
       [ {| Payment.id := newId; Payment.debtId := debtId; Payment.amount := amount;
            Payment.date := date; Payment.recordedBy := currentUser c |} ])%list /\
      FinancialState.expenses (data c') = FinancialState.expenses (data c) /\
      FinancialState.incomes (data c') = FinancialState.incomes (data c) /\
      data c' = (makePayment debtId amount date newId (currentUser c) (store c) (data c)).2 /\
      store c' = (makePayment debtId amount date newId (currentUser c) (store c) (data c)).1).
Proof.
  split.
  - intros debt newId c' alert.
    destruct (action_effect window c (addDebt debt newId) "Nueva Deuda" (body alert))
      as (H1 & H2 & H3 & H4).
    rewrite addDebt_snapshot in H3, H4.
    split; [exact H1|]. split; [exact H2|]. split; [exact H3 | exact H4].
  - intros debtId amount date newId c' alert.
    destruct (action_effect window c
                (makePayment debtId amount date newId (currentUser c))
                "Pago Registrado" (body alert))
      as (H1 & H2 & H3 & H4).
    destruct (makePayment_snapshot debtId amount date newId (currentUser c) (store c) (data c))
      as (S1 & S2 & S3 & S4).
    assert (Hd : data c'
                 = (makePayment debtId amount date newId (currentUser c) (store c) (data c)).2)
      by exact H3.
    split; [exact H1|]. split; [exact H2|]. rewrite Hd.
    split; [exact S1|]. split; [exact S2|]. split; [exact S3|]. split; [exact S4|].
    split; [reflexivity | exact H4].
Qed.

End NotificationDispatcher.

Lemma dispatch_contract_witness :
  App.shown
    (App.handleMakePayment Initial.sampleAmountToString Initial.background
       "1" 1000 "2024-03-01" "p1" Initial.component0)
  = [ {| App.title := "Pago Registrado";
         App.body := "Edna pagó $1000 a BBVA";
         App.icon := "https://cdn-icons-png.flaticon.com/512/2933/2933116.png" |} ].
Proof.
  destruct (dispatch_contract Initial.sampleAmountToString Initial.background
              Initial.component0) as (_ & H).
  destruct (H "1" 1000%R "2024-03-01" "p1") as (Hs & _).
  apply Hs. repeat split. discriminate.
Defined.

(** C7, as stated, fails: with the permission of the platform granted and
    the page hidden, a component that recorded no permission when it
    mounted (the request was then dismissed) constructs no notification,
    for a payment or for a new debt. *)
Lemma dispatch_permission_not_recorded :
  App.Notification Initial.background = Some App.granted /\
  App.visibilityState Initial.background = App.hidden /\
  App.pushEnabled Initial.component0_denied
  = App.permissionEffect
      {| App.Notification := Some App.default; App.visibilityState := App.visible |}
      App.default /\
  App.shown
    (App.handleMakePayment Initial.sampleAmountToString Initial.background
       "1" 1000 "2024-03-01" "p1" Initial.component0_denied) = [] /\
  App.shown (App.handleAddDebt Initial.background Initial.dueOnSecond "d1"
               Initial.component0_denied) = [] /\
  ~ (forall (window : App.Window) (c : App.Component)
            (debtId : string) (amount : R) (date newId : string),
        App.Notification window = Some App.granted ->
        App.visibilityState window = App.hidden ->
        exists alert,
          App.shown (App.handleMakePayment Initial.sampleAmountToString window
                       debtId amount date newId c)
          = (App.shown c ++ [alert])%list).
Proof.
  repeat split.
  intros Hall.
  destruct (Hall Initial.background Initial.component0_denied
              "1" 1000%R "2024-03-01" "p1" eq_refl eq_refl) as [alert H].
  discriminate H.
Qed.

(** With the page in the foreground, or without the permission, the same
    payment constructs no notification and gives the same snapshot. *)
Lemma dispatch_suppressed_same_data :
  App.shown
    (App.handleMakePayment Initial.sampleAmountToString Initial.foreground
       "1" 1000 "2024-03-01" "p1" Initial.component0) = [] /\
  App.shown
    (App.handleMakePayment Initial.sampleAmountToString Initial.background
       "1" 1000 "2024-03-01" "p1" Initial.component0_denied) = [] /\
  App.data
    (App.handleMakePayment Initial.sampleAmountToString Initial.foreground
       "1" 1000 "2024-03-01" "p1" Initial.component0)
  = App.data
      (App.handleMakePayment Initial.sampleAmountToString Initial.background
         "1" 1000 "2024-03-01" "p1" Initial.component0).
Proof.
  repeat split.
Qed.

(** * The snapshot under the updaters *)

Section CopyAndReplace.
Import App Initial.
Local Open Scope R_scope.

(** The updaters of adding, editing and deleting a debt write to no history
    entry: a reader of the previous snapshot sees what it saw before. *)
Lemma copying_preserves (f : FinancialState.t -> FinancialState.t)
    (store : gmap ref HistoryEntry.t) (prev : FinancialState.t) :
  (copying f store prev).1 = store /\
  readHistory (copying f store prev).1 prev = readHistory store prev.
Proof. split; reflexivity. Qed.

(** The updater of a payment leaves every history entry as it was, the last
    entry of the previous snapshot apart. *)
Lemma makePayment_frame (debtId : string) (amount : R) (date newId user : string)
    (store : gmap ref HistoryEntry.t) (prev : FinancialState.t) (l : ref) :
  is_Some (store !! l) -> last (FinancialState.history prev) <> Some l ->
  (makePayment debtId amount date newId user store prev).1 !! l = store !! l.
Proof.
  intros Hl Hlast. unfold makePayment.
  assert (Hfresh : fresh (dom store) <> l).
  { intros E. apply (is_fresh (dom store)). rewrite E. apply elem_of_dom, Hl. }
  destruct (last (FinancialState.history prev)) as [lastHist|]; simpl;
    [|apply lookup_insert_ne, Hfresh].
  destruct (store !! lastHist) as [entry|]; simpl; [|apply lookup_insert_ne, Hfresh].
  destruct (String.eqb _ _); simpl; [|apply lookup_insert_ne, Hfresh].
  apply lookup_insert_ne. congruence.
Qed.

(** When the last entry is of the month of the payment, its total is
    overwritten where it is. *)
Lemma makePayment_overwrites (debtId : string) (amount : R) (date newId user : string)
    (store : gmap ref HistoryEntry.t) (prev : FinancialState.t)
    (lastHist : ref) (entry : HistoryEntry.t) :
  last (FinancialState.history prev) = Some lastHist ->
  store !! lastHist = Some entry ->
  HistoryEntry.date entry = String.substring 0 7 date ->
  (makePayment debtId amount date newId user store prev).1 !! lastHist =
  Some {| HistoryEntry.date := HistoryEntry.date entry;
          HistoryEntry.totalDebt :=
            totalDebtOf (payDebts debtId amount (FinancialState.debts prev)) |}.
Proof.
  intros Hlast Hentry Hdate. unfold makePayment.
  rewrite Hlast, Hentry, Hdate, String.eqb_refl. simpl.
  apply lookup_insert_eq.
Qed.

(** C8 fails on the source.  A payment of 1000 to the first debt, recorded
    on 15 February 2024 on the initial state, whose last history entry is
    of February 2024, changes that entry of the previous snapshot from
    807000 to 806000: the previous snapshot is not what it was. *)
Theorem makePayment_mutates_previous_history :
  let store' :=
    (makePayment "1" 1000 "2024-02-15" "p1" "Edna" INITIAL_STORE INITIAL_STATE).1 in
  List.last (readHistory INITIAL_STORE INITIAL_STATE) None
  = Some {| HistoryEntry.date := "2024-02"; HistoryEntry.totalDebt := 807000 |} /\
  List.last (readHistory store' INITIAL_STATE) None
  = Some {| HistoryEntry.date := "2024-02"; HistoryEntry.totalDebt := 806000 |} /\
  readHistory store' INITIAL_STATE <> readHistory INITIAL_STORE INITIAL_STATE.
Proof.
  intros store'.
  assert (H0 : INITIAL_STORE !! 4%nat
               = Some {| HistoryEntry.date := "2024-02"; HistoryEntry.totalDebt := 807000 |})
    by reflexivity.
  assert (H1 : store' !! 4%nat
               = Some {| HistoryEntry.date := "2024-02"; HistoryEntry.totalDebt := 806000 |}).
  { subst store'.
    etransitivity;
      [exact (makePayment_overwrites "1" 1000 "2024-02-15" "p1" "Edna"
                INITIAL_STORE INITIAL_STATE 4%nat _ eq_refl H0 eq_refl)|].
    f_equal. f_equal. unfold totalDebtOf. simpl. unfold Rmax.
    destruct (Rle_dec 0 (45000 - 1000)); lra. }
  unfold readHistory.
  change (FinancialState.history INITIAL_STATE) with [0; 1; 2; 3; 4]%nat.
  cbn [map List.last]. rewrite H0, H1.
  split; [reflexivity|]. split; [reflexivity|].
  intros E.
  assert (E' : 806000 = 807000) by congruence.
  lra.
Qed.

End CopyAndReplace.

(** * Properties of the displayed time *)

Section FormatTime.
Import JS DebtManagerView.
Local Open Scope R_scope.

Lemma floor_bounds (x : R) : IZR (floor x) <= x < IZR (floor x) + 1.
Proof. unfold floor. destruct (base_Int_part x). lra. Qed.

Lemma ceil_bounds (x : R) : x <= IZR (ceil x) < x + 1.
Proof.
  unfold ceil. rewrite opp_IZR. destruct (base_Int_part (- x)). lra.
Qed.

Lemma ceil_unique (x : R) (z : Z) : x <= IZR z < x + 1 -> z = ceil x.
Proof.
  intros H. unfold ceil.
  rewrite <- (Int_part_spec (- x) (- z)); [lia|].
  rewrite opp_IZR. lra.
Qed.

(** The remainder of a non-negative number by 12 lies in [0, 12). *)
Lemma rem_12_bounds (x : R) :
  0 <= x -> rem x 12 = x - 12 * IZR (floor (x / 12)) /\ 0 <= rem x 12 < 12.
Proof.
  intros Hx. unfold rem.
  destruct (Rle_dec 0 (x / 12)) as [_|H]; [|exfalso; apply H; lra].
  split; [reflexivity|].
  destruct (floor_bounds (x / 12)). lra.
Qed.

(** X1.  For a positive number of months, the years and months that
    [formatTime] prints add up to the months rounded up to a whole month;
    the months printed lie between 0 and 12, both included. *)
Theorem formatTime_parts (x : R) :
  0 < x ->
  (0 <= years x)%Z /\
  (0 <= monthsLeft x <= 12)%Z /\
  (12 * years x + monthsLeft x)%Z = ceil x.
Proof.
  intros Hx. unfold years, monthsLeft.
  destruct (rem_12_bounds x) as [Erem Hrem]; [lra|].
  destruct (floor_bounds (x / 12)) as [Hf1 Hf2].
  destruct (ceil_bounds (rem x 12)) as [Hc1 Hc2].
  assert (H0 : (0 <= floor (x / 12))%Z).
  { apply le_IZR. apply Rnot_lt_le. intros Hneg.
    assert (IZR (floor (x / 12)) <= -1).
    { apply IZR_le. apply lt_IZR in Hneg. lia. }
    lra. }
  assert (Hm0 : (0 <= ceil (rem x 12))%Z) by (apply le_IZR; lra).
  assert (Hm12 : (ceil (rem x 12) <= 12)%Z).
  { assert (H13 : IZR (ceil (rem x 12)) < 13) by lra.
    apply lt_IZR in H13. lia. }
  repeat split; try assumption.
  apply ceil_unique. rewrite plus_IZR, mult_IZR. lra.
Qed.

Lemma formatTime_parts_witness :
  (12 * years 30 + monthsLeft 30)%Z = ceil 30.
Proof.
  apply (formatTime_parts 30). lra.
Defined.

(** Twelve months are never carried into a year: 23.5 months are shown as
    1 year and 12 months. *)
Example formatTime_year_and_12_months :
  formatTime (Num (47 / 2)) = "1 año 12 meses".
Proof.
  assert (Hy : years (47 / 2) = 1%Z).
  { unfold years, floor. symmetry. apply Int_part_spec. simpl. lra. }
  assert (Hm : monthsLeft (47 / 2) = 12%Z).
  { unfold monthsLeft. destruct (rem_12_bounds (47 / 2)) as [E _]; [lra|].
    rewrite E. fold (years (47 / 2)). rewrite Hy.
    symmetry. apply ceil_unique. simpl. lra. }
  unfold formatTime. destruct (Req_dec_T (47 / 2) 0); [lra|].
  rewrite Hy, Hm. reflexivity.
Qed.

(** The text of a number starts with a digit or a minus sign. *)
Lemma toString_head (z : Z) :
  exists c s, toString z = String c s /\ c <> "P"%char /\ c <> "N"%char.
Proof.
  unfold toString.
  destruct (Z.to_int z) as [u|u]; simpl.
  - destruct u; simpl; eexists; eexists; (split; [reflexivity|]); split; discriminate.
  - eexists; eexists; (split; [reflexivity|]); split; discriminate.
Qed.

Lemma mesText_head (m : Z) :
  exists c s, mesText m = String c s /\ c <> "P"%char /\ c <> "N"%char.
Proof.
  unfold mesText. destruct (toString_head m) as (c & s & -> & H).
  simpl. eauto.
Qed.

(** The text of a finite, non-zero number of months is neither of the two
    labels. *)
Lemma formatTime_finite_text (x : R) :
  x <> 0 ->
  formatTime (Num x) <> "Pagado" /\ formatTime (Num x) <> "Nunca (Interés > Pago)".
Proof.
  intros Hx. unfold formatTime. destruct (Req_dec_T x 0); [contradiction|].
  destruct (years x >? 0)%Z.
  - destruct (toString_head (years x)) as (c & s & -> & Hc1 & Hc2).
    simpl. split; intros E; inversion E; contradiction.
  - destruct (mesText_head (monthsLeft x)) as (c & s & -> & Hc1 & Hc2).
    split; intros E; inversion E; contradiction.
Qed.

End FormatTime.

(** * Properties of the debt list and of the forms *)

Section DebtView.
Import JS DebtManagerView.
Local Open Scope R_scope.

Lemma progress_of_balance (debt : Debt.t) (balance : R) :
  0 < Debt.initialAmount debt ->
  progress (App.withCurrentAmount debt balance)
  = (Debt.initialAmount debt - balance) / Debt.initialAmount debt * 100.
Proof.
  intros Hi. unfold progress. simpl.
  destruct (Rlt_dec 0 (Debt.initialAmount debt)); [reflexivity | contradiction].
Qed.

(** The bar is never drawn narrower than 0% or wider than 100%, whatever
    the amounts of the debt. *)
Lemma barWidth_range (mounted : bool) (debt : Debt.t) :
  0 <= barWidth mounted debt <= 100.
Proof.
  unfold barWidth. destruct mounted; [|lra].
  unfold Rmin, Rmax.
  destruct (Rle_dec 0 (progress debt)), (Rle_dec 100 _); lra.
Qed.

(** X3.  A payment never moves the progress of a debt backwards: for a debt
    with a non-negative balance and a payment of a non-negative amount, the
    progress after the payment is at least the progress before, the bar
    stays within 0% and 100%, and it is full once the payment reaches the
    balance of a debt with a positive initial amount. *)
Theorem progress_after_payment (debt : Debt.t) (amount : R) :
  0 <= Debt.currentAmount debt -> 0 <= amount ->
  let paid := App.withCurrentAmount debt (Rmax 0 (Debt.currentAmount debt - amount)) in
  progress debt <= progress paid /\
  barWidth true debt <= barWidth true paid <= 100 /\
  (0 < Debt.initialAmount debt -> Debt.currentAmount debt <= amount ->
   barWidth true paid = 100) /\
  0 <= barWidth true debt.
Proof.
  intros Hc Ha paid.
  assert (Hbal : 0 <= Rmax 0 (Debt.currentAmount debt - amount) <= Debt.currentAmount debt).
  { unfold Rmax. destruct (Rle_dec 0 (Debt.currentAmount debt - amount)); lra. }
  assert (Hprog : progress debt <= progress paid).
  { destruct (Rlt_dec 0 (Debt.initialAmount debt)) as [Hi|Hi].
    - unfold paid. rewrite (progress_of_balance debt _ Hi).
      unfold progress. destruct (Rlt_dec 0 (Debt.initialAmount debt)); [|contradiction].
      apply Rmult_le_compat_r; [lra|].
      apply Rmult_le_compat_r; [apply Rlt_le, Rinv_0_lt_compat, Hi | lra].
    - unfold progress, paid. simpl.
      destruct (Rlt_dec 0 (Debt.initialAmount debt)); [contradiction | lra]. }
  split; [exact Hprog|]. split; [|split; [|apply barWidth_range]].
  - split; [|apply barWidth_range].
    unfold barWidth, Rmin, Rmax.
    destruct (Rle_dec 0 (progress debt)), (Rle_dec 0 (progress paid));
      repeat match goal with |- context [Rle_dec 100 ?x] => destruct (Rle_dec 100 x) end;
      lra.
  - intros Hi Hfull.
    assert (E : Rmax 0 (Debt.currentAmount debt - amount) = 0).
    { unfold Rmax. destruct (Rle_dec 0 (Debt.currentAmount debt - amount)); lra. }
    unfold barWidth, paid. rewrite (progress_of_balance debt _ Hi), E.
    replace ((Debt.initialAmount debt - 0) / Debt.initialAmount debt * 100) with 100
      by (field; lra).
    unfold Rmin, Rmax.
    destruct (Rle_dec 0 100); [|lra]. destruct (Rle_dec 100 100); lra.
Qed.

Lemma progress_after_payment_witness :
  barWidth true (App.withCurrentAmount Initial.bbva (Rmax 0 (45000 - 50000))) = 100.
Proof.
  destruct (progress_after_payment Initial.bbva 50000) as (_ & _ & H & _).
  - simpl. lra.
  - lra.
  - apply H; simpl; lra.
Defined.

End DebtView.

Section AddForm.
Import DebtManagerView.

(** [handleAddDebt] appends the debt, with the generated id, to the debts
    of the snapshot. *)
Lemma handleAddDebt_debts (window : App.Window) (debt : Debt.t) (newId : string)
    (c : App.Component) :
  FinancialState.debts (App.data (App.handleAddDebt window debt newId c))
  = (FinancialState.debts (App.data c) ++ [App.withId debt newId])%list.
Proof.
  unfold App.handleAddDebt.
  destruct (sendSystemNotification_effect window "Nueva Deuda"
              (App.currentUser c ++ " agregó la deuda " ++ JS.quote
               ++ Debt.name debt ++ JS.quote)
              (App.setData (App.addDebt debt newId) c)) as (_ & Hd & _).
  rewrite Hd. reflexivity.
Qed.

(** X5.  [handleAddSubmit] passes a debt on exactly when the form has a name and
    a current amount, whatever the amounts are; otherwise it leaves the form
    as it is.  After a submission the form is blank and closed, so that
    submitting it again passes nothing on.  The debt passed on reaches the
    snapshot as one new last debt, with the generated id. *)
Theorem handleAddSubmit_guard (form : AddForm) :
  (fst (handleAddSubmit form) = None
   <-> name (newDebt form) = EmptyString \/ currentAmount (newDebt form) = None) /\
  (fst (handleAddSubmit form) = None -> snd (handleAddSubmit form) = form) /\
  (forall debt, fst (handleAddSubmit form) = Some debt ->
     snd (handleAddSubmit form) = {| isAdding := false; newDebt := blankNewDebt |} /\
     fst (handleAddSubmit (snd (handleAddSubmit form))) = None /\
     Debt.name debt = name (newDebt form) /\
     Some (Debt.currentAmount debt) = currentAmount (newDebt form) /\
     forall window newId c,
       FinancialState.debts (App.data (App.handleAddDebt window debt newId c))
       = (FinancialState.debts (App.data c) ++ [App.withId debt newId])%list).
Proof.
  unfold handleAddSubmit.
  destruct (String.eqb_spec (name (newDebt form)) EmptyString) as [E|E]; simpl.
  - split; [split; auto|]. split; [reflexivity|]. discriminate.
  - destruct (currentAmount (newDebt form)) as [current|] eqn:Ec; simpl.
    + split; [split; [discriminate | intros [?|?]; [contradiction | discriminate]]|].
      split; [discriminate|].
      intros debt Hd. inversion Hd; subst debt; clear Hd. simpl.
      repeat split.
      intros window newId c. apply handleAddDebt_debts.
    + split; [split; auto|]. split; [reflexivity|]. discriminate.
Qed.

Lemma handleAddSubmit_guard_witness :
  snd (handleAddSubmit Samples.filledForm)
  = {| isAdding := false; newDebt := blankNewDebt |}.
Proof.
  destruct (handleAddSubmit_guard Samples.filledForm) as (_ & _ & H).
  destruct (fst (handleAddSubmit Samples.filledForm)) as [debt|] eqn:E.
  - apply (H debt). reflexivity.
  - discriminate E.
Defined.

End AddForm.

(** * Properties of the payment history of the dialog *)

Section PaymentHistoryFacts.
Import JS DebtManagerView.
Variable Date_getTime : string -> number.
Local Open Scope R_scope.

(** X6.  With the dialog closed the history is empty; with the dialog open for a
    debt it is a rearrangement of the payments of that debt, and holds no
    payment of another debt.  This does not depend on how the dates
    compare. *)
Theorem paymentHistory_members (payments : list Payment.t) :
  paymentHistory Date_getTime None payments = [] /\
  (forall modal,
      Permutation
        (List.filter (fun p => String.eqb (Payment.debtId p) (debtId modal)) payments)
        (paymentHistory Date_getTime (Some modal) payments) /\
      (forall p, In p (paymentHistory Date_getTime (Some modal) payments)
                 <-> In p payments /\ Payment.debtId p = debtId modal) /\
      List.length (paymentHistory Date_getTime (Some modal) payments)
      <= List.length payments)%nat.
Proof.
  split; [reflexivity|]. intros modal. unfold paymentHistory.
  pose proof (sort_Permutation (newestFirst Date_getTime)
                (List.filter (fun p => String.eqb (Payment.debtId p) (debtId modal)) payments))
    as Hperm.
  split; [exact Hperm|]. split.
  - intros p. split.
    + intros Hin. apply (Permutation_in _ (Permutation_sym Hperm)) in Hin.
      apply List.filter_In in Hin as [Hin E]. apply String.eqb_eq in E. auto.
    + intros [Hin E]. apply (Permutation_in _ Hperm).
      apply List.filter_In. split; [exact Hin | apply String.eqb_eq, E].
  - rewrite <- (Permutation_length Hperm). apply List.filter_length_le.
Qed.

Lemma noOlder_trans (x y z : Payment.t) :
  validDate Date_getTime x -> validDate Date_getTime y -> validDate Date_getTime z ->
  noOlder Date_getTime x y -> noOlder Date_getTime y z -> noOlder Date_getTime x z.
Proof.
  unfold validDate, noOlder. intros [a ->] [b ->] [c ->]. lra.
Qed.

Lemma newestFirst_not_greater (x y : Payment.t) :
  validDate Date_getTime x -> validDate Date_getTime y ->
  positive (SortCompare (newestFirst Date_getTime) x y) = false ->
  noOlder Date_getTime x y.
Proof.
  unfold validDate, noOlder, SortCompare, newestFirst. intros [a ->] [b ->]. simpl.
  destruct (Rlt_dec 0 (b - a)); [discriminate | lra].
Qed.

Lemma newestFirst_greater (x y : Payment.t) :
  validDate Date_getTime x -> validDate Date_getTime y ->
  positive (SortCompare (newestFirst Date_getTime) x y) = true ->
  noOlder Date_getTime y x.
Proof.
  unfold validDate, noOlder, SortCompare, newestFirst. intros [a ->] [b ->]. simpl.
  destruct (Rlt_dec 0 (b - a)); [lra | discriminate].
Qed.

Lemma newestFirst_ties (v : number) (x y : Payment.t) :
  strict_eq (Date_getTime (Payment.date x)) v = true ->
  strict_eq (Date_getTime (Payment.date y)) v = true ->
  positive (SortCompare (newestFirst Date_getTime) x y) = false.
Proof.
  unfold SortCompare, newestFirst.
  destruct (Date_getTime (Payment.date x)) as [a| | |],
           (Date_getTime (Payment.date y)) as [b| | |], v as [c| | |];
    simpl; try discriminate; try reflexivity.
  - destruct (Req_dec_T a c), (Req_dec_T b c); try discriminate.
    intros _ _. destruct (Rlt_dec 0 (b - a)); [lra | reflexivity].
  - intros _ _. destruct (Rlt_dec 0 0); [lra | reflexivity].
  - intros _ _. destruct (Rlt_dec 0 0); [lra | reflexivity].
Qed.

(** X7.  When the dates of the payments are dates, the history shows the
    payments of the debt newest first, and payments of the same date in the
    order of the log. *)
Theorem paymentHistory_newest_first (modal : PaymentModal) (payments : list Payment.t) :
  List.Forall (validDate Date_getTime) payments ->
  StronglySorted (noOlder Date_getTime) (paymentHistory Date_getTime (Some modal) payments) /\
  (forall v,
      List.filter (fun p => strict_eq (Date_getTime (Payment.date p)) v)
        (paymentHistory Date_getTime (Some modal) payments)
      = List.filter (fun p => strict_eq (Date_getTime (Payment.date p)) v)
          (List.filter (fun p => String.eqb (Payment.debtId p) (debtId modal)) payments)).
Proof.
  intros Hvalid. unfold paymentHistory. split.
  - apply (sort_StronglySorted (newestFirst Date_getTime)
             (validDate Date_getTime) (noOlder Date_getTime)).
    + exact noOlder_trans.
    + exact newestFirst_not_greater.
    + exact newestFirst_greater.
    + rewrite List.Forall_forall in *. intros p Hp.
      apply List.filter_In in Hp as [Hp _]. auto.
  - intros v. apply filter_sort, newestFirst_ties.
Qed.

End PaymentHistoryFacts.

Lemma paymentHistory_newest_first_witness :
  DebtManagerView.paymentHistory Samples.sampleGetTime (Some Samples.bbvaModal)
    [Samples.pagoEnero; Samples.pagoPlata; Samples.pagoFebrero]
  = [Samples.pagoFebrero; Samples.pagoEnero] /\
  StronglySorted (DebtManagerView.noOlder Samples.sampleGetTime)
    (DebtManagerView.paymentHistory Samples.sampleGetTime (Some Samples.bbvaModal)
       [Samples.pagoEnero; Samples.pagoPlata; Samples.pagoFebrero]).
Proof.
  split.
  - unfold DebtManagerView.paymentHistory. simpl.
    unfold JS.SortCompare, DebtManagerView.newestFirst. simpl.
    destruct (Rlt_dec 0 (1707955200000 - 1705276800000)); [reflexivity | lra].
  - apply (paymentHistory_newest_first Samples.sampleGetTime Samples.bbvaModal).
    repeat constructor; eexists; reflexivity.
Defined.

(** * Properties of the debt updaters *)

Section DebtUpdaters.
Import App Initial.
Local Open Scope R_scope.

Lemma withDebts_same (prev : FinancialState.t) :
  withDebts prev (FinancialState.debts prev) = prev.
Proof. destruct prev. reflexivity. Qed.

Lemma map_replace_absent (id : string) (updated : Debt.t) (debts : list Debt.t) :
  List.Forall (fun d => Debt.id d <> id) debts ->
  map (fun d => if String.eqb (Debt.id d) id then updated else d) debts = debts.
Proof.
  induction 1 as [|d debts Hd _ IH]; [reflexivity|].
  simpl. rewrite IH. destruct (String.eqb_spec (Debt.id d) id); [contradiction | reflexivity].
Qed.

Lemma filter_absent (id : string) (debts : list Debt.t) :
  List.Forall (fun d => Debt.id d <> id) debts ->
  List.filter (fun d => negb (String.eqb (Debt.id d) id)) debts = debts.
Proof.
  induction 1 as [|d debts Hd _ IH]; [reflexivity|].
  simpl. rewrite IH. destruct (String.eqb_spec (Debt.id d) id); [contradiction | reflexivity].
Qed.

(** X8.  Editing a debt keeps the number, the order and the ids of the debts,
    and replaces every debt that has the id of the edited one; when no debt
    has that id the snapshot is unchanged; the payments and the history are
    never touched. *)
Theorem updateDebt_effect (updatedDebt : Debt.t)
    (store : gmap ref HistoryEntry.t) (prev : FinancialState.t) :
  let next := (updateDebt updatedDebt store prev).2 in
  map Debt.id (FinancialState.debts next) = map Debt.id (FinancialState.debts prev) /\
  (forall (i : nat) (d : Debt.t),
      FinancialState.debts prev !! i = Some d ->
      (Debt.id d = Debt.id updatedDebt -> FinancialState.debts next !! i = Some updatedDebt) /\
      (Debt.id d <> Debt.id updatedDebt -> FinancialState.debts next !! i = Some d)) /\
  (List.Forall (fun d => Debt.id d <> Debt.id updatedDebt) (FinancialState.debts prev) ->
   next = prev) /\
  FinancialState.payments next = FinancialState.payments prev /\
  FinancialState.history next = FinancialState.history prev /\
  (updateDebt updatedDebt store prev).1 = store.
Proof.
  intros next. subst next. unfold updateDebt, copying. simpl.
  split; [|split; [|split]].
  - rewrite List.map_map. apply List.map_ext. intros d.
    destruct (String.eqb_spec (Debt.id d) (Debt.id updatedDebt)); congruence.
  - intros i d Hi. rewrite list_lookup_fmap, Hi. simpl.
    destruct (String.eqb_spec (Debt.id d) (Debt.id updatedDebt)); split; congruence.
  - intros Habsent. rewrite map_replace_absent by assumption. apply withDebts_same.
  - repeat split.
Qed.

Lemma updateDebt_effect_witness :
  (updateDebt interestOnly INITIAL_STORE INITIAL_STATE).2 = INITIAL_STATE.
Proof.
  destruct (updateDebt_effect interestOnly INITIAL_STORE INITIAL_STATE) as (_ & _ & H & _).
  apply H. simpl. repeat constructor; discriminate.
Defined.

(** X9.  Deleting by id removes every debt with that id and keeps the others in
    their order; deleting an id that no debt has changes nothing; the
    payments recorded for the deleted debt stay in the log. *)
Theorem deleteDebt_effect (id : string)
    (store : gmap ref HistoryEntry.t) (prev : FinancialState.t) :
  let next := (deleteDebt id store prev).2 in
  List.Forall (fun d => Debt.id d <> id) (FinancialState.debts next) /\
  (forall d, In d (FinancialState.debts next)
             <-> In d (FinancialState.debts prev) /\ Debt.id d <> id) /\
  FinancialState.debts next
  = List.filter (fun d => negb (String.eqb (Debt.id d) id)) (FinancialState.debts prev) /\
  (List.Forall (fun d => Debt.id d <> id) (FinancialState.debts prev) -> next = prev) /\
  (deleteDebt id store next).2 = next /\
  FinancialState.payments next = FinancialState.payments prev /\
  FinancialState.history next = FinancialState.history prev /\
  (deleteDebt id store prev).1 = store.
Proof.
  intros next. subst next. unfold deleteDebt, copying. simpl.
  assert (Hin : forall d,
             In d (List.filter (fun d => negb (String.eqb (Debt.id d) id))
                     (FinancialState.debts prev))
             <-> In d (FinancialState.debts prev) /\ Debt.id d <> id).
  { intros d. rewrite List.filter_In.
    destruct (String.eqb_spec (Debt.id d) id); simpl; intuition congruence. }
  assert (Hnone : List.Forall (fun d => Debt.id d <> id)
                    (List.filter (fun d => negb (String.eqb (Debt.id d) id))
                       (FinancialState.debts prev))).
  { apply List.Forall_forall. intros d Hd. apply Hin in Hd. tauto. }
  split; [exact Hnone|]. split; [exact Hin|]. split; [reflexivity|].
  split; [|split].
  - intros Habsent. rewrite filter_absent by assumption. apply withDebts_same.
  - unfold withDebts. simpl. rewrite filter_absent by exact Hnone. reflexivity.
  - repeat split.
Qed.

Lemma deleteDebt_effect_witness :
  (deleteDebt "9" INITIAL_STORE INITIAL_STATE).2 = INITIAL_STATE.
Proof.
  destruct (deleteDebt_effect "9" INITIAL_STORE INITIAL_STATE) as (_ & _ & _ & H & _).
  apply H. simpl. repeat constructor; discriminate.
Defined.

(** X10.  Adding a debt and then deleting the generated id gives the snapshot
    back, provided the generated id was not the id of a debt already
    there. *)
Theorem addDebt_deleteDebt (debt : Debt.t) (newId : string)
    (store : gmap ref HistoryEntry.t) (prev : FinancialState.t) :
  List.Forall (fun d => Debt.id d <> newId) (FinancialState.debts prev) ->
  (deleteDebt newId (addDebt debt newId store prev).1 (addDebt debt newId store prev).2).2
  = prev /\
  (deleteDebt newId (addDebt debt newId store prev).1 (addDebt debt newId store prev).2).1
  = store.
Proof.
  intros Hfresh. unfold deleteDebt, addDebt, copying. simpl. split; [|reflexivity].
  rewrite List.filter_app. simpl. rewrite String.eqb_refl. simpl.
  rewrite List.app_nil_r, filter_absent by assumption.
  unfold withDebts. simpl. destruct prev. reflexivity.
Qed.

Lemma addDebt_deleteDebt_witness :
  (deleteDebt "9" (addDebt interestOnly "9" INITIAL_STORE INITIAL_STATE).1
     (addDebt interestOnly "9" INITIAL_STORE INITIAL_STATE).2).2 = INITIAL_STATE.
Proof.
  apply (addDebt_deleteDebt interestOnly "9" INITIAL_STORE INITIAL_STATE).
  simpl. repeat constructor; discriminate.
Defined.

(** When the generated id is the id of a debt already there, deleting it
    takes that debt away as well. *)
Example addDebt_deleteDebt_collision :
  FinancialState.debts
    (deleteDebt "1" (addDebt interestOnly "1" INITIAL_STORE INITIAL_STATE).1
       (addDebt interestOnly "1" INITIAL_STORE INITIAL_STATE).2).2
  = [plataCard; fovissste].
Proof. reflexivity. Qed.

End DebtUpdaters.

(** * Properties of a recorded payment *)

Section RecordedPayment.
Import App Session Initial.
Local Open Scope R_scope.

Lemma payDebts_absent (debtId : string) (amount : R) (debts : list Debt.t) :
  List.Forall (fun d => Debt.id d <> debtId) debts -> payDebts debtId amount debts = debts.
Proof.
  induction 1 as [|d debts Hd _ IH]; [reflexivity|].
  simpl. fold (payDebts debtId amount debts). rewrite IH.
  destruct (String.eqb_spec (Debt.id d) debtId); [contradiction | reflexivity].
Qed.

(** X11.  Every payment is appended to the log, also a payment to an id that no
    debt has, which changes no balance.  The history keeps its entries in
    place and grows by at most one, by an entry that was not in the store;
    its last entry then carries the total of the balances after the
    payment. *)
Theorem makePayment_records (debtId : string) (amount : R) (date newId user : string)
    (store : gmap ref HistoryEntry.t) (prev : FinancialState.t) :
  let store' := (makePayment debtId amount date newId user store prev).1 in
  let next := (makePayment debtId amount date newId user store prev).2 in
  FinancialState.payments next
  = (FinancialState.payments prev ++
     [ {| Payment.id := newId; Payment.debtId := debtId; Payment.amount := amount;
          Payment.date := date; Payment.recordedBy := user |} ])%list /\
  (List.Forall (fun d => Debt.id d <> debtId) (FinancialState.debts prev) ->
   FinancialState.debts next = FinancialState.debts prev) /\
  (FinancialState.history next = FinancialState.history prev
   \/ exists l, store !! l = None
                /\ FinancialState.history next = (FinancialState.history prev ++ [l])%list) /\
  (exists l entry,
      last (FinancialState.history next) = Some l /\ store' !! l = Some entry
      /\ HistoryEntry.totalDebt entry = totalDebtOf (FinancialState.debts next)) /\
  FinancialState.expenses next = FinancialState.expenses prev /\
  FinancialState.incomes next = FinancialState.incomes prev.
Proof.
  intros store' next. subst store' next. unfold makePayment.
  assert (Hfresh : store !! fresh (dom store) = None).
  { apply not_elem_of_dom, is_fresh. }
  assert (Hpush :
    (FinancialState.history prev ++ [fresh (dom store)] = FinancialState.history prev
     \/ exists l, store !! l = None
                  /\ (FinancialState.history prev ++ [fresh (dom store)]
                      = FinancialState.history prev ++ [l]))%list)
    by (right; eauto).
  destruct (last (FinancialState.history prev)) as [lastHist|] eqn:Elast; simpl.
  - destruct (store !! lastHist) as [entry|] eqn:Eentry; simpl.
    + destruct (String.eqb _ _); simpl.
      * split; [reflexivity|]. split; [apply payDebts_absent|].
        split; [left; reflexivity|]. split; [|split; reflexivity].
        eexists. eexists. split; [exact Elast|]. split; [apply lookup_insert_eq | reflexivity].
      * split; [reflexivity|]. split; [apply payDebts_absent|].
        split; [exact Hpush|]. split; [|split; reflexivity].
        eexists. eexists. split; [apply last_snoc|].
        split; [apply lookup_insert_eq | reflexivity].
    + split; [reflexivity|]. split; [apply payDebts_absent|].
      split; [exact Hpush|]. split; [|split; reflexivity].
      eexists. eexists. split; [apply last_snoc|].
      split; [apply lookup_insert_eq | reflexivity].
  - split; [reflexivity|]. split; [apply payDebts_absent|].
    split; [exact Hpush|]. split; [|split; reflexivity].
    eexists. eexists. split; [apply last_snoc|].
    split; [apply lookup_insert_eq | reflexivity].
Qed.

Lemma makePayment_records_witness :
  FinancialState.debts
    (makePayment "none" 100 "2024-03-01" "p1" "Edna" INITIAL_STORE INITIAL_STATE).2
  = FinancialState.debts INITIAL_STATE.
Proof.
  destruct (makePayment_records "none" 100 "2024-03-01" "p1" "Edna" INITIAL_STORE INITIAL_STATE)
    as (_ & H & _).
  apply H. simpl. repeat constructor; discriminate.
Defined.

Lemma totalDebtOf_acc (debts : list Debt.t) (acc : R) :
  fold_left (fun acc d => acc + Debt.currentAmount d) debts acc
  = acc + totalDebtOf debts.
Proof.
  unfold totalDebtOf. revert acc.
  induction debts as [|d debts IH]; intros acc; simpl; [lra|].
  rewrite IH, (IH (0 + Debt.currentAmount d)). lra.
Qed.

Lemma totalDebtOf_cons (d : Debt.t) (debts : list Debt.t) :
  totalDebtOf (d :: debts) = Debt.currentAmount d + totalDebtOf debts.
Proof.
  unfold totalDebtOf at 1. simpl. rewrite totalDebtOf_acc. lra.
Qed.

(** X12.  With balances that are not negative, a payment of a non-negative amount
    never raises the total debt, and the total stays non-negative. *)
Theorem payDebts_total (debtId : string) (amount : R) (debts : list Debt.t) :
  0 <= amount ->
  List.Forall (fun d => 0 <= Debt.currentAmount d) debts ->
  0 <= totalDebtOf (payDebts debtId amount debts) <= totalDebtOf debts.
Proof.
  intros Ha. induction 1 as [|d debts Hd _ IH].
  - unfold totalDebtOf. simpl. lra.
  - simpl. fold (payDebts debtId amount debts).
    rewrite !totalDebtOf_cons.
    destruct (String.eqb (Debt.id d) debtId); simpl; [|lra].
    unfold Rmax. destruct (Rle_dec 0 (Debt.currentAmount d - amount)); lra.
Qed.

Lemma payDebts_total_witness :
  0 <= totalDebtOf (payDebts "1" 1000 (FinancialState.debts INITIAL_STATE))
    <= totalDebtOf (FinancialState.debts INITIAL_STATE).
Proof.
  apply (payDebts_total "1" 1000 (FinancialState.debts INITIAL_STATE)).
  - lra.
  - simpl. repeat constructor; simpl; lra.
Defined.

End RecordedPayment.

Section HistoryGrowth.
Import App Session.
Local Open Scope nat_scope.

Lemma substring_0_length (m : nat) (s : string) :
  String.length (String.substring 0 m s) <= m.
Proof.
  revert s. induction m as [|m IH]; intros s.
  - destruct s; simpl; lia.
  - destruct s as [|c s]; simpl; [lia|]. specialize (IH s). lia.
Qed.

(** A date of more than seven characters is not the month of any day. *)
Lemma day_is_no_month (entryDate date : string) :
  7 < String.length entryDate ->
  String.eqb entryDate (String.substring 0 7 date) = false.
Proof.
  intros Hlen. apply String.eqb_neq. intros E.
  pose proof (substring_0_length 7 date) as H. rewrite <- E in H. lia.
Qed.

(** X14.  Once the last history entry is dated with a day, as the entries pushed
    by a payment are, every payment pushes a new entry, whatever its date:
    the entry of the current month is never found again.  The history of
    the previous snapshot then reads as before, the references stay valid,
    and the new last entry is dated with the day of the payment. *)
Theorem makePayment_pushes_after_day
    (debtId : string) (amount : R) (date newId user : string)
    (store : gmap ref HistoryEntry.t) (prev : FinancialState.t) :
  historyInStore store prev -> lastEntryOfDay store prev ->
  let store' := (makePayment debtId amount date newId user store prev).1 in
  let next := (makePayment debtId amount date newId user store prev).2 in
  FinancialState.history next = (FinancialState.history prev ++ [fresh (dom store)])%list /\
  readHistory store' prev = readHistory store prev /\
  historyInStore store' next /\
  (7 < String.length date -> lastEntryOfDay store' next).
Proof.
  intros Hwf (l & entry & Hlast & Hentry & Hlen) store' next.
  subst store' next. unfold makePayment.
  rewrite Hlast, Hentry, (day_is_no_month _ date Hlen). simpl.
  assert (Hother : forall r, is_Some (store !! r) -> r <> fresh (dom store)).
  { intros r Hr E. apply (is_fresh (dom store)). rewrite <- E. apply elem_of_dom, Hr. }
  unfold historyInStore in *. rewrite List.Forall_forall in Hwf.
  split; [reflexivity|]. split; [|split].
  - unfold readHistory. apply List.map_ext_in. intros r Hr.
    apply lookup_insert_ne. intros E. apply (Hother r); auto.
  - apply List.Forall_forall. intros r Hr. apply List.in_app_or in Hr as [Hr | [<- | []]].
    + rewrite lookup_insert_ne; [auto|]. intros E. apply (Hother r); auto.
    + rewrite lookup_insert_eq. eauto.
  - intros Hdate. unfold lastEntryOfDay. simpl.
    eexists. eexists. split; [apply last_snoc|].
    split; [apply lookup_insert_eq | exact Hdate].
Qed.

End HistoryGrowth.

Lemma makePayment_pushes_after_day_witness :
  App.readHistory
    (App.makePayment "1" 1000 "2024-03-01" "p2" "Edna" Samples.marchStore Samples.marchState).1
    Samples.marchState
  = App.readHistory Samples.marchStore Samples.marchState.
Proof.
  apply (makePayment_pushes_after_day "1" 1000 "2024-03-01" "p2" "Edna"
           Samples.marchStore Samples.marchState).
  - repeat constructor. eexists. reflexivity.
  - eexists. eexists. split; [reflexivity|]. split; [reflexivity|]. simpl. lia.
Defined.

(** * Properties of a session of actions *)

Section SessionFacts.
Import App Session.
Variable amountToString : R -> string.

Lemma sendSystemNotification_pushEnabled (window : Window) (t b : string) (c : Component) :
  pushEnabled (sendSystemNotification window t b c) = pushEnabled c.
Proof.
  unfold sendSystemNotification.
  destruct (pushEnabled c && _ && _); reflexivity.
Qed.

Lemma perform_effect (window : Window) (a : Action) (c : Component) :
  pushEnabled (perform amountToString window a c) = pushEnabled c /\
  exists alert,
    shown (perform amountToString window a c)
    = (shown c ++ if dispatches window c && notifies a then [alert] else [])%list.
Proof.
  destruct a as [debt newId | updatedDebt | id | debtId amount date newId];
    cbn [perform notifies].
  - unfold handleAddDebt.
    destruct (sendSystemNotification_effect window "Nueva Deuda"
                (currentUser c ++ " agregó la deuda " ++ JS.quote ++ Debt.name debt ++ JS.quote)
                (setData (addDebt debt newId) c)) as (Hs & _).
    split.
    + rewrite sendSystemNotification_pushEnabled. apply setData_pushEnabled.
    + eexists. rewrite Hs, setData_shown. unfold dispatches.
      rewrite setData_pushEnabled, andb_true_r. reflexivity.
  - unfold handleUpdateDebt. split; [apply setData_pushEnabled|].
    exists {| title := EmptyString; body := EmptyString; icon := EmptyString |}.
    rewrite setData_shown, andb_false_r, List.app_nil_r. reflexivity.
  - unfold handleDeleteDebt. split; [apply setData_pushEnabled|].
    exists {| title := EmptyString; body := EmptyString; icon := EmptyString |}.
    rewrite setData_shown, andb_false_r, List.app_nil_r. reflexivity.
  - unfold handleMakePayment.
    destruct (sendSystemNotification_effect window "Pago Registrado"
                (currentUser c ++ " pagó $" ++ amountToString amount ++ " a "
                 ++ debtNameOf debtId (FinancialState.debts (data c)))
                (setData (makePayment debtId amount date newId (currentUser c)) c))
      as (Hs & _).
    split.
    + rewrite sendSystemNotification_pushEnabled. apply setData_pushEnabled.
    + eexists. rewrite Hs, setData_shown. unfold dispatches.
      rewrite setData_pushEnabled, andb_true_r. reflexivity.
Qed.

Lemma dispatches_pushEnabled (window : Window) (c c' : Component) :
  pushEnabled c' = pushEnabled c -> dispatches window c' = dispatches window c.
Proof. unfold dispatches. intros ->. reflexivity. Qed.

Lemma run_shown (steps : list (Window * Action)) (c : Component) :
  exists added,
    shown (run amountToString steps c) = (shown c ++ added)%list /\
    List.length added
    = List.length
        (List.filter (fun step => dispatches (fst step) c && notifies (snd step)) steps) /\
    pushEnabled (run amountToString steps c) = pushEnabled c.
Proof.
  unfold run. revert c.
  induction steps as [|[window a] steps IH]; intros c; simpl.
  - exists []. rewrite List.app_nil_r. repeat split.
  - destruct (perform_effect window a c) as (Hp & alert & Hs).
    destruct (IH (perform amountToString window a c)) as (added & Ha & Hn & Hp').
    exists ((if dispatches window c && notifies a then [alert] else []) ++ added)%list.
    split; [|split].
    + rewrite Ha, Hs, <- List.app_assoc. reflexivity.
    + rewrite List.length_app, Hn.
      rewrite (List.filter_ext
                 (fun step => dispatches (fst step) (perform amountToString window a c)
                              && notifies (snd step))
                 (fun step => dispatches (fst step) c && notifies (snd step)))
        by (intros step; rewrite (dispatches_pushEnabled _ c _ Hp); reflexivity).
      destruct (dispatches window c && notifies a); reflexivity.
    + rewrite Hp'. exact Hp.
Qed.

(** X15.  Over a session of actions, each run with the platform state of its
    time: the notifications constructed so far are kept, in order; one is
    added for each debt added and each payment recorded while the
    permission is recorded, the platform has notifications and the page is
    hidden, and for no other action; editing and deleting never notify.
    Without the permission recorded, no session constructs a
    notification. *)
Theorem run_notifications (steps : list (Window * Action)) (c : Component) :
  (exists added,
      shown (run amountToString steps c) = (shown c ++ added)%list /\
      List.length added
      = List.length
          (List.filter (fun step => dispatches (fst step) c && notifies (snd step)) steps)) /\
  pushEnabled (run amountToString steps c) = pushEnabled c /\
  (pushEnabled c = false -> shown (run amountToString steps c) = shown c).
Proof.
  destruct (run_shown steps c) as (added & Hs & Hn & Hp).
  split; [eauto|]. split; [exact Hp|].
  intros Hoff. rewrite Hs.
  rewrite (List.filter_ext _ (fun _ => false)) in Hn
    by (intros step; unfold dispatches; rewrite Hoff; reflexivity).
  assert (List.filter (fun _ : Window * Action => false) steps = []) as E
    by (clear; induction steps; simpl; auto).
  rewrite E in Hn. destruct added; [apply List.app_nil_r | discriminate].
Qed.

End SessionFacts.

Lemma run_notifications_witness :
  App.shown
    (Session.run Initial.sampleAmountToString
       [ (Initial.background, Session.MakePayment "1" 1000 "2024-03-01" "p1");
         (Initial.background, Session.AddDebt Initial.interestOnly "n1") ]
       Initial.component0_denied)
  = [].
Proof.
  apply (run_notifications Initial.sampleAmountToString). reflexivity.
Defined.

(** * Further properties of the reminder computation *)

Section ReminderFacts.
Import App Initial.
Local Open Scope Z_scope.

Lemma debtReminder_items (today : Date) (debt : Debt.t) (n : NotificationItem.t) :
  In n (debtReminder today debt) ->
  (n = dueTodayItem debt /\ Debt.dueDay debt = Some (getDate today))
  \/ exists daysLeft,
       1 <= daysLeft <= 3 /\ n = upcomingItem debt daysLeft
       /\ Debt.dueDay debt = Some (getDate today + daysLeft).
Proof.
  unfold debtReminder.
  destruct ((if Rlt_dec 0 (Debt.currentAmount debt) then true else false)
            && truthy (Debt.dueDay debt)); [|intros []].
  destruct (Debt.dueDay debt) as [dueDay|]; [|intros []].
  destruct (Z.eqb_spec (getDate today) dueDay) as [E|E].
  - intros [<- | []]. left. split; [reflexivity | congruence].
  - destruct (Z.gtb_spec dueDay (getDate today)) as [E1|E1]; simpl; [|intros []].
    destruct (Z.leb_spec dueDay (getDate today + 3)) as [E2|E2]; simpl; [|intros []].
    intros [<- | []]. right. exists (dueDay - getDate today).
    split; [lia|]. split; [reflexivity|]. f_equal. lia.
Qed.

(** X16.  Every item that the debt callback pushes is the due-today warning or a
    due-soon notice that counts 1, 2 or 3 days up to the due day. *)
Theorem debtReminder_days_left (today : Date) (debt : Debt.t) (n : NotificationItem.t) :
  In n (debtReminder today debt) ->
  (n = dueTodayItem debt /\ Debt.dueDay debt = Some (getDate today))
  \/ exists daysLeft,
       1 <= daysLeft <= 3 /\ n = upcomingItem debt daysLeft
       /\ Debt.dueDay debt = Some (getDate today + daysLeft).
Proof.
  intros Hn. destruct (debtReminder_items today debt n Hn) as [H | H].
  - left. exact H.
  - right. exact H.
Qed.

Lemma debtReminder_days_left_witness :
  (upcomingItem bbva 3 = dueTodayItem bbva /\ Debt.dueDay bbva = Some (getDate jan12))
  \/ exists daysLeft,
       1 <= daysLeft <= 3 /\ upcomingItem bbva 3 = upcomingItem bbva daysLeft
       /\ Debt.dueDay bbva = Some (getDate jan12 + daysLeft).
Proof.
  apply (debtReminder_days_left jan12 bbva (upcomingItem bbva 3)).
  rewrite (debtReminder_cases jan12 bbva 15);
    [left; reflexivity | simpl; lra | reflexivity | simpl; lia].
Defined.

(** A debt with no balance left, with no due day, or with the due day 0 has
    no reminder. *)
Lemma debtReminder_silent (today : Date) (debt : Debt.t) :
  (Debt.currentAmount debt <= 0)%R \/ Debt.dueDay debt = None \/ Debt.dueDay debt = Some 0 ->
  debtReminder today debt = [].
Proof.
  unfold debtReminder. intros [H | [H | H]].
  - destruct (Rlt_dec 0 (Debt.currentAmount debt)); [lra | reflexivity].
  - rewrite H. simpl. rewrite andb_false_r. reflexivity.
  - rewrite H. simpl. rewrite andb_false_r. reflexivity.
Qed.

(** X17.  Once a payment has covered the balance of the debts it is made to, the
    reminders of the debts are those of the other debts, unchanged and in
    the same order: a paid-off debt is not announced again. *)
Theorem reminders_after_payoff (today : Date) (debtId : string) (amount : R)
    (debts : list Debt.t) :
  List.Forall (fun d => Debt.id d = debtId -> (Debt.currentAmount d <= amount)%R) debts ->
  flat_map (debtReminder today) (payDebts debtId amount debts)
  = flat_map (debtReminder today)
      (List.filter (fun d => negb (String.eqb (Debt.id d) debtId)) debts).
Proof.
  induction 1 as [|d debts Hd _ IH]; [reflexivity|].
  simpl. fold (payDebts debtId amount debts). rewrite IH.
  destruct (String.eqb_spec (Debt.id d) debtId) as [E|E]; simpl; [|reflexivity].
  rewrite debtReminder_silent; [reflexivity|].
  left. simpl. unfold Rmax.
  specialize (Hd E).
  destruct (Rle_dec 0 (Debt.currentAmount d - amount)); lra.
Qed.

Lemma reminders_after_payoff_witness :
  flat_map (debtReminder feb15) (payDebts "1" 45000 (FinancialState.debts INITIAL_STATE))
  = flat_map (debtReminder feb15) [plataCard; fovissste].
Proof.
  apply (reminders_after_payoff feb15 "1" 45000 (FinancialState.debts INITIAL_STATE)).
  simpl. apply List.Forall_cons; [intros _; simpl; lra|].
  apply List.Forall_cons; [intros E; discriminate E|].
  apply List.Forall_cons; [intros E; discriminate E|].
  apply List.Forall_nil.
Defined.


Lemma debtReminder_length (today : Date) (debt : Debt.t) :
  (List.length (debtReminder today debt) <= 1)%nat.
Proof.
  unfold debtReminder.
  destruct (_ && truthy _); [|simpl; lia].
  destruct (Debt.dueDay debt) as [dueDay|]; [|simpl; lia].
  destruct (getDate today =? dueDay); [simpl; lia|].
  destruct (_ && _); simpl; lia.
Qed.




End ReminderFacts.

(** * Properties of the reminder ids *)

Section ReminderIds.
Import App Initial.
Local Open Scope Z_scope.

(** The id of an expense item tells the timestamp of its evaluation. *)
Lemma expenseItem_id_inj (t1 t2 : Date) (exp : Expense.t) (m1 m2 : string) :
  NotificationItem.id (expenseItem t1 exp m1) = NotificationItem.id (expenseItem t2 exp m2) ->
  getTime t1 = getTime t2.
Proof.
  simpl. intros E.
  apply (append_inj_l "exp-"), append_inj_l, (append_inj_l "-") in E.
  apply toString_inj. exact E.
Qed.

Lemma expenseCheck_same_day (t1 t2 : Date) (exp : Expense.t) :
  getDate t1 = getDate t2 -> getDay t1 = getDay t2 ->
  expenseCheck t1 exp = expenseCheck t2 exp.
Proof.
  intros Ed Ew. unfold expenseCheck. rewrite Ed, Ew. reflexivity.
Qed.

(** X19.  Two evaluations on the same day of the month and of the week give the
    same reminders in all but the ids: the same kinds, titles and messages,
    in the same order.  They give the same reminders, ids included, exactly
    when they are made at the same millisecond or no expense is due. *)
Theorem calculateNotifications_same_day (t1 t2 : Date) (data : FinancialState.t) :
  getDate t1 = getDate t2 -> getDay t1 = getDay t2 ->
  map (fun n => (NotificationItem.type n, NotificationItem.title n, NotificationItem.message n))
    (calculateNotifications t1 data)
  = map (fun n => (NotificationItem.type n, NotificationItem.title n, NotificationItem.message n))
      (calculateNotifications t2 data) /\
  (calculateNotifications t1 data = calculateNotifications t2 data
   <-> getTime t1 = getTime t2
       \/ List.Forall (fun exp => fst (expenseCheck t1 exp) = false)
            (FinancialState.expenses data)).
Proof.
  intros Ed Ew. rewrite !calculateNotifications_parts.
  destruct (debt_items_timestamp_free t1 t2 (FinancialState.debts data) Ed) as [Ec Edebts].
  rewrite Ec, Edebts.
  set (content := fun n => (NotificationItem.type n, NotificationItem.title n,
                            NotificationItem.message n)).
  assert (Hcontent : forall exps,
             map content (flat_map (expenseReminder t1) exps)
             = map content (flat_map (expenseReminder t2) exps)).
  { induction exps as [|exp exps IH]; [reflexivity|].
    simpl. rewrite !List.map_app, IH. f_equal.
    unfold expenseReminder. rewrite (expenseCheck_same_day t1 t2 exp Ed Ew).
    destruct (expenseCheck t2 exp) as [[|] msg]; reflexivity. }
  assert (Hids : forall exps,
             flat_map (expenseReminder t1) exps = flat_map (expenseReminder t2) exps
             <-> getTime t1 = getTime t2
                 \/ List.Forall (fun exp => fst (expenseCheck t1 exp) = false) exps).
  { induction exps as [|exp exps IH]; simpl.
    - split; [intros _; right; constructor | reflexivity].
    - unfold expenseReminder at 1 3.
      rewrite <- (expenseCheck_same_day t1 t2 exp Ed Ew).
      destruct (expenseCheck t1 exp) as [[|] msg] eqn:Echeck; simpl.
      + split.
        * intros E. left.
          assert (Eitem : expenseItem t1 exp msg = expenseItem t2 exp msg) by congruence.
          apply (expenseItem_id_inj t1 t2 exp msg msg).
          rewrite Eitem. reflexivity.
        * intros [Et | Hnone].
          -- f_equal.
             ++ unfold expenseItem. rewrite Et. reflexivity.
             ++ apply IH. left. exact Et.
          -- inversion Hnone as [|? ? Hexp _]; subst.
             rewrite Echeck in Hexp. discriminate.
      + rewrite IH. split.
        * intros [Et | Hnone]; [left; exact Et | right; constructor; [|exact Hnone]].
          rewrite Echeck. reflexivity.
        * intros [Et | Hnone]; [left; exact Et | right].
          inversion Hnone; assumption. }
  split.
  - rewrite !List.map_app. f_equal. f_equal. apply Hcontent.
  - rewrite <- Hids. split.
    + intros E. apply List.app_inv_head in E. apply List.app_inv_head in E. exact E.
    + intros ->. reflexivity.
Qed.

Lemma calculateNotifications_same_day_witness :
  map (fun n => (NotificationItem.type n, NotificationItem.title n, NotificationItem.message n))
    (calculateNotifications feb10 INITIAL_STATE)
  = map (fun n => (NotificationItem.type n, NotificationItem.title n, NotificationItem.message n))
      (calculateNotifications feb10_a_minute_later INITIAL_STATE).
Proof.
  apply (calculateNotifications_same_day feb10 feb10_a_minute_later INITIAL_STATE);
    reflexivity.
Defined.

End ReminderIds.

Section ReminderKeys.
Import App Initial.
Local Open Scope Z_scope.

(** The ids that the debts contribute. *)
Lemma debt_item_ids (today : Date) (debts : list Debt.t) (x : string) :
  In x (map NotificationItem.id (flat_map (debtReminder today) debts)) ->
  exists d, In d debts
            /\ (x = "debt-due-" ++ Debt.id d \/ x = "debt-upcoming-" ++ Debt.id d).
Proof.
  rewrite List.in_map_iff. intros (n & <- & Hn).
  apply List.in_flat_map in Hn as (d & Hd & Hn). exists d. split; [exact Hd|].
  apply debtReminder_items in Hn as [[-> _] | (k & _ & -> & _)]; [left | right];
    reflexivity.
Qed.

Lemma debt_item_ids_NoDup (today : Date) (debts : list Debt.t) :
  List.NoDup (map Debt.id debts) ->
  List.NoDup (map NotificationItem.id (flat_map (debtReminder today) debts)).
Proof.
  induction debts as [|d debts IH]; simpl; intros Hnd; [constructor|].
  inversion Hnd as [|? ? Hd Hnd']; subst.
  rewrite List.map_app.
  assert (Hrest : forall x,
             In x (map NotificationItem.id (flat_map (debtReminder today) debts)) ->
             x <> "debt-due-" ++ Debt.id d /\ x <> "debt-upcoming-" ++ Debt.id d).
  { intros x Hx. apply debt_item_ids in Hx as (d' & Hd' & Hx).
    assert (Debt.id d' <> Debt.id d).
    { intros E. apply Hd. rewrite <- E. apply List.in_map, Hd'. }
    destruct Hx as [-> | ->]; split; intros E.
    - apply append_inj_l in E. contradiction.
    - apply (append_inj_l "debt-") in E. discriminate E.
    - apply (append_inj_l "debt-") in E. discriminate E.
    - apply append_inj_l in E. contradiction. }
  pose proof (debtReminder_length today d) as Hlen.
  destruct (debtReminder today d) as [|n [|n' l]] eqn:En; simpl in *; [auto | | lia].
  constructor; [|auto].
  intros Hin. destruct (Hrest _ Hin) as [H1 H2].
  assert (Hn : In n (debtReminder today d)) by (rewrite En; left; reflexivity).
  apply debtReminder_items in Hn as [[-> _] | (k & _ & -> & _)];
    [apply H1 | apply H2]; reflexivity.
Qed.

Lemma expense_item_ids (today : Date) (exps : list Expense.t) (x : string) :
  In x (map NotificationItem.id (flat_map (expenseReminder today) exps)) ->
  exists exp, In exp exps
              /\ x = "exp-" ++ Expense.id exp ++ "-" ++ JS.toString (getTime today).
Proof.
  rewrite List.in_map_iff. intros (n & <- & Hn).
  apply List.in_flat_map in Hn as (exp & Hexp & Hn). exists exp. split; [exact Hexp|].
  unfold expenseReminder in Hn.
  destruct (expenseCheck today exp) as [[|] msg]; [|destruct Hn].
  destruct Hn as [<- | []]. reflexivity.
Qed.

Lemma expense_item_ids_NoDup (today : Date) (exps : list Expense.t) :
  List.NoDup (map Expense.id exps) ->
  List.NoDup (map NotificationItem.id (flat_map (expenseReminder today) exps)).
Proof.
  induction exps as [|exp exps IH]; simpl; intros Hnd; [constructor|].
  inversion Hnd as [|? ? Hexp Hnd']; subst.
  rewrite List.map_app.
  unfold expenseReminder at 1.
  destruct (expenseCheck today exp) as [[|] msg]; simpl; [|auto].
  constructor; [|auto].
  intros Hin. apply expense_item_ids in Hin as (exp' & Hexp' & E).
  apply (append_inj_l "exp-"), append_inj_r in E.
  apply Hexp. rewrite E. apply List.in_map, Hexp'.
Qed.

(** X20.  When the debts have different ids and the expenses have different ids,
    the reminders of one evaluation all have different ids: the check-in,
    the debt items and the expense items never share one. *)
Theorem calculateNotifications_ids_NoDup (today : Date) (data : FinancialState.t) :
  List.NoDup (map Debt.id (FinancialState.debts data)) ->
  List.NoDup (map Expense.id (FinancialState.expenses data)) ->
  List.NoDup (map NotificationItem.id (calculateNotifications today data)).
Proof.
  intros Hdebts Hexps. rewrite calculateNotifications_parts, !List.map_app.
  apply List.NoDup_app.
  - unfold monthlyCheckin. destruct (getDate today <=? 3); simpl.
    + constructor; [intros [] | constructor].
    + constructor.
  - apply List.NoDup_app.
    + apply debt_item_ids_NoDup, Hdebts.
    + apply expense_item_ids_NoDup, Hexps.
    + intros x Hx Hin.
      apply debt_item_ids in Hx as (d & _ & Hx).
      apply expense_item_ids in Hin as (exp & _ & E).
      destruct Hx as [-> | ->]; discriminate E.
  - intros x Hx Hin.
    assert (x = "monthly-checkin").
    { unfold monthlyCheckin in Hx. destruct (getDate today <=? 3); simpl in Hx;
        [destruct Hx as [<- | []]; reflexivity | destruct Hx]. }
    subst x. apply List.in_app_or in Hin as [Hin | Hin].
    + apply debt_item_ids in Hin as (d & _ & [E | E]); discriminate E.
    + apply expense_item_ids in Hin as (exp & _ & E). discriminate E.
Qed.

Lemma calculateNotifications_ids_NoDup_witness :
  List.NoDup (map NotificationItem.id (calculateNotifications feb15 INITIAL_STATE)).
Proof.
  apply calculateNotifications_ids_NoDup; simpl.
  - repeat (constructor; [simpl; intuition discriminate|]). constructor.
  - repeat (constructor; [simpl; intuition discriminate|]). constructor.
Defined.

End ReminderKeys.

Section BiWeekly.
Import App Initial.
Local Open Scope Z_scope.

(** X21.  On day [d] of the month, from 1 to 31, a bi-weekly expense due on
    a day from 1 to 16 is announced iff [d] is the due day or the due day
    plus 15; one due on the 17th or later iff [d] is the due day, the due
    day plus 15 being past the 31st; one whose due day is 0, on no day. *)
Theorem biweekly_anchors (today : Date) (exp : Expense.t) (dueDay : Z) :
  Expense.frequency exp = Some BiWeekly -> Expense.dueDay exp = Some dueDay ->
  1 <= getDate today <= 31 ->
  (1 <= dueDay <= 16 ->
   (fst (expenseCheck today exp) = true
    <-> getDate today = dueDay \/ getDate today = dueDay + 15)) /\
  (17 <= dueDay ->
   (fst (expenseCheck today exp) = true <-> getDate today = dueDay)) /\
  (dueDay = 0 -> fst (expenseCheck today exp) = false).
Proof.
  intros Hf Hd Hrange. unfold expenseCheck, truthy, dayIs. rewrite Hf, Hd. simpl.
  destruct (Z.eqb_spec dueDay 0) as [E0|E0];
    destruct (Z.eqb_spec (getDate today) dueDay) as [E1|E1];
    destruct (Z.eqb_spec (getDate today) (dueDay + 15)) as [E2|E2]; simpl;
    repeat split; intros; try discriminate; try reflexivity; try lia; auto;
    match goal with H : _ \/ _ |- _ => destruct H; contradiction end.
Qed.

Lemma biweekly_anchors_witness :
  fst (expenseCheck jan30 ninera) = true
  <-> getDate jan30 = 15 \/ getDate jan30 = 15 + 15.
Proof.
  destruct (biweekly_anchors jan30 ninera 15) as (H & _).
  - reflexivity.
  - reflexivity.
  - simpl. lia.
  - apply H. lia.
Defined.

End BiWeekly.

Section PermissionDenied.
Import App Session.
Variable amountToString : R -> string.

Lemma run_shown_disabled (steps : list (Window * Action)) (c : Component) :
  pushEnabled c = false -> shown (run amountToString steps c) = shown c.
Proof.
  intros Hoff. destruct (run_shown amountToString steps c) as (added & Hs & Hn & _).
  rewrite Hs.
  rewrite (List.filter_ext _ (fun _ => false)) in Hn
    by (intros step; unfold dispatches; rewrite Hoff; reflexivity).
  assert (List.filter (fun _ : Window * Action => false) steps = []) as E
    by (clear; induction steps; simpl; auto).
  rewrite E in Hn. destruct added; [apply List.app_nil_r | discriminate].
Qed.

(** X22.  When the platform has no notifications, or the permission was not
    granted before and the request is not answered with a grant, the
    permission effect leaves [pushEnabled] off, and no action of the session
    that follows constructs a notification, hidden page or not. *)
Theorem denied_never_notifies
    (window : Window) (answer : NotificationPermission)
    (steps : list (Window * Action)) (c : Component) :
  pushEnabled c = permissionEffect window answer ->
  Notification window = None
  \/ (Notification window <> Some granted /\ answer <> granted) ->
  pushEnabled c = false /\ shown (run amountToString steps c) = shown c.
Proof.
  intros Hperm Hdenied.
  assert (Hoff : pushEnabled c = false).
  { rewrite Hperm. unfold permissionEffect.
    destruct Hdenied as [-> | [Hn Ha]]; [reflexivity|].
    destruct (Notification window) as [[ | | ]|]; try reflexivity;
      try contradiction; destruct answer; try reflexivity; contradiction. }
  split; [exact Hoff | apply run_shown_disabled, Hoff].
Qed.

End PermissionDenied.

Lemma denied_never_notifies_witness :
  App.shown
    (Session.run Initial.sampleAmountToString
       [ (Initial.background, Session.MakePayment "1" 1000 "2024-03-01" "p1") ]
       Initial.component0_denied)
  = [].
Proof.
  apply (denied_never_notifies Initial.sampleAmountToString
           {| App.Notification := Some App.default; App.visibilityState := App.hidden |}
           App.denied).
  - reflexivity.
  - right. split; discriminate.
Defined.
